(** * SmashImpact: the WASM build monitor (scripts/wasm-build-monitor.py)

    A shallow embedding of the monitor's change detection, build
    orchestration, statistics and debounce logic, followed by the
    properties of the specification that concern them.

    Conventions.  Python [str] and [bytes] values are Rocq [string]s (a
    sequence of 8-bit characters); Python [int]s are [Z]; the readings of
    [time.time()] are binary64 floats ([float]); a [Dict[str, str]] is a
    [gmap string string]; a [set] of paths is a [gset string].  A call that
    can raise returns a [result]; a method that mutates [self] or touches
    the outside world is a function of the state it reads to the state it
    leaves. *)

From Stdlib Require Import ZArith Floats Ascii String List Bool Lia.
From stdpp Require Import base option gmap strings list.
Import ListNotations.

Set Default Proof Using "Type".
Set Warnings "-register-all".

(* ===================================================================== *)
(** * Part I: the model                                                   *)
(* ===================================================================== *)

(** ** hashlib.md5

    The digest the monitor stores is [hashlib.md5(...).hexdigest()].  The
    function below is MD5 as RFC 1321 defines it, on a list of bytes given
    as integers in [0, 255]. *)

Module MD5.
Local Open Scope Z_scope.

Definition mask32 : Z := 4294967295.

Definition add32 (a b : Z) : Z := Z.land (a + b) mask32.

Definition not32 (a : Z) : Z := Z.lxor a mask32.

Definition rotl32 (x c : Z) : Z :=
  Z.land (Z.lor (Z.shiftl x c) (Z.shiftr x (32 - c))) mask32.

(** [K i = floor (2^32 * |sin (i + 1)|)]. *)
Definition K : list Z :=
  [ 3614090360; 3905402710; 606105819; 3250441966;
    4118548399; 1200080426; 2821735955; 4249261313;
    1770035416; 2336552879; 4294925233; 2304563134;
    1804603682; 4254626195; 2792965006; 1236535329;
    4129170786; 3225465664; 643717713; 3921069994;
    3593408605; 38016083; 3634488961; 3889429448;
    568446438; 3275163606; 4107603335; 1163531501;
    2850285829; 4243563512; 1735328473; 2368359562;
    4294588738; 2272392833; 1839030562; 4259657740;
    2763975236; 1272893353; 4139469664; 3200236656;
    681279174; 3936430074; 3572445317; 76029189;
    3654602809; 3873151461; 530742520; 3299628645;
    4096336452; 1126891415; 2878612391; 4237533241;
    1700485571; 2399980690; 4293915773; 2240044497;
    1873313359; 4264355552; 2734768916; 1309151649;
    4149444226; 3174756917; 718787259; 3951481745 ].

(** The per-round left-rotation amounts. *)
Definition R : list Z :=
  [ 7; 12; 17; 22; 7; 12; 17; 22; 7; 12; 17; 22; 7; 12; 17; 22;
    5; 9; 14; 20; 5; 9; 14; 20; 5; 9; 14; 20; 5; 9; 14; 20;
    4; 11; 16; 23; 4; 11; 16; 23; 4; 11; 16; 23; 4; 11; 16; 23;
    6; 10; 15; 21; 6; 10; 15; 21; 6; 10; 15; 21; 6; 10; 15; 21 ].

(** [n] bytes of [x], least significant first. *)
Fixpoint le_bytes (n : nat) (x : Z) : list Z :=
  match n with
  | O => []
  | S n' => Z.land x 255 :: le_bytes n' (Z.shiftr x 8)
  end.

Fixpoint le_word (bs : list Z) : Z :=
  match bs with
  | [] => 0
  | b :: bs' => b + 256 * le_word bs'
  end.

Definition pad (msg : list Z) : list Z :=
  let len := Z.of_nat (List.length msg) in
  msg ++ [128] ++ List.repeat 0 (Z.to_nat ((55 - len) mod 64))
      ++ le_bytes 8 (8 * len).

(** The sixteen little-endian words of a 64-byte block. *)
Fixpoint words (n : nat) (block : list Z) : list Z :=
  match n with
  | O => []
  | S n' => le_word (firstn 4 block) :: words n' (skipn 4 block)
  end.

Definition step (M : list Z) (st : Z * Z * Z * Z) (i : nat) : Z * Z * Z * Z :=
  let '(a, b, c, d) := st in
  let iz := Z.of_nat i in
  let '(f, g) :=
    if (i <? 16)%nat then (Z.lor (Z.land b c) (Z.land (not32 b) d), iz)
    else if (i <? 32)%nat then
      (Z.lor (Z.land d b) (Z.land (not32 d) c), (5 * iz + 1) mod 16)
    else if (i <? 48)%nat then (Z.lxor (Z.lxor b c) d, (3 * iz + 5) mod 16)
    else (Z.lxor c (Z.lor b (not32 d)), (7 * iz) mod 16) in
  let f' := add32 (add32 (add32 f a) (nth i K 0)) (nth (Z.to_nat g) M 0) in
  (d, add32 b (rotl32 f' (nth i R 0)), b, c).

Definition compress (st : Z * Z * Z * Z) (block : list Z) : Z * Z * Z * Z :=
  let '(a0, b0, c0, d0) := st in
  let '(a, b, c, d) := fold_left (step (words 16 block)) (seq 0 64) st in
  (add32 a0 a, add32 b0 b, add32 c0 c, add32 d0 d).

Fixpoint blocks (n : nat) (st : Z * Z * Z * Z) (bytes : list Z)
  : Z * Z * Z * Z :=
  match n with
  | O => st
  | S n' => blocks n' (compress st (firstn 64 bytes)) (skipn 64 bytes)
  end.

Definition init : Z * Z * Z * Z := (1732584193, 4023233417, 2562383102, 271733878).

Definition digest (msg : list Z) : list Z :=
  let padded := pad msg in
  let '(a, b, c, d) := blocks (List.length padded / 64) init padded in
  le_bytes 4 a ++ le_bytes 4 b ++ le_bytes 4 c ++ le_bytes 4 d.

Definition hex_digit (n : Z) : ascii :=
  nth (Z.to_nat n)
      (list_ascii_of_string "0123456789abcdef") "0"%char.

Fixpoint hex (bs : list Z) : string :=
  match bs with
  | [] => EmptyString
  | b :: bs' =>
      String (hex_digit (Z.shiftr b 4))
        (String (hex_digit (Z.land b 15)) (hex bs'))
  end.

Definition bytes_of_string (s : string) : list Z :=
  List.map (fun c => Z.of_N (N_of_ascii c)) (list_ascii_of_string s).

(** [hashlib.md5(s).hexdigest()]. *)
Definition hexdigest (s : string) : string := hex (digest (bytes_of_string s)).

End MD5.

(** ** Exceptions and results *)

(** The exception classes the monitor and the calls it makes can raise.
    [KeyboardInterrupt] derives from [BaseException] only; every other one
    is an [Exception]. *)
Inductive exn : Type :=
| FileNotFoundError (filename : string)
| PermissionError (filename : string)
| IsADirectoryError (filename : string)
| NotADirectoryError (filename : string)
| FileExistsError (filename : string)
| JSONDecodeError (msg : string)
| KeyError (key : string)
| TypeError (msg : string)
| ValueError (msg : string)
| OSError (strerror filename : string)
| AttributeError (msg : string)
| IndexError
| RecursionError
| RuntimeError (msg : string)
| KeyboardInterrupt.

(** [isinstance(e, Exception)]. *)
Definition is_Exception (e : exn) : bool :=
  match e with
  | KeyboardInterrupt => false
  | _ => true
  end.

(** [isinstance(e, FileNotFoundError)]. *)
Definition is_FileNotFoundError (e : exn) : bool :=
  match e with
  | FileNotFoundError _ => true
  | _ => false
  end.

(** [str(e)].  The texts of the errors the interpreter raises itself are the
    ones CPython prints. *)
Definition str_exn (e : exn) : string :=
  match e with
  | FileNotFoundError f => "[Errno 2] No such file or directory: '" +:+ f +:+ "'"
  | PermissionError f => "[Errno 13] Permission denied: '" +:+ f +:+ "'"
  | IsADirectoryError f => "[Errno 21] Is a directory: '" +:+ f +:+ "'"
  | NotADirectoryError f => "[Errno 20] Not a directory: '" +:+ f +:+ "'"
  | FileExistsError f => "[Errno 17] File exists: '" +:+ f +:+ "'"
  | JSONDecodeError msg => msg
  | KeyError k => "'" +:+ k +:+ "'"
  | TypeError msg => msg
  | ValueError msg => msg
  | OSError strerror f => strerror +:+ ": '" +:+ f +:+ "'"
  | AttributeError msg => msg
  | IndexError => "list index out of range"
  | RecursionError => "maximum recursion depth exceeded"
  | RuntimeError msg => msg
  | KeyboardInterrupt => ""
  end.

Inductive result (A : Type) : Type :=
| Ret (a : A)
| Raise (e : exn).
Arguments Ret {A} a.
Arguments Raise {A} e.

Definition returns {A : Type} (r : result A) : bool :=
  match r with
  | Ret _ => true
  | Raise _ => false
  end.

(** A computation over a mutable state [S]: the state it leaves is kept
    also when it raises, as a Python object keeps the assignments made
    before an exception. *)
Definition M (S A : Type) : Type := S -> result A * S.

Definition ret {S A : Type} (a : A) : M S A := fun s => (Ret a, s).

Definition raise {S A : Type} (e : exn) : M S A := fun s => (Raise e, s).

Definition bind {S A B : Type} (m : M S A) (k : A -> M S B) : M S B :=
  fun s =>
    match m s with
    | (Ret a, s') => k a s'
    | (Raise e, s') => (Raise e, s')
    end.

Declare Scope py_scope.
Delimit Scope py_scope with py.
Notation "x <- m ;; k" := (bind m (fun x => k))
  (at level 100, m at next level, right associativity) : py_scope.
Notation "m ;;; k" := (bind m (fun _ => k))
  (at level 100, right associativity) : py_scope.

(** A call that only reads the state. *)
Definition reading {S A : Type} (f : S -> result A) : M S A :=
  fun s => (f s, s).

(** An assignment. *)
Definition modify {S : Type} (f : S -> S) : M S unit :=
  fun s => (Ret tt, f s).

(** [try: body  except C as e: handler(e)], for the class [C] whose instances
    [caught] recognises. *)
Definition try_except_if {S A : Type} (caught : exn -> bool) (body : M S A)
    (handler : exn -> M S A) : M S A :=
  fun s =>
    match body s with
    | (Raise e, s') => if caught e then handler e s' else (Raise e, s')
    | r => r
    end.

(** [try: body  except Exception as e: handler(e)]. *)
Definition try_except {S A : Type} (body : M S A) (handler : exn -> M S A)
  : M S A :=
  try_except_if is_Exception body handler.

(** [try: body  finally: cleanup]: the cleanup runs on every path; when it
    raises, its exception replaces the outcome of the body. *)
Definition try_finally {S A : Type} (body : M S A) (cleanup : M S unit)
  : M S A :=
  fun s =>
    let '(r, s') := body s in
    match cleanup s' with
    | (Ret _, s'') => (r, s'')
    | (Raise e, s'') => (Raise e, s'')
    end.

(** A computation on a part of the state, run inside a larger one. *)
Definition zoom {S T A : Type} (get : T -> S) (set : S -> T -> T) (m : M S A)
  : M T A :=
  fun t => let '(r, s') := m (get t) in (r, set s' t).

(** ** JSON values, as [json.load] returns them *)

Inductive json : Type :=
| JNull
| JBool (b : bool)
| JInt (z : Z)
| JFloat (f : float)
| JStr (s : string)
| JList (l : list json)
| JDict (d : list (string * json)).

Fixpoint assoc {A : Type} (k : string) (d : list (string * A)) : option A :=
  match d with
  | [] => None
  | (k', v) :: d' => if String.eqb k k' then Some v else assoc k d'
  end.

(** [type(v).__name__]. *)
Definition type_name (v : json) : string :=
  match v with
  | JNull => "NoneType"
  | JBool _ => "bool"
  | JInt _ => "int"
  | JFloat _ => "float"
  | JStr _ => "str"
  | JList _ => "list"
  | JDict _ => "dict"
  end.

(** [v[k]] for a string key [k]. *)
Definition getitem (v : json) (k : string) : result json :=
  match v with
  | JDict d =>
      match assoc k d with
      | Some x => Ret x
      | None => Raise (KeyError k)
      end
  | JList _ => Raise (TypeError "list indices must be integers or slices, not str")
  | JStr _ => Raise (TypeError "string indices must be integers, not 'str'")
  | _ => Raise (TypeError ("'" +:+ type_name v +:+ "' object is not subscriptable"))
  end.

(** [v.get(k, dflt)]. *)
Definition dict_get (v : json) (k : string) (dflt : json) : result json :=
  match v with
  | JDict d => Ret (default dflt (assoc k d))
  | _ => Raise (AttributeError
                  ("'" +:+ type_name v +:+ "' object has no attribute 'get'"))
  end.

(** A value used where a path is required ([Path(v)], [cwd=v]). *)
Definition as_str (v : json) : result string :=
  match v with
  | JStr s => Ret s
  | _ => Raise (TypeError ("expected str, bytes or os.PathLike object, not "
                             +:+ type_name v))
  end.

Definition dquote : string := String "034"%char EmptyString.

(** [' ' + v]. *)
Definition concat_space (v : json) : result string :=
  match v with
  | JStr s => Ret (" " +:+ s)
  | _ => Raise (TypeError ("can only concatenate str (not " +:+ dquote
                             +:+ type_name v +:+ dquote +:+ ") to str"))
  end.

Definition join (sep : string) (l : list string) : string :=
  match l with
  | [] => ""
  | x :: l' => fold_left (fun acc y => acc +:+ sep +:+ y) l' x
  end.

Fixpoint all_str (l : list json) : result (list string) :=
  match l with
  | [] => Ret []
  | JStr s :: l' =>
      match all_str l' with
      | Ret ss => Ret (s :: ss)
      | Raise e => Raise e
      end
  | v :: _ =>
      Raise (TypeError ("sequence item: expected str instance, "
                          +:+ type_name v +:+ " found"))
  end.

(** [' '.join(v)]: a list must hold strings, a string is joined character by
    character, a dict by its keys. *)
Definition join_spaces (v : json) : result string :=
  match v with
  | JList l =>
      match all_str l with
      | Ret ss => Ret (join " " ss)
      | Raise e => Raise e
      end
  | JStr s =>
      Ret (join " " (List.map (fun c => String c EmptyString)
                              (list_ascii_of_string s)))
  | JDict d => Ret (join " " (List.map fst d))
  | _ => Raise (TypeError "can only join an iterable")
  end.

(** ** The file system *)

Inductive node : Type :=
| Dir
| Reg (readable writable : bool) (data : string).

(** [Path(d) / name], as a string. *)
Definition joinpath (d name : string) : string := d +:+ "/" +:+ name.

(** [Path(p).exists()]. *)
Definition path_exists (disk : gmap string node) (p : string) : bool :=
  match disk !! p with
  | Some _ => true
  | None => false
  end.

(** [Path(p).stat().st_size] of an existing path (4096 for a directory). *)
Definition st_size (n : node) : Z :=
  match n with
  | Dir => 4096
  | Reg _ _ data => Z.of_nat (String.length data)
  end.

(** [Path(p).is_file()]. *)
Definition is_file (disk : gmap string node) (p : string) : bool :=
  match disk !! p with
  | Some (Reg _ _ _) => true
  | _ => false
  end.

(** [Path(p).is_dir()]: a directory is one the map lists, or one that
    something the map lists is in. *)
Definition is_dir (disk : gmap string node) (p : string) : bool :=
  match disk !! p with
  | Some Dir => true
  | Some (Reg _ _ _) => false
  | None => existsb (String.prefix (p +:+ "/")) (fst <$> map_to_list disk)
  end.

(** A path that holds a NUL character. *)
Fixpoint has_nul (p : string) : bool :=
  match p with
  | EmptyString => false
  | String c p' => Ascii.eqb c Ascii.zero || has_nul p'
  end.

(** The limits of the system on the length of a name and of a path. *)
Definition NAME_MAX : nat := 255.
Definition PATH_MAX : nat := 4096.

Definition ENAMETOOLONG : string := "[Errno 36] File name too long".

(** The way to the path [whole], name by name: [prefix] is what has been
    read of it, [name] the name being read, [rest] what is left to read.
    Each name is looked up in turn; a name above the limit is refused, a
    regular file cannot be gone through, and a directory that is not there
    ends the way.  The last name is left to the caller. *)
Fixpoint walk (disk : gmap string node) (whole prefix name rest : string)
  : option exn :=
  match rest with
  | EmptyString =>
      if (NAME_MAX <? String.length name)%nat
      then Some (OSError ENAMETOOLONG whole)
      else None
  | String c rest' =>
      if Ascii.eqb c "/" then
        if (NAME_MAX <? String.length name)%nat
        then Some (OSError ENAMETOOLONG whole)
        else if String.eqb name ""
             then walk disk whole (prefix +:+ "/") "" rest'
        else if is_file disk prefix then Some (NotADirectoryError whole)
        else if is_dir disk prefix
             then walk disk whole (prefix +:+ "/") "" rest'
             else Some (FileNotFoundError whole)
      else walk disk whole (prefix +:+ String c EmptyString)
                (name +:+ String c EmptyString) rest'
  end.

(** What the way to a path raises, before its last name is looked up: a
    path with a NUL character is refused by the interpreter, one above the
    limit by the system, and the others are walked. *)
Definition resolve (disk : gmap string node) (p : string) : option exn :=
  if has_nul p then Some (ValueError "embedded null byte")
  else if (PATH_MAX <=? String.length p)%nat
       then Some (OSError ENAMETOOLONG p)
       else walk disk p "" "" p.

(** [open(p, 'r')] or [open(p, 'rb')], giving the contents to be read.
    The map gives, for a path as it is spelled, what the path leads to.
    Of the errors of [open], the ones told apart are those of the way to
    the path (a NUL character, a name or a path above the limit, a regular
    file or a missing directory on the way), of a path that is not there,
    of a directory and of a file without read permission. *)
Definition open_read (disk : gmap string node) (p : string) : result string :=
  match resolve disk p with
  | Some e => Raise e
  | None =>
      match disk !! p with
      | None => Raise (FileNotFoundError p)
      | Some Dir => Raise (IsADirectoryError p)
      | Some (Reg r _ data) => if r then Ret data else Raise (PermissionError p)
      end
  end.

(** [with open(Path(d) / name, 'w') as f: f.write(text)]. *)
Definition write_file (d name text : string) : M (gmap string node) unit :=
  fun disk =>
    let p := joinpath d name in
    match disk !! p with
    | Some Dir => (Raise (IsADirectoryError p), disk)
    | Some (Reg r w _) =>
        if w then (Ret tt, <[p := Reg r w text]> disk)
        else (Raise (PermissionError p), disk)
    | None =>
        match disk !! d with
        | Some Dir => (Ret tt, <[p := Reg true true text]> disk)
        | Some (Reg _ _ _) => (Raise (NotADirectoryError p), disk)
        | None => (Raise (FileNotFoundError p), disk)
        end
    end.

(** [Path(p).mkdir(parents=True, exist_ok=True)]. *)
Definition mkdir (p : string) : M (gmap string node) unit :=
  fun disk =>
    match disk !! p with
    | Some Dir => (Ret tt, disk)
    | Some (Reg _ _ _) => (Raise (FileExistsError p), disk)
    | None => (Ret tt, <[p := Dir]> disk)
    end.

(** [f.read(n)] on what is left of a file: the chunk and the rest. *)
Fixpoint read (n : nat) (s : string) : string * string :=
  match n, s with
  | S n', String c s' => let '(chunk, rest) := read n' s' in (String c chunk, rest)
  | _, _ => (EmptyString, s)
  end.

(** [iter(lambda: f.read(n), b"")]: the chunks up to the first empty one.
    [fuel] bounds the number of reads. *)
Fixpoint chunks (fuel n : nat) (s : string) : list string :=
  match fuel with
  | O => []
  | S fuel' =>
      let '(chunk, rest) := read n s in
      match chunk with
      | EmptyString => []
      | _ => chunk :: chunks fuel' n rest
      end
  end.

(** ** The monitor's data *)

(** The dataclass [BuildStats]: one record per build attempt. *)
Record BuildStats : Type := mkBuildStats {
  start_time : float;
  end_time : float;
  success : bool;
  mode : string;
  files_changed : list string;
  output_size_js : Z;
  output_size_wasm : Z;
  error_message : string;
  warnings : option (list string)
}.

(** The property [duration]. *)
Definition duration (b : BuildStats) : float :=
  PrimFloat.sub (end_time b) (start_time b).

(** [to_dict], that is [dataclasses.asdict]: [duration] is a property, not a
    field, and is not part of it. *)
Definition to_dict (b : BuildStats) : json :=
  JDict [ ("start_time", JFloat (start_time b));
          ("end_time", JFloat (end_time b));
          ("success", JBool (success b));
          ("mode", JStr (mode b));
          ("files_changed", JList (List.map JStr (files_changed b)));
          ("output_size_js", JInt (output_size_js b));
          ("output_size_wasm", JInt (output_size_wasm b));
          ("error_message", JStr (error_message b));
          ("warnings", match warnings b with
                       | None => JNull
                       | Some ws => JList (List.map JStr ws)
                       end) ].

(** The dictionary [self.stats].  [last_build] holds the clock reading whose
    ISO-8601 text the code stores. *)
Record Stats : Type := mkStats {
  total_builds : Z;
  successful_builds : Z;
  failed_builds : Z;
  total_build_time : float;
  last_build : option float
}.

(** The fields of a [BuildMonitor] ([build_lock] is the mutex that makes the
    test-and-set of [is_building] one step). *)
Record BuildMonitor : Type := mkBuildMonitor {
  config_file : string;
  config : json;
  file_hashes : gmap string string;
  build_history : list BuildStats;
  is_building : bool;
  stats : Stats
}.

(** What [subprocess.run(..., capture_output=True, text=True)] returns. *)
Record CompletedProcess : Type := mkCompletedProcess {
  returncode : Z;
  stdout : string;
  stderr : string
}.

Inductive level : Type := INFO | WARNING | ERROR.

(** The messages the monitor logs, by their template and arguments (colour
    codes and number formatting left out). *)
Inductive message : Type :=
| ConfigNotFound (file : string)
| BuildSkipped
| StartingBuild (mode : string)
| EmscriptenFound (version : string)
| SourcingEmscripten
| EmscriptenNotFound
| BuildCommand (cmd : string)
| BuildSuccessful
| OutputSizes (js wasm : Z)
| BuildFailed
| CompilerStderr (text : string)
| CompletedWithWarnings (n : nat)
| BuildError (e : exn)
| StatsLine (succeeded total : Z) (total_time : float)
| SaveCacheFailed (e : exn)
| SaveHistoryFailed (e : exn)
| ChangesDetected (n : nat).

(** The world outside the monitor object: the file system, the wall clock
    (the sequence of its readings and how many were taken), the [PATH]
    variable of [os.environ], what running [emcc --version] under a given
    [PATH] gives, what running a shell command in a working directory gives
    and does to the file system, and the log written so far. *)
Record World : Type := mkWorld {
  disk : gmap string node;
  clock : nat -> float;
  ticks : nat;
  environ_PATH : option string;
  emcc_version : option string -> result CompletedProcess;
  shell : string -> string -> gmap string node
          -> result CompletedProcess * gmap string node;
  log : list (level * message)
}.

(** The monitor object together with the world it runs in. *)
Record Sys : Type := mkSys {
  self : BuildMonitor;
  world : World
}.

Definition set_disk (d : gmap string node) (w : World) : World :=
  mkWorld d (clock w) (ticks w) (environ_PATH w) (emcc_version w) (shell w)
          (log w).

Definition set_ticks (n : nat) (w : World) : World :=
  mkWorld (disk w) (clock w) n (environ_PATH w) (emcc_version w) (shell w)
          (log w).

Definition set_environ_PATH (p : option string) (w : World) : World :=
  mkWorld (disk w) (clock w) (ticks w) p (emcc_version w) (shell w) (log w).

Definition set_log (l : list (level * message)) (w : World) : World :=
  mkWorld (disk w) (clock w) (ticks w) (environ_PATH w) (emcc_version w)
          (shell w) l.

Definition set_file_hashes (h : gmap string string) (m : BuildMonitor)
  : BuildMonitor :=
  mkBuildMonitor (config_file m) (config m) h (build_history m)
                 (is_building m) (stats m).

Definition set_build_history (l : list BuildStats) (m : BuildMonitor)
  : BuildMonitor :=
  mkBuildMonitor (config_file m) (config m) (file_hashes m) l
                 (is_building m) (stats m).

Definition set_is_building (b : bool) (m : BuildMonitor) : BuildMonitor :=
  mkBuildMonitor (config_file m) (config m) (file_hashes m) (build_history m)
                 b (stats m).

Definition set_stats (st : Stats) (m : BuildMonitor) : BuildMonitor :=
  mkBuildMonitor (config_file m) (config m) (file_hashes m) (build_history m)
                 (is_building m) st.

Definition set_self (m : BuildMonitor) (s : Sys) : Sys := mkSys m (world s).

Definition set_world (w : World) (s : Sys) : Sys := mkSys (self s) w.

(** [logger.info], [logger.warning], [logger.error]. *)
Definition logger (lv : level) (msg : message) : M World unit :=
  modify (fun w => set_log (log w ++ [(lv, msg)]) w).

(** The reading the clock gives next, and the world once it is taken. *)
Definition now (w : World) : float := clock w (ticks w).

Definition tick (w : World) : World := set_ticks (S (ticks w)) w.

(** [time.time()] and [datetime.now()]. *)
Definition time_time : M World float := fun w => (Ret (now w), tick w).

(** A step in the world, taken from a method of the monitor. *)
Definition in_world {A : Type} (m : M World A) : M Sys A :=
  zoom world set_world m.

(** A step on the file system. *)
Definition on_disk {A : Type} (m : M (gmap string node) A) : M World A :=
  zoom disk set_disk m.

(** [Path(cfg['paths'][k])], as a string. *)
Definition config_str (cfg : json) (k : string) : result string :=
  match getitem cfg "paths" with
  | Ret paths =>
      match getitem paths k with
      | Ret v => as_str v
      | Raise e => Raise e
      end
  | Raise e => Raise e
  end.

(** [Path(self.config['paths'][k])]. *)
Definition config_path (k : string) : M Sys string :=
  reading (fun s => config_str (config (self s)) k).

(** ** Configuration *)

Definition get_default_config : json :=
  JDict [ ("paths", JDict [ ("workspace", JStr "/workspace");
                            ("wasm_dir", JStr "wasm");
                            ("public_dir", JStr "public");
                            ("cache_dir", JStr ".build-cache");
                            ("logs_dir", JStr "logs") ]);
          ("build_modes",
           JDict [ ("release",
                    JDict [ ("optimization", JStr "-O3");
                            ("flags", JList [JStr "-s MALLOC=emmalloc"]) ]) ]);
          ("watch", JDict [ ("enabled", JBool true);
                            ("debounce_ms", JInt 1000) ]) ].

(** [self.config['paths'][k]]. *)
Definition config_item (k : string) : M Sys json :=
  reading (fun s =>
    match getitem (config (self s)) "paths" with
    | Ret paths => getitem paths k
    | Raise e => Raise e
    end).

(** [Path(dir_path).mkdir(parents=True, exist_ok=True)] for an entry of the
    configuration. *)
Definition make_directory (dir_path : json) : M Sys unit :=
  (p <- reading (fun _ => as_str dir_path);;
   in_world (on_disk (mkdir p)))%py.

(** [setup_directories], on the configuration already loaded: the three
    entries are looked up, then the directories made one by one. *)
Definition setup_directories : M Sys unit :=
  (public_dir <- config_item "public_dir";;
   cache_dir <- config_item "cache_dir";;
   logs_dir <- config_item "logs_dir";;
   make_directory public_dir;;;
   make_directory cache_dir;;;
   make_directory logs_dir)%py.

(** ** Change detection *)

(** [calculate_file_hash].  The hash object is fed the chunks in order, so
    it holds their concatenation when [hexdigest] is taken. *)
Definition calculate_file_hash (disk : gmap string node) (filepath : string)
  : result string :=
  match open_read disk filepath with
  | Ret f =>
      let hash_md5 :=
        fold_left (fun acc chunk => acc +:+ chunk)
                  (chunks (S (String.length f)) 4096 f) "" in
      Ret (MD5.hexdigest hash_md5)
  | Raise e => if is_FileNotFoundError e then Ret "" else Raise e
  end.

(** [has_file_changed]. *)
Definition has_file_changed (filepath : string) : M Sys bool :=
  (current_hash <-
     reading (fun s => calculate_file_hash (disk (world s)) filepath);;
   fun s =>
     let old_hash := default "" (file_hashes (self s) !! filepath) in
     if bool_decide (current_hash <> old_hash) then
       (Ret true,
        set_self (set_file_hashes
                    (<[filepath := current_hash]> (file_hashes (self s)))
                    (self s)) s)
     else (Ret false, s))%py.

(** ** Statistics *)

(** The four accumulating assignments of [update_stats]. *)
Definition count_build (b : BuildStats) (st : Stats) : Stats :=
  {| total_builds := total_builds st + 1;
     successful_builds :=
       if success b then successful_builds st + 1 else successful_builds st;
     failed_builds :=
       if success b then failed_builds st else failed_builds st + 1;
     total_build_time := PrimFloat.add (total_build_time st) (duration b);
     last_build := last_build st |}.

Definition set_last_build (now : float) (st : Stats) : Stats :=
  {| total_builds := total_builds st;
     successful_builds := successful_builds st;
     failed_builds := failed_builds st;
     total_build_time := total_build_time st;
     last_build := Some now |}.

(** [update_stats]. *)
Definition update_stats (build_stats : BuildStats) : M Sys unit :=
  (modify (fun s =>
     set_self (set_stats (count_build build_stats (stats (self s)))
                         (self s)) s);;;
   now <- in_world time_time;;
   modify (fun s =>
     set_self (set_stats (set_last_build now (stats (self s))) (self s)) s);;;
   fun s =>
     let st := stats (self s) in
     if (0 <? total_builds st)%Z then
       in_world (logger INFO (StatsLine (successful_builds st)
                                        (total_builds st)
                                        (total_build_time st))) s
     else (Ret tt, s))%py.

(** [deque(maxlen=n).append(x)]: once full, the oldest entry is dropped. *)
Definition deque_append {A : Type} (maxlen : nat) (x : A) (q : list A)
  : list A :=
  if (List.length q <? maxlen)%nat then q ++ [x]
  else List.tl (q ++ [x]).

Definition history_maxlen : nat := 100.

(** ** The build *)

Section Monitor.

(** [json.loads] and [json.dumps(..., indent=2)] of the standard library:
    the decoder raises on text that is not JSON. *)
Variable json_loads : string -> result json.
Variable json_dumps : json -> string.

(** [load_config], for [self.config_file]. *)
Definition load_config (config_file : string) : M World json :=
  try_except_if is_FileNotFoundError
    (text <- reading (fun w => open_read (disk w) config_file);;
     reading (fun _ => json_loads text))%py
    (fun _ =>
       logger WARNING (ConfigNotFound config_file);;;
       ret get_default_config)%py.

(** The JSON object written for the hash cache (its keys in the order the
    map enumerates them). *)
Definition json_of_hashes (h : gmap string string) : json :=
  JDict (List.map (fun kv => (fst kv, JStr (snd kv))) (map_to_list h)).

(** [save_cache]. *)
Definition save_cache : M Sys unit :=
  (cache_dir <- config_path "cache_dir";;
   try_except
     (fun s =>
        in_world (on_disk (write_file cache_dir "file_hashes.json"
                    (json_dumps (json_of_hashes (file_hashes (self s)))))) s)
     (fun e => in_world (logger ERROR (SaveCacheFailed e))))%py.

(** [save_build_history]. *)
Definition save_build_history : M Sys unit :=
  (logs_dir <- config_path "logs_dir";;
   try_except
     (fun s =>
        let history_data := List.map to_dict (build_history (self s)) in
        in_world (on_disk (write_file logs_dir "build_history.json"
                    (json_dumps (JList history_data)))) s)
     (fun e => in_world (logger ERROR (SaveHistoryFailed e))))%py.

(** [c.isspace()] for a character below U+0100. *)
Definition is_space (c : ascii) : bool :=
  let n := nat_of_ascii c in
  ((n =? 32) || ((9 <=? n) && (n <=? 13)) || ((28 <=? n) && (n <=? 31))
   || (n =? 133) || (n =? 160))%nat.

Fixpoint take_word (s : string) : string :=
  match s with
  | EmptyString => EmptyString
  | String c s' => if is_space c then EmptyString else String c (take_word s')
  end.

(** [s.split()[0]], when there is one. *)
Fixpoint first_word (s : string) : option string :=
  match s with
  | EmptyString => None
  | String c s' => if is_space c then first_word s' else Some (take_word s)
  end.

(** The depth of recursion the interpreter allows. *)
Definition recursion_limit : nat := 1000.

(** [check_emscripten]; [depth] is the number of nested calls still allowed. *)
Fixpoint check_emscripten (depth : nat) : M Sys bool :=
  match depth with
  | O => raise RecursionError
  | S depth' =>
      (found <-
         try_except_if is_FileNotFoundError
           (result <- reading (fun s =>
                        emcc_version (world s) (environ_PATH (world s)));;
            if (returncode result =? 0)%Z then
              match first_word (stdout result) with
              | Some version =>
                  in_world (logger INFO (EmscriptenFound version));;;
                  ret true
              | None => raise IndexError
              end
            else ret false)
           (fun _ => ret false);;
       if found : bool then ret true
       else
         workspace <- config_path "workspace";;
         let emsdk_env := joinpath (joinpath workspace "emsdk") "emsdk_env.sh" in
         exists_ <- reading (fun s => Ret (path_exists (disk (world s)) emsdk_env));;
         if exists_ : bool then
           in_world (logger INFO SourcingEmscripten);;;
           old_path <- reading (fun s =>
                         match environ_PATH (world s) with
                         | Some p => Ret p
                         | None => Raise (KeyError "PATH")
                         end);;
           in_world (modify (set_environ_PATH
                      (Some ("/workspace/emsdk/upstream/emscripten:" +:+ old_path))));;;
           check_emscripten depth'
         else
           in_world (logger ERROR EmscriptenNotFound);;;
           ret false)%py
  end.

(** [prepare_build_command].  The configuration is not assigned to after
    construction, so each of its entries is read once, where the code reads
    it first.  The two directories formatted into the command are strings:
    [wasm_dir] has gone through [Path] above, [public_dir] through [Path] in
    the constructor. *)
Definition prepare_build_command (mode : string) : M Sys string :=
  (build_modes <- reading (fun s => getitem (config (self s)) "build_modes");;
   mode_config <- reading (fun _ => dict_get build_modes mode (JDict []));;
   wasm_dir <- config_path "wasm_dir";;
   main_file_exists <- reading (fun s =>
     Ret (path_exists (disk (world s)) (joinpath wasm_dir "game_engine.cpp")));;
   entity_file_exists <- reading (fun s =>
     Ret (path_exists (disk (world s))
            (joinpath (joinpath wasm_dir "src") "entity.cpp")));;
   let sources :=
     (if main_file_exists : bool then [joinpath wasm_dir "game_engine.cpp"]
      else [])
     ++ (if entity_file_exists : bool
         then [joinpath (joinpath wasm_dir "src") "entity.cpp"] else []) in
   let includes := "-I" +:+ wasm_dir +:+ "/include" in
   common_flags <- reading (fun s =>
     dict_get (config (self s)) "common_flags" (JList []));;
   flags0 <- reading (fun _ => join_spaces common_flags);;
   optimization <- reading (fun _ =>
     dict_get mode_config "optimization" (JStr "-O3"));;
   flags1 <- reading (fun _ => concat_space optimization);;
   mode_flags <- reading (fun _ => dict_get mode_config "flags" (JList []));;
   flags2 <- reading (fun _ => join_spaces mode_flags);;
   let flags := flags0 +:+ flags1 +:+ " " +:+ flags2 in
   public_dir <- config_path "public_dir";;
   let output := public_dir +:+ "/game_engine.js" in
   ret ("emcc " +:+ join " " sources +:+ " " +:+ includes +:+ " " +:+ flags
          +:+ " -o " +:+ output))%py.

(** The local variable [build_stats] of [build] next to the rest of the
    state: the body of [build] assigns to its fields one at a time. *)
Record Frame : Type := mkFrame {
  build_stats : BuildStats;
  sys : Sys
}.

Definition set_build_stats (b : BuildStats) (fr : Frame) : Frame :=
  mkFrame b (sys fr).

Definition set_sys (s : Sys) (fr : Frame) : Frame := mkFrame (build_stats fr) s.

Definition in_sys {A : Type} (m : M Sys A) : M Frame A := zoom sys set_sys m.

(** [build_stats.field = value]. *)
Definition assign (f : BuildStats -> BuildStats) : M Frame unit :=
  modify (fun fr => set_build_stats (f (build_stats fr)) fr).

Definition set_end_time (t : float) (b : BuildStats) : BuildStats :=
  mkBuildStats (start_time b) t (success b) (mode b) (files_changed b)
               (output_size_js b) (output_size_wasm b) (error_message b)
               (warnings b).

Definition set_success (v : bool) (b : BuildStats) : BuildStats :=
  mkBuildStats (start_time b) (end_time b) v (mode b) (files_changed b)
               (output_size_js b) (output_size_wasm b) (error_message b)
               (warnings b).

Definition set_output_size_js (n : Z) (b : BuildStats) : BuildStats :=
  mkBuildStats (start_time b) (end_time b) (success b) (mode b)
               (files_changed b) n (output_size_wasm b) (error_message b)
               (warnings b).

Definition set_output_size_wasm (n : Z) (b : BuildStats) : BuildStats :=
  mkBuildStats (start_time b) (end_time b) (success b) (mode b)
               (files_changed b) (output_size_js b) n (error_message b)
               (warnings b).

Definition set_error_message (msg : string) (b : BuildStats) : BuildStats :=
  mkBuildStats (start_time b) (end_time b) (success b) (mode b)
               (files_changed b) (output_size_js b) (output_size_wasm b) msg
               (warnings b).

Definition set_warnings (ws : option (list string)) (b : BuildStats)
  : BuildStats :=
  mkBuildStats (start_time b) (end_time b) (success b) (mode b)
               (files_changed b) (output_size_js b) (output_size_wasm b)
               (error_message b) ws.

(** [c.lower()] for an ASCII character. *)
Definition lower_ascii (c : ascii) : ascii :=
  let n := nat_of_ascii c in
  if ((65 <=? n) && (n <=? 90))%nat then ascii_of_nat (n + 32) else c.

(** [s.lower()]. *)
Fixpoint lower (s : string) : string :=
  match s with
  | EmptyString => EmptyString
  | String c s' => String (lower_ascii c) (lower s')
  end.

(** [needle in hay]. *)
Fixpoint contains (needle hay : string) : bool :=
  if String.prefix needle hay then true
  else match hay with
       | EmptyString => false
       | String _ hay' => contains needle hay'
       end.

Definition newline : ascii := "010"%char.

(** [s.split('\n')]. *)
Fixpoint split_lines (s : string) : list string :=
  match s with
  | EmptyString => [EmptyString]
  | String c s' =>
      let rest := split_lines s' in
      if Ascii.eqb c newline then EmptyString :: rest
      else match rest with
           | line :: rest' => String c line :: rest'
           | [] => [String c EmptyString]
           end
  end.

(** The lines of the compiler's output that [build] keeps as warnings. *)
Definition warning_lines (out : string) : list string :=
  List.filter (fun line => contains "warning" (lower line)) (split_lines out).

(** [Path(p).stat().st_size] if [p] exists, for the two artifacts. *)
Definition size_if_exists (p : string) : M Sys (option Z) :=
  reading (fun s => Ret (st_size <$> (disk (world s) !! p))).

(** [subprocess.run(cmd, shell=True, capture_output=True, text=True,
    cwd=cwd)].  The call blocks until the child exits; [others] is what the
    other threads of the process do to the monitor in the meantime. *)
Definition subprocess_run (others : Sys -> Sys) (cmd cwd : string)
  : M Sys CompletedProcess :=
  fun s =>
    let s1 := others s in
    let '(r, d) := shell (world s1) cmd cwd (disk (world s1)) in
    (r, set_world (set_disk d (world s1)) s1).

(** The first half of the [try] statement of [build]: the toolchain probe,
    the command line and the compiler run, giving what the run returned. *)
Definition run_compiler (others : Sys -> Sys) (mode : string)
  : M Frame CompletedProcess :=
  (in_sys (in_world (logger INFO (StartingBuild mode)));;;
   available <- in_sys (check_emscripten recursion_limit);;
   if negb available then raise (RuntimeError "Emscripten not available")
   else
     build_cmd <- in_sys (prepare_build_command mode);;
     in_sys (in_world (logger INFO (BuildCommand build_cmd)));;;
     cwd <- in_sys (config_path "workspace");;
     in_sys (subprocess_run others build_cmd cwd))%py.

(** The second half: the exit code, the artifact sizes, the warnings. *)
Definition classify_result (result : CompletedProcess) : M Frame unit :=
  ((if (returncode result =? 0)%Z then
      assign (set_success true);;;
      in_sys (in_world (logger INFO BuildSuccessful));;;
      public_dir <- in_sys (config_path "public_dir");;
      js_size <- in_sys (size_if_exists (joinpath public_dir "game_engine.js"));;
      wasm_size <- in_sys (size_if_exists
                             (joinpath public_dir "game_engine.wasm"));;
      match js_size with
      | Some n => assign (set_output_size_js n)
      | None => ret tt
      end;;;
      match wasm_size with
      | Some n => assign (set_output_size_wasm n)
      | None => ret tt
      end;;;
      fun fr =>
        in_sys (in_world (logger INFO
          (OutputSizes (output_size_js (build_stats fr))
                       (output_size_wasm (build_stats fr))))) fr
    else
      assign (set_success false);;;
      assign (set_error_message (stderr result));;;
      in_sys (in_world (logger ERROR BuildFailed));;;
      in_sys (in_world (logger ERROR (CompilerStderr (stderr result)))));;;
   match stdout result with
   | EmptyString => ret tt
   | out =>
       match warning_lines out with
       | [] => ret tt
       | ws =>
           assign (set_warnings (Some ws));;;
           in_sys (in_world (logger WARNING
                               (CompletedWithWarnings (List.length ws))))
       end
   end)%py.

(** The body of the [try] statement of [build]. *)
Definition build_try (others : Sys -> Sys) (mode : string) : M Frame unit :=
  (result <- run_compiler others mode;; classify_result result)%py.

(** The [except Exception as e] clause of [build]. *)
Definition build_except (e : exn) : M Frame unit :=
  (assign (set_success false);;;
   assign (set_error_message (str_exn e));;;
   in_sys (in_world (logger ERROR (BuildError e))))%py.

(** The [finally] clause of [build]. *)
Definition build_finally : M Frame unit :=
  (now <- in_sys (in_world time_time);;
   assign (set_end_time now);;;
   in_sys (modify (fun s => set_self (set_is_building false (self s)) s));;;
   (fun fr => in_sys (update_stats (build_stats fr)) fr);;;
   (fun fr =>
      in_sys (modify (fun s =>
        set_self (set_build_history
                    (deque_append history_maxlen (build_stats fr)
                                  (build_history (self s)))
                    (self s)) s)) fr);;;
   in_sys save_build_history;;;
   in_sys save_cache)%py.

(** The state in which the [try] statement of [build] starts, when the call
    is not skipped: the flag is set, the clock read, [build_stats] created.
    [changed_files] is [None] when the argument is left out. *)
Definition build_start (mode : string) (changed_files : option (list string))
    (s : Sys) : Frame :=
  let s1 := set_self (set_is_building true (self s)) s in
  let start_time := now (world s1) in
  mkFrame (mkBuildStats start_time 0 false mode (default [] changed_files)
                        0 0 "" None)
          (set_world (tick (world s1)) s1).

(** The [try] statement of [build] and the [return] after it. *)
Definition build_body (others : Sys -> Sys) (mode : string)
  : M Frame (option BuildStats) :=
  (try_finally (try_except (build_try others mode) build_except)
               build_finally;;;
   fun fr => (Ret (Some (build_stats fr)), fr))%py.

(** [build], with the other threads' activity during the compiler run as a
    parameter.  The result is [None] when the call is skipped. *)
Definition build_under (others : Sys -> Sys) (mode : string)
    (changed_files : option (list string)) : M Sys (option BuildStats) :=
  fun s =>
    if is_building (self s) then
      (in_world (logger WARNING BuildSkipped);;; ret None)%py s
    else
      let '(r, fr) := build_body others mode (build_start mode changed_files s) in
      (r, sys fr).

(** [build] with no other thread touching the monitor. *)
Definition build (mode : string) (changed_files : option (list string))
  : M Sys (option BuildStats) :=
  build_under (fun s => s) mode changed_files.

(** ** The event-driven watcher *)

(** The event handler of [watch_with_watchdog]; its field [monitor] is the
    monitor object, shared with the rest of the program. *)
Record WASMEventHandler : Type := mkWASMEventHandler {
  build_mode : string;
  pending_changes : gset string;
  last_event_time : float;
  debounce_time : float
}.

(** A file-system event, as [watchdog] delivers it. *)
Record FileSystemEvent : Type := mkFileSystemEvent {
  is_directory : bool;
  src_path : string
}.

(** The handler next to the monitor and the world. *)
Record Watch : Type := mkWatch {
  handler : WASMEventHandler;
  monitor : Sys
}.

Definition set_handler (h : WASMEventHandler) (w : Watch) : Watch :=
  mkWatch h (monitor w).

Definition set_monitor (s : Sys) (w : Watch) : Watch := mkWatch (handler w) s.

Definition in_monitor {A : Type} (m : M Sys A) : M Watch A :=
  zoom monitor set_monitor m.

Definition set_pending_changes (p : gset string) (h : WASMEventHandler)
  : WASMEventHandler :=
  mkWASMEventHandler (build_mode h) p (last_event_time h) (debounce_time h).

Definition set_last_event_time (t : float) (h : WASMEventHandler)
  : WASMEventHandler :=
  mkWASMEventHandler (build_mode h) (pending_changes h) t (debounce_time h).

(** [float(z)] for an integer below [2^63] in absolute value (exact below
    [2^53]). *)
Definition float_of_Z (z : Z) : float :=
  if (z <? 0)%Z then PrimFloat.opp (PrimFloat.of_uint63 (Uint63.of_Z (- z)))
  else PrimFloat.of_uint63 (Uint63.of_Z z).

(** [v / 1000]. *)
Definition div_1000 (v : json) : result float :=
  match v with
  | JInt z => Ret (PrimFloat.div (float_of_Z z) 1000)
  | JFloat f => Ret (PrimFloat.div f 1000)
  | JBool b => Ret (PrimFloat.div (if b then 1 else 0) 1000)
  | _ => Raise (TypeError ("unsupported operand type(s) for /: '"
                             +:+ type_name v +:+ "' and 'int'"))
  end.

(** [WASMEventHandler.__init__]. *)
Definition new_handler (build_mode : string) : M Sys WASMEventHandler :=
  (watch <- reading (fun s => getitem (config (self s)) "watch");;
   debounce_ms <- reading (fun _ => dict_get watch "debounce_ms" (JInt 1000));;
   debounce_time <- reading (fun _ => div_1000 debounce_ms);;
   ret (mkWASMEventHandler build_mode ∅ 0 debounce_time))%py.

(** [s.endswith(suffix)]. *)
Definition endswith (s suffix : string) : bool :=
  let n := String.length s in
  let m := String.length suffix in
  (m <=? n)%nat && String.eqb (String.substring (n - m) m s) suffix.

(** [src_path.endswith(('.cpp', '.h', '.hpp'))]. *)
Definition is_source_path (p : string) : bool :=
  endswith p ".cpp" || endswith p ".h" || endswith p ".hpp".

(** [on_modified]. *)
Definition on_modified (event : FileSystemEvent) : M Watch unit :=
  if is_directory event then ret tt
  else if is_source_path (src_path event) then
    (modify (fun w =>
       set_handler (set_pending_changes
                      ({[src_path event]} ∪ pending_changes (handler w))
                      (handler w)) w);;;
     current_time <- in_monitor (in_world time_time);;
     (fun w =>
        if PrimFloat.ltb (debounce_time (handler w))
             (PrimFloat.sub current_time (last_event_time (handler w)))
        then
          if bool_decide (pending_changes (handler w) <> ∅) then
            (in_monitor (in_world (logger INFO
               (ChangesDetected (size (pending_changes (handler w))))));;;
             in_monitor (build (build_mode (handler w))
                               (Some (elements (pending_changes (handler w)))));;;
             modify (fun w =>
               set_handler (set_pending_changes ∅ (handler w)) w)) w
          else (Ret tt, w)
        else (Ret tt, w));;;
     modify (fun w =>
       set_handler (set_last_event_time current_time (handler w)) w))%py
  else ret tt.

End Monitor.

(** ** The polling watcher *)

Section Polling.

Variable json_dumps : json -> string.

(** [Path(d).glob(pattern)], as strings, in the order the directory scan
    gives them. *)
Variable glob : gmap string node -> string -> string -> list string.

(** [get_source_files]. *)
Definition get_source_files : M Sys (list string) :=
  (wasm_dir <- config_path "wasm_dir";;
   let main_file := joinpath wasm_dir "game_engine.cpp" in
   main_file_exists <- reading (fun s =>
     Ret (path_exists (disk (world s)) main_file));;
   let files := if main_file_exists : bool then [main_file] else [] in
   found <- reading (fun s =>
     Ret (List.concat (List.map (glob (disk (world s)) wasm_dir)
                                ["**/*.cpp"; "**/*.h"; "**/*.hpp"])));;
   ret (files ++ found))%py.

(** The [for] loop of [watch_with_polling]: the files of the list that
    [has_file_changed] reports, appended to [changed_files] in turn. *)
Fixpoint changed_among (files changed_files : list string)
  : M Sys (list string) :=
  match files with
  | [] => ret changed_files
  | filepath :: files' =>
      (changed <- has_file_changed filepath;;
       changed_among files'
         (if changed : bool then changed_files ++ [filepath]
          else changed_files))%py
  end.

(** One turn of the [while] loop of [watch_with_polling], after the
    [time.sleep(2)] it starts with, which changes nothing of the state
    kept here. *)
Definition poll (mode : string) : M Sys unit :=
  (files <- get_source_files;;
   changed_files <- changed_among files [];;
   match changed_files with
   | [] => ret tt
   | _ :: _ =>
       in_world (logger INFO (ChangesDetected (List.length changed_files)));;;
       build json_dumps mode (Some changed_files);;;
       ret tt
   end)%py.

End Polling.

(** ** Vocabulary of the properties *)

(** [m] keeps the property [I] of the state, on whatever path it takes. *)
Definition inv {S A : Type} (I : S -> Prop) (m : M S A) : Prop :=
  forall s, I s -> I (snd (m s)).

(** What a build in flight relies on staying as it is: the monitor object
    and the clock. *)
Definition core (s : Sys) : BuildMonitor * (nat -> float) * nat :=
  (self s, clock (world s), ticks (world s)).

(** The three directories of [setup_directories] are configured, as they are
    once the constructor has returned. *)
Definition dirs_configured (cfg : json) : Prop :=
  returns (config_str cfg "public_dir") = true
  /\ returns (config_str cfg "cache_dir") = true
  /\ returns (config_str cfg "logs_dir") = true.

(** The record [classify_result] leaves, as a function of what the compiler
    run returned, the public directory, the files present and the record so
    far. *)
Definition classified (result : CompletedProcess) (public_dir : string)
    (files : gmap string node) (b : BuildStats) : BuildStats :=
  let b1 :=
    if (returncode result =? 0)%Z then
      let b2 := set_success true b in
      let b3 :=
        match files !! joinpath public_dir "game_engine.js" with
        | Some n => set_output_size_js (st_size n) b2
        | None => b2
        end in
      match files !! joinpath public_dir "game_engine.wasm" with
      | Some n => set_output_size_wasm (st_size n) b3
      | None => b3
      end
    else set_error_message (stderr result) (set_success false b) in
  match warning_lines (stdout result) with
  | [] => b1
  | ws => set_warnings (Some ws) b1
  end.

(** The record the [try] statement of [build] leaves, as a function of how
    the compiler run ended. *)
Definition attempted (run : result CompletedProcess) (public_dir : string)
    (files : gmap string node) (b : BuildStats) : BuildStats :=
  match run with
  | Ret result => classified result public_dir files b
  | Raise e =>
      if is_Exception e then set_error_message (str_exn e) (set_success false b)
      else b
  end.

(** The monitor object the [finally] clause leaves, for the finished record
    [b] and the reading [t] of [datetime.now()]. *)
Definition settled (b : BuildStats) (t : float) (m : BuildMonitor)
  : BuildMonitor :=
  set_build_history (deque_append history_maxlen b (build_history m))
    (set_stats (set_last_build t (count_build b (stats m)))
       (set_is_building false m)).

(** The world once [update_stats] has logged its line, if it does. *)
Definition stats_logged (st : Stats) (w : World) : World :=
  if (0 <? total_builds st)%Z then
    set_log (log w ++ [(INFO, StatsLine (successful_builds st)
                                        (total_builds st)
                                        (total_build_time st))]) w
  else w.

(** The world once a file has been written, or the failure to write it
    logged. *)
Definition written (dir name text : string) (failure : exn -> message)
    (w : World) : World :=
  match write_file dir name text (disk w) with
  | (Ret _, d) => set_disk d w
  | (Raise e, _) => set_log (log w ++ [(ERROR, failure e)]) w
  end.

(** The world once [save_build_history] and [save_cache] have run, for the
    serializer [json_dumps] and the monitor object [m] they save. *)
Definition persisted (json_dumps : json -> string) (cache_dir logs_dir : string)
    (m : BuildMonitor) (w : World) : World :=
  written cache_dir "file_hashes.json"
    (json_dumps (json_of_hashes (file_hashes m)))
    SaveCacheFailed
    (written logs_dir "build_history.json"
       (json_dumps (JList (List.map to_dict (build_history m))))
       SaveHistoryFailed w).

(** What a call of [build] returns, given how the compiler run ended and the
    record of the build. *)
Definition build_result (run : result CompletedProcess) (b : BuildStats)
  : result (option BuildStats) :=
  match run with
  | Ret _ => Ret (Some b)
  | Raise e => if is_Exception e then Ret (Some b) else Raise e
  end.

(** The state a skipped call of [build] leaves: a warning added to the log. *)
Definition skipped (s : Sys) : Sys :=
  set_world (set_log (log (world s) ++ [(WARNING, BuildSkipped)]) (world s)) s.

(** The calls of [build] other threads make while a build is in flight, one
    after the other. *)
Definition concurrent_builds (json_dumps : json -> string)
    (calls : list (string * option (list string))) (s : Sys) : Sys :=
  fold_left (fun t call => snd (build json_dumps (fst call) (snd call) t))
            calls s.

(** One step in the life of a monitor, with the records it finalizes: the
    world changes; a file is checked for a change; [build] is called while a
    build is in progress; [build] is called, and other threads call it
    during the compiler run. *)
Inductive step (json_dumps : json -> string)
  : Sys -> list BuildStats -> Sys -> Prop :=
| step_world (s : Sys) (w : World) :
    step json_dumps s [] (set_world w s)
| step_detect (s : Sys) (filepath : string) :
    step json_dumps s [] (snd (has_file_changed filepath s))
| step_skip (s : Sys) (mode : string) (changed_files : option (list string)) :
    is_building (self s) = true ->
    step json_dumps s [] (snd (build json_dumps mode changed_files s))
| step_build (s s' : Sys) (mode : string)
    (changed_files : option (list string))
    (calls : list (string * option (list string))) (b : BuildStats) :
    is_building (self s) = false ->
    s' = snd (build_under json_dumps (concurrent_builds json_dumps calls)
                          mode changed_files s) ->
    last (build_history (self s')) = Some b ->
    step json_dumps s [b] s'.

(** A sequence of steps, with the records finalized along it, oldest first. *)
Inductive run (json_dumps : json -> string)
  : Sys -> list BuildStats -> Sys -> Prop :=
| run_nil (s : Sys) : run json_dumps s [] s
| run_step (s s1 s2 : Sys) (l1 l2 : list BuildStats) :
    run json_dumps s l1 s1 -> step json_dumps s1 l2 s2 ->
    run json_dumps s (l1 ++ l2) s2.

(** A monitor as its constructor leaves it. *)
Definition fresh (s : Sys) : Prop :=
  dirs_configured (config (self s))
  /\ build_history (self s) = []
  /\ is_building (self s) = false
  /\ total_builds (stats (self s)) = 0%Z
  /\ successful_builds (stats (self s)) = 0%Z
  /\ failed_builds (stats (self s)) = 0%Z.

(** The number of records of a list that satisfy [p]. *)
Definition count (p : BuildStats -> bool) (l : list BuildStats) : Z :=
  Z.of_nat (List.length (List.filter p l)).

(** The last [n] entries of a list. *)
Definition lastn {A : Type} (n : nat) (l : list A) : list A :=
  drop (List.length l - n) l.

(** [emcc --version] did not show a toolchain: the program was not found, or
    it exited with a code other than 0. *)
Definition probe_fails (r : result CompletedProcess) : bool :=
  match r with
  | Ret result => negb (returncode result =? 0)%Z
  | Raise e => is_FileNotFoundError e
  end.

(** [Path(workspace) / 'emsdk' / 'emsdk_env.sh'], as a string. *)
Definition emsdk_env_sh (workspace : string) : string :=
  joinpath (joinpath workspace "emsdk") "emsdk_env.sh".

(** The state with one more line in the log. *)
Definition logged (lv : level) (msg : message) (s : Sys) : Sys :=
  set_world (set_log (log (world s) ++ [(lv, msg)]) (world s)) s.

(** The directory [check_emscripten] puts in front of [PATH], [n] times. *)
Fixpoint emsdk_prefixed (n : nat) (path : string) : string :=
  match n with
  | O => path
  | S n' => emsdk_prefixed n' ("/workspace/emsdk/upstream/emscripten:" +:+ path)
  end.

(** The events the observer thread hands to the handler, one after the
    other. *)
Fixpoint dispatch (json_dumps : json -> string)
    (events : list FileSystemEvent) : M Watch unit :=
  match events with
  | [] => ret tt
  | event :: events' =>
      (on_modified json_dumps event;;; dispatch json_dumps events')%py
  end.

(** Each of the next [k] readings of the clock is within the debounce time
    of the one before it, the first of them within that of [last]. *)
Fixpoint within_window (debounce_time : float) (clock : nat -> float)
    (n : nat) (last : float) (k : nat) : bool :=
  match k with
  | O => true
  | S k' =>
      negb (PrimFloat.ltb debounce_time (PrimFloat.sub (clock n) last))
      && within_window debounce_time clock (S n) (clock n) k'
  end.

(** The digest recorded for a file is not the one it has now. *)
Definition stale (s : Sys) (filepath : string) : Prop :=
  calculate_file_hash (disk (world s)) filepath
  <> Ret (default "" (file_hashes (self s) !! filepath)).

(** ** Concrete worlds

    The values at which the properties are run: a serializer and a decoder
    to stand for [json.dumps] and [json.loads], a clock, a project
    directory, toolchains and compilers of several kinds. *)

Fixpoint digits (fuel : nat) (n : Z) (acc : string) : string :=
  match fuel with
  | O => acc
  | S fuel' =>
      let acc' := String (ascii_of_nat (48 + Z.to_nat (n mod 10))) acc in
      if (n <? 10)%Z then acc' else digits fuel' (n / 10)%Z acc'
  end.

(** The decimal digits of an integer. *)
Definition decimal (n : Z) : string :=
  if (n <? 0)%Z then "-" +:+ digits (S (Z.to_nat (Z.log2 (- n)))) (- n)%Z ""
  else digits (S (Z.to_nat (Z.log2 n))) n "".

(** [m * 2^e] with the factors of two of [m] moved into the exponent while
    the exponent is negative. *)
Fixpoint reduce (m : positive) (e : Z) : positive * Z :=
  match m with
  | xO m' => if (e <? 0)%Z then reduce m' (e + 1)%Z else (m, e)
  | _ => (m, e)
  end.

(** A decimal numeral for the exact value of a float. *)
Definition float_text (f : float) : string :=
  match Prim2SF f with
  | S754_zero s => if s then "-0.0" else "0.0"
  | S754_infinity s => if s then "-Infinity" else "Infinity"
  | S754_nan => "NaN"
  | S754_finite s m e =>
      let '(m', e') := reduce m e in
      (if s then "-" else "") +:+
      (if (0 <=? e')%Z then decimal (Z.pos m' * 2 ^ e') +:+ ".0"
       else
         let k := (- e')%Z in
         let frac := decimal ((Z.pos m' mod 2 ^ k) * 5 ^ k) in
         decimal (Z.pos m' / 2 ^ k) +:+ "."
         +:+ String.concat ""
               (List.repeat "0" (Z.to_nat k - String.length frac))
         +:+ frac)
  end.

(** A serializer: compact JSON text, strings written without escapes. *)
Fixpoint compact_dumps (j : json) : string :=
  match j with
  | JNull => "null"
  | JBool b => if b then "true" else "false"
  | JInt z => decimal z
  | JFloat f => float_text f
  | JStr s => dquote +:+ s +:+ dquote
  | JList l =>
      "[" +:+
      (fix items (l : list json) : string :=
         match l with
         | [] => ""
         | [x] => compact_dumps x
         | x :: l' => compact_dumps x +:+ "," +:+ items l'
         end) l +:+ "]"
  | JDict d =>
      "{" +:+
      (fix items (d : list (string * json)) : string :=
         match d with
         | [] => ""
         | [(k, v)] => dquote +:+ k +:+ dquote +:+ ":" +:+ compact_dumps v
         | (k, v) :: d' =>
             dquote +:+ k +:+ dquote +:+ ":" +:+ compact_dumps v +:+ ","
             +:+ items d'
         end) d +:+ "}"
  end.

(** A decoder that finds no JSON value in the text it is given, as
    [json.loads] does for the text "not json". *)
Definition rejecting_loads (text : string) : result json :=
  Raise (JSONDecodeError "Expecting value: line 1 column 1 (char 0)").

(** A clock that reads 1000.0, 1000.1, 1000.2, ... *)
Definition demo_clock (n : nat) : float :=
  PrimFloat.div (float_of_Z (10000 + Z.of_nat n)) 10.

(** A clock that is set back by a second after its first reading. *)
Definition stepping_back_clock (n : nat) : float :=
  match n with
  | O => 1000
  | S _ => 999
  end.

(** The project directory, with the three directories of the default
    configuration and one source file. *)
Definition demo_disk : gmap string node :=
  <["wasm/game_engine.cpp" := Reg true true "int main() { return 0; }"]>
    (<["logs" := Dir]> (<[".build-cache" := Dir]> (<["public" := Dir]> ∅))).

(** [emcc --version] where the toolchain is installed, and where it is not. *)
Definition emcc_installed (path : option string) : result CompletedProcess :=
  Ret (mkCompletedProcess 0 "emcc (Emscripten gcc/clang-like replacement) 3.1.45" "").

Definition emcc_missing (path : option string) : result CompletedProcess :=
  Raise (FileNotFoundError "emcc").

(** A compiler run that succeeds with one warning and writes the script. *)
Definition compiles (cmd cwd : string) (d : gmap string node)
  : result CompletedProcess * gmap string node :=
  (Ret (mkCompletedProcess 0
          ("wasm/game_engine.cpp:1:5: Warning: unused variable"
             +:+ String newline "done") ""),
   <["public/game_engine.js" := Reg true true "var Module;"]> d).

(** A compiler run that fails and says why on its standard error. *)
Definition fails_to_compile (cmd cwd : string) (d : gmap string node)
  : result CompletedProcess * gmap string node :=
  (Ret (mkCompletedProcess 1 "" "wasm/game_engine.cpp:1:1: error: expected ';'"), d).

(** A compiler run that fails and writes nothing on its standard error. *)
Definition fails_silently (cmd cwd : string) (d : gmap string node)
  : result CompletedProcess * gmap string node :=
  (Ret (mkCompletedProcess 1 "" ""), d).

Definition demo_world (probe : option string -> result CompletedProcess)
    (compiler : string -> string -> gmap string node
                -> result CompletedProcess * gmap string node) : World :=
  mkWorld demo_disk demo_clock 0 (Some "/usr/bin:/bin") probe compiler [].

(** A monitor as [BuildMonitor()] leaves it when there is no configuration
    file and no cache. *)
Definition demo_monitor : BuildMonitor :=
  mkBuildMonitor "/workspace/wasm-build.config.json" get_default_config ∅ []
                 false (mkStats 0 0 0 0 None).

Definition demo_sys (probe : option string -> result CompletedProcess)
    (compiler : string -> string -> gmap string node
                -> result CompletedProcess * gmap string node) : Sys :=
  mkSys demo_monitor (demo_world probe compiler).

(** The event handler [watch_with_watchdog] creates from the default
    configuration: nothing pending, no event yet, a debounce time of one
    second. *)
Definition demo_watch : Watch :=
  mkWatch (mkWASMEventHandler "release" ∅ 0 1)
          (demo_sys emcc_installed compiles).

(** The event of a file being modified. *)
Definition modified (p : string) : FileSystemEvent := mkFileSystemEvent false p.

(** A burst of two events: two source files saved one after the other. *)
Definition demo_burst (json_dumps : json -> string) : M Watch unit :=
  (on_modified json_dumps (modified "wasm/game_engine.cpp");;;
   on_modified json_dumps (modified "wasm/src/entity.cpp"))%py.

(** ** More concrete worlds *)

(** [emcc --version] of a program that exits with code 0 and prints an
    empty line. *)
Definition emcc_silent (path : option string) : result CompletedProcess :=
  Ret (mkCompletedProcess 0 (String newline "") "").

(** A compiler run that is interrupted from the keyboard. *)
Definition interrupted (cmd cwd : string) (d : gmap string node)
  : result CompletedProcess * gmap string node :=
  (Raise KeyboardInterrupt, d).

(** The project directory with the environment script of the SDK in the
    workspace. *)
Definition emsdk_disk : gmap string node :=
  <["/workspace/emsdk/emsdk_env.sh" := Reg true true "export EMSDK=1"]>
    demo_disk.

(** The project directory with a second source file, which cannot be
    read. *)
Definition locked_disk : gmap string node :=
  <["wasm/src/entity.cpp" := Reg false true "struct Entity {};"]> demo_disk.

(** A monitor whose configuration file gives the paths and nothing else. *)
Definition paths_only_monitor : BuildMonitor :=
  mkBuildMonitor "/workspace/wasm-build.config.json"
    (JDict [ ("paths", JDict [ ("workspace", JStr "/workspace");
                               ("wasm_dir", JStr "wasm");
                               ("public_dir", JStr "public");
                               ("cache_dir", JStr ".build-cache");
                               ("logs_dir", JStr "logs") ]) ])
    ∅ [] false (mkStats 0 0 0 0 None).

(** [Path(dir).glob(pattern)] for the patterns [**/*.ext]: the paths below
    [dir] that end in [.ext], in the order the map lists them. *)
Definition demo_glob (d : gmap string node) (dir pattern : string)
  : list string :=
  List.filter
    (fun p => String.prefix (dir +:+ "/") p
              && endswith p (String.substring 4 (String.length pattern - 4)
                                              pattern))
    (fst <$> map_to_list d).

(** The handler of [demo_watch] half a second after an event. *)
Definition busy_watch : Watch :=
  mkWatch (mkWASMEventHandler "release" ∅ 999.5 1)
          (demo_sys emcc_installed compiles).
(** ** The bounded history *)

(* ===================================================================== *)
(** * Part II: properties                                                 *)
(* ===================================================================== *)

(** ** Strings *)

Lemma string_app_cons (c : ascii) (s t : string) :
  String c s +:+ t = String c (s +:+ t).
Proof. reflexivity. Qed.

Lemma string_app_nil_l (s : string) : "" +:+ s = s.
Proof. reflexivity. Qed.

Lemma string_app_nil_r (s : string) : s +:+ "" = s.
Proof.
  induction s as [|c s IH]; [reflexivity|].
  now rewrite string_app_cons, IH.
Qed.

Lemma string_app_assoc (s1 s2 s3 : string) :
  (s1 +:+ s2) +:+ s3 = s1 +:+ (s2 +:+ s3).
Proof.
  induction s1 as [|c s1 IH]; [reflexivity|].
  now rewrite !string_app_cons, IH.
Qed.

Lemma string_app_length (s1 s2 : string) :
  String.length (s1 +:+ s2) = (String.length s1 + String.length s2)%nat.
Proof.
  induction s1 as [|c s1 IH]; [reflexivity|].
  rewrite string_app_cons. simpl. now rewrite IH.
Qed.

(** ** The digest *)

Lemma le_bytes_length (n : nat) (x : Z) : List.length (MD5.le_bytes n x) = n.
Proof.
  revert x; induction n as [|n IH]; intros x; simpl; [reflexivity|].
  now rewrite IH.
Qed.

Lemma hex_length (bs : list Z) :
  String.length (MD5.hex bs) = (2 * List.length bs)%nat.
Proof. induction bs as [|b bs IH]; simpl; [reflexivity | rewrite IH; lia]. Qed.

Lemma digest_length (msg : list Z) : List.length (MD5.digest msg) = 16%nat.
Proof.
  unfold MD5.digest.
  destruct (MD5.blocks _ _ _) as [[[a b] c] d].
  rewrite !List.length_app, !le_bytes_length. reflexivity.
Qed.

(** A digest is 32 hexadecimal characters. *)
Lemma hexdigest_length (s : string) : String.length (MD5.hexdigest s) = 32%nat.
Proof. unfold MD5.hexdigest. now rewrite hex_length, digest_length. Qed.

Lemma hexdigest_nonempty (s : string) : MD5.hexdigest s <> "".
Proof.
  intros H. pose proof (hexdigest_length s) as L. rewrite H in L. discriminate.
Qed.

(** The known digests of RFC 1321, and a message of several blocks. *)
Example hexdigest_empty : MD5.hexdigest "" = "d41d8cd98f00b204e9800998ecf8427e".
Proof. vm_compute. reflexivity. Qed.

Example hexdigest_abc : MD5.hexdigest "abc" = "900150983cd24fb0d6963f7d28e17f72".
Proof. vm_compute. reflexivity. Qed.

Example hexdigest_blocks :
  MD5.hexdigest (String.concat "" (List.repeat "x" 70))
  = "7d56c0f83fd1e320d60ea2f13dfdeedd".
Proof. vm_compute. reflexivity. Qed.

(** ** Reading a file in chunks *)

Lemma read_app (n : nat) (s : string) : fst (read n s) +:+ snd (read n s) = s.
Proof.
  revert s; induction n as [|n IH]; intros [|c s]; simpl; try reflexivity.
  specialize (IH s). destruct (read n s) as [chunk rest]; simpl in *.
  now rewrite string_app_cons, IH.
Qed.

Lemma read_empty (n : nat) (s : string) :
  fst (read n s) = "" -> n = 0%nat \/ s = "".
Proof.
  destruct n as [|n]; [now left|]. destruct s as [|c s]; [now right|].
  simpl. destruct (read n s); discriminate.
Qed.

Lemma read_rest_length (n : nat) (s : string) :
  (String.length (fst (read n s)) + String.length (snd (read n s))
   = String.length s)%nat.
Proof. rewrite <- string_app_length, read_app. reflexivity. Qed.

(** Feeding the chunks to the hash object in order feeds it the file. *)
Lemma chunks_concat (fuel n : nat) (s acc : string) :
  (0 < n)%nat -> (String.length s < fuel)%nat ->
  fold_left (fun a chunk => a +:+ chunk) (chunks fuel n s) acc = acc +:+ s.
Proof.
  intros Hn. revert s acc.
  induction fuel as [|fuel IH]; intros s acc Hlen; [lia|].
  simpl. pose proof (read_app n s) as Happ.
  pose proof (read_rest_length n s) as Hl.
  pose proof (read_empty n s) as He.
  destruct (read n s) as [chunk rest]; simpl in *.
  destruct chunk as [|c chunk].
  - destruct He as [->| ->]; [reflexivity | lia |].
    simpl. now rewrite string_app_nil_r.
  - simpl in Hl. cbn [fold_left]. rewrite IH by lia.
    rewrite string_app_assoc, Happ. reflexivity.
Qed.

(** ** calculate_file_hash *)

Lemma string_prefix_app (a b : string) : String.prefix a (a +:+ b) = true.
Proof.
  induction a as [|c a IH]; [now destruct b|].
  rewrite string_app_cons. cbn [String.prefix].
  destruct (ascii_dec c c); [exact IH | contradiction].
Qed.

(** Nothing is in a directory that is not there. *)
Lemma is_dir_below (disk : gmap string node) (a rest : string) :
  is_file disk a = false ->
  is_dir disk a = false ->
  disk !! (a +:+ "/" +:+ rest) = None.
Proof.
  unfold is_file, is_dir. intros Hfile Hdir.
  destruct (disk !! (a +:+ "/" +:+ rest)) as [n|] eqn:Hn; [|reflexivity].
  exfalso.
  destruct (disk !! a) as [[|rd wr data]|]; try discriminate.
  apply not_true_iff_false in Hdir. apply Hdir.
  apply existsb_exists. exists (a +:+ "/" +:+ rest). split.
  - apply list_elem_of_In, list_elem_of_fmap.
    exists (a +:+ "/" +:+ rest, n). split; [reflexivity|].
    now apply elem_of_map_to_list.
  - rewrite <- string_app_assoc. apply string_prefix_app.
Qed.

(** What the walk raises is an [Exception]; when it is a
    [FileNotFoundError], the path is not there. *)
Lemma walk_raises (disk : gmap string node) (whole : string) (e : exn) :
  forall rest prefix name,
  walk disk whole prefix name rest = Some e ->
  whole = prefix +:+ rest ->
  is_Exception e = true
  /\ (is_FileNotFoundError e = true ->
      e = FileNotFoundError whole /\ disk !! whole = None).
Proof.
  induction rest as [|c rest IH]; intros prefix name; cbn [walk].
  - destruct (NAME_MAX <? String.length name)%nat; [|discriminate].
    intros [= <-] _. split; [reflexivity | discriminate].
  - destruct (Ascii.eqb c "/") eqn:Hc.
    + apply Ascii.eqb_eq in Hc. subst c.
      destruct (NAME_MAX <? String.length name)%nat.
      { intros [= <-] _. split; [reflexivity | discriminate]. }
      destruct (String.eqb name "").
      { intros Hw ->. apply (IH _ _ Hw).
        rewrite string_app_assoc. reflexivity. }
      destruct (is_file disk prefix) eqn:Hfile.
      { intros [= <-] _. split; [reflexivity | discriminate]. }
      destruct (is_dir disk prefix) eqn:Hdir.
      { intros Hw ->. apply (IH _ _ Hw).
        rewrite string_app_assoc. reflexivity. }
      intros [= <-] ->. split; [reflexivity|]. intros _.
      split; [reflexivity|].
      change (String "/" rest) with ("/" +:+ rest).
      now apply is_dir_below.
    + intros Hw ->. apply (IH _ _ Hw).
      rewrite string_app_assoc. reflexivity.
Qed.

Lemma resolve_raises (disk : gmap string node) (p : string) (e : exn) :
  resolve disk p = Some e ->
  is_Exception e = true
  /\ (is_FileNotFoundError e = true ->
      e = FileNotFoundError p /\ disk !! p = None).
Proof.
  unfold resolve.
  destruct (has_nul p);
    [intros [= <-]; split; [reflexivity | discriminate]|].
  destruct (PATH_MAX <=? String.length p)%nat;
    [intros [= <-]; split; [reflexivity | discriminate]|].
  intros Hw. apply (walk_raises disk p e p "" "" Hw). reflexivity.
Qed.

(** What [open] raises is an [Exception]; it raises [FileNotFoundError]
    for the path it was given, and only when the path is not there. *)
Lemma open_read_raises (disk : gmap string node) (p : string) (e : exn) :
  open_read disk p = Raise e -> is_Exception e = true.
Proof.
  unfold open_read.
  destruct (resolve disk p) as [e0|] eqn:Hway.
  - intros [= <-]. now apply resolve_raises in Hway.
  - destruct (disk !! p) as [[|[] w data]|]; try discriminate;
      now intros [= <-].
Qed.

Lemma open_read_not_found (disk : gmap string node) (p : string) (e : exn) :
  open_read disk p = Raise e ->
  is_FileNotFoundError e = true ->
  e = FileNotFoundError p /\ disk !! p = None.
Proof.
  unfold open_read.
  destruct (resolve disk p) as [e0|] eqn:Hway.
  - intros [= <-] He. apply resolve_raises in Hway as [_ Hway].
    now apply Hway.
  - destruct (disk !! p) as [[|[] w data]|]; try discriminate;
      intros [= <-]; try discriminate. now split.
Qed.

(** A readable file at the end of a way that raises nothing opens. *)
Lemma open_read_readable (disk : gmap string node) (p : string) (w : bool)
    (data : string) :
  resolve disk p = None ->
  disk !! p = Some (Reg true w data) ->
  open_read disk p = Ret data.
Proof. intros Hway Hfile. unfold open_read. now rewrite Hway, Hfile. Qed.

(** The digest is the MD5 of the bytes [open] gives, however they are cut
    into chunks; of the errors of [open], [FileNotFoundError] is the one
    turned into the empty digest. *)
Lemma calculate_file_hash_unfold (disk : gmap string node) (p : string) :
  calculate_file_hash disk p =
    match open_read disk p with
    | Ret data => Ret (MD5.hexdigest data)
    | Raise e => if is_FileNotFoundError e then Ret "" else Raise e
    end.
Proof.
  unfold calculate_file_hash.
  destruct (open_read disk p) as [data|e]; [|reflexivity].
  rewrite chunks_concat by lia. reflexivity.
Qed.

Lemma calculate_file_hash_readable (disk : gmap string node) (p : string)
    (w : bool) (data : string) :
  resolve disk p = None ->
  disk !! p = Some (Reg true w data) ->
  calculate_file_hash disk p = Ret (MD5.hexdigest data).
Proof.
  intros Hway Hfile. rewrite calculate_file_hash_unfold.
  now rewrite (open_read_readable disk p w data).
Qed.

Lemma calculate_file_hash_raises (disk : gmap string node) (p : string)
    (e : exn) :
  calculate_file_hash disk p = Raise e -> is_Exception e = true.
Proof.
  rewrite calculate_file_hash_unfold.
  destruct (open_read disk p) as [data|e'] eqn:Hopen; [discriminate|].
  destruct (is_FileNotFoundError e'); [discriminate|].
  intros [= <-]. now apply open_read_raises in Hopen.
Qed.

(** C6 (as amended): [calculate_file_hash] returns the empty digest exactly
    when [open] raises [FileNotFoundError], which it does only for a path
    that is not there; for a file that opens it returns the MD5 digest of
    the file's bytes, which is never empty; every other error of [open] (no
    read permission, a directory, a regular file on the way to the path, a
    name above the system's limit, a NUL character) is raised to the
    caller. *)
Theorem calculate_file_hash_cases (disk : gmap string node) (p : string) :
  calculate_file_hash disk p =
    match open_read disk p with
    | Ret data => Ret (MD5.hexdigest data)
    | Raise e => if is_FileNotFoundError e then Ret "" else Raise e
    end
  /\ (calculate_file_hash disk p = Ret ""
      <-> open_read disk p = Raise (FileNotFoundError p))
  /\ (calculate_file_hash disk p = Ret "" -> disk !! p = None).
Proof.
  split; [apply calculate_file_hash_unfold|].
  rewrite calculate_file_hash_unfold.
  destruct (open_read disk p) as [data|e] eqn:Hopen.
  - split; [split; [|discriminate]|]; intros [= H];
      now apply hexdigest_nonempty in H.
  - destruct (is_FileNotFoundError e) eqn:He.
    + destruct (open_read_not_found disk p e Hopen He) as [-> Hnone].
      now repeat split.
    + split; [split|]; intros [= H]; subst e; discriminate He.
Qed.

(** ** has_file_changed *)

(** What one call does, by the digest computed and the digest stored. *)
Lemma has_file_changed_unfold (p : string) (s : Sys) :
  has_file_changed p s =
    match calculate_file_hash (disk (world s)) p with
    | Ret h =>
        if bool_decide (h <> default "" (file_hashes (self s) !! p)) then
          (Ret true,
           set_self (set_file_hashes (<[p := h]> (file_hashes (self s)))
                                     (self s)) s)
        else (Ret false, s)
    | Raise e => (Raise e, s)
    end.
Proof.
  unfold has_file_changed, bind, reading.
  destruct (calculate_file_hash (disk (world s)) p); reflexivity.
Qed.

(** C4 (as amended): when a call of [has_file_changed] returns, the file
    system is as it was, and a second call made right after it returns
    false and changes nothing; the first call returns true exactly when the
    digest computed differs from the one stored (the empty digest for a
    path not in the cache). *)
Theorem has_file_changed_twice (p : string) (s s1 : Sys) (b : bool) :
  has_file_changed p s = (Ret b, s1) ->
  world s1 = world s
  /\ has_file_changed p s1 = (Ret false, s1)
  /\ (b = true <->
      calculate_file_hash (disk (world s)) p
      <> Ret (default "" (file_hashes (self s) !! p))).
Proof.
  rewrite has_file_changed_unfold.
  destruct (calculate_file_hash (disk (world s)) p) as [h|e] eqn:Hh;
    [|discriminate].
  case_bool_decide as Hd; intros [= <- <-].
  - split; [reflexivity|]. split.
    + rewrite has_file_changed_unfold. simpl. rewrite Hh.
      rewrite lookup_insert_eq. simpl.
      rewrite bool_decide_eq_false_2 by (intros H; now apply H).
      reflexivity.
    + split; [intros _ [= ->]; now apply Hd | reflexivity].
  - split; [reflexivity|]. split.
    + rewrite has_file_changed_unfold, Hh.
      now rewrite bool_decide_eq_false_2.
    + split; [discriminate|]. intros H. exfalso. apply H. f_equal.
      destruct (decide (h = default "" (file_hashes (self s) !! p)));
        [assumption | contradiction].
Qed.

(** C5 (as amended): for a path that is not in the cache,
    [has_file_changed] returns true when the file opens; it returns false
    when [open] raises [FileNotFoundError], the path not being there, and
    raises every other error of [open] (no read permission, a directory, a
    regular file on the way to the path, a name above the system's limit,
    a NUL character). *)
Theorem has_file_changed_unseen (p : string) (s : Sys) :
  file_hashes (self s) !! p = None ->
  fst (has_file_changed p s) =
    match open_read (disk (world s)) p with
    | Ret _ => Ret true
    | Raise e => if is_FileNotFoundError e then Ret false else Raise e
    end.
Proof.
  intros Hnone.
  rewrite has_file_changed_unfold, Hnone, calculate_file_hash_unfold.
  cbn [default].
  destruct (open_read (disk (world s)) p) as [data|e].
  - rewrite bool_decide_eq_true_2 by apply hexdigest_nonempty. reflexivity.
  - destruct (is_FileNotFoundError e); [|reflexivity].
    rewrite bool_decide_eq_false_2 by (intros H; now apply H). reflexivity.
Qed.

(** ** load_config *)

Section Configuration.

Variable json_loads : string -> result json.

(** C8 (as amended): [load_config] returns the built-in defaults, and logs
    a warning, when [open] raises [FileNotFoundError], the configuration
    file not being there; when the file opens it returns what the decoder
    returns for its text; every other error of opening it (no read
    permission, a directory, a regular file on the way to the path, a name
    above the system's limit, a NUL character) and every error of decoding
    it is raised to the caller, so what [load_config] raises is never a
    [FileNotFoundError]. *)
Theorem load_config_cases (file : string) (w : World) :
  let defaults :=
    (Ret get_default_config,
     set_log (log w ++ [(WARNING, ConfigNotFound file)]) w) in
  load_config json_loads file w =
    match open_read (disk w) file with
    | Ret text =>
        match json_loads text with
        | Ret v => (Ret v, w)
        | Raise e => if is_FileNotFoundError e then defaults else (Raise e, w)
        end
    | Raise e => if is_FileNotFoundError e then defaults else (Raise e, w)
    end
  /\ (forall e, fst (load_config json_loads file w) = Raise e ->
                is_FileNotFoundError e = false).
Proof.
  cbv zeta.
  assert (E : load_config json_loads file w =
    match open_read (disk w) file with
    | Ret text =>
        match json_loads text with
        | Ret v => (Ret v, w)
        | Raise e =>
            if is_FileNotFoundError e then
              (Ret get_default_config,
               set_log (log w ++ [(WARNING, ConfigNotFound file)]) w)
            else (Raise e, w)
        end
    | Raise e =>
        if is_FileNotFoundError e then
          (Ret get_default_config,
           set_log (log w ++ [(WARNING, ConfigNotFound file)]) w)
        else (Raise e, w)
    end).
  { unfold load_config, try_except_if, bind, reading.
    destruct (open_read (disk w) file) as [text|e]; [|reflexivity].
    destruct (json_loads text) as [v|e]; reflexivity. }
  split; [exact E|]. rewrite E. intros e.
  destruct (open_read (disk w) file) as [text|e1].
  - destruct (json_loads text) as [v|e2]; [discriminate|].
    destruct (is_FileNotFoundError e2) eqn:He; [discriminate|].
    now intros [= <-].
  - destruct (is_FileNotFoundError e1) eqn:He; [discriminate|].
    now intros [= <-].
Qed.

End Configuration.

Arguments config_str : simpl never.
Arguments joinpath : simpl never.
Arguments warning_lines : simpl never.

(** ** Invariants of monadic code *)

Lemma inv_ret {S A : Type} (I : S -> Prop) (a : A) : inv I (ret a).
Proof. intros s Hs. exact Hs. Qed.

Lemma inv_raise {S A : Type} (I : S -> Prop) (e : exn) : inv I (@raise S A e).
Proof. intros s Hs. exact Hs. Qed.

Lemma inv_reading {S A : Type} (I : S -> Prop) (f : S -> result A) :
  inv I (reading f).
Proof. intros s Hs. exact Hs. Qed.

Lemma inv_modify {S : Type} (I : S -> Prop) (f : S -> S) :
  (forall s, I s -> I (f s)) -> inv I (modify f).
Proof. intros Hf s Hs. apply Hf, Hs. Qed.

Lemma inv_bind {S A B : Type} (I : S -> Prop) (m : M S A) (k : A -> M S B) :
  inv I m -> (forall a, inv I (k a)) -> inv I (bind m k).
Proof.
  intros Hm Hk s Hs. unfold bind. specialize (Hm s Hs).
  destruct (m s) as [[a|e] s']; simpl in *; [now apply Hk | exact Hm].
Qed.

Lemma inv_try_except_if {S A : Type} (I : S -> Prop) (caught : exn -> bool)
    (m : M S A) (h : exn -> M S A) :
  inv I m -> (forall e, inv I (h e)) -> inv I (try_except_if caught m h).
Proof.
  intros Hm Hh s Hs. unfold try_except_if. specialize (Hm s Hs).
  destruct (m s) as [[a|e] s']; simpl in *; [exact Hm|].
  destruct (caught e); [now apply Hh | exact Hm].
Qed.

Lemma inv_try_finally {S A : Type} (I : S -> Prop) (m : M S A)
    (c : M S unit) :
  inv I m -> inv I c -> inv I (try_finally m c).
Proof.
  intros Hm Hc s Hs. unfold try_finally. specialize (Hm s Hs).
  destruct (m s) as [r s']; simpl in *. specialize (Hc s' Hm).
  destruct (c s') as [[u|e] s'']; exact Hc.
Qed.

Lemma inv_zoom {S T A : Type} (I : T -> Prop) (J : S -> Prop)
    (get : T -> S) (set : S -> T -> T) (m : M S A) :
  inv J m ->
  (forall t, I t -> J (get t)) ->
  (forall s t, I t -> J s -> I (set s t)) ->
  inv I (zoom get set m).
Proof.
  intros Hm Hget Hset t Ht. unfold zoom.
  specialize (Hm (get t) (Hget t Ht)).
  destruct (m (get t)) as [r s']; simpl in *. now apply Hset.
Qed.

(** A step chosen by looking at the state. *)
Lemma inv_dep {S A : Type} (I : S -> Prop) (m : S -> M S A) :
  (forall s0, inv I (m s0)) -> inv I (fun s => m s s).
Proof. intros Hm s Hs. now apply Hm. Qed.

(** A step in the world leaves the monitor object alone. *)
Lemma inv_in_world {A : Type} (I : Sys -> Prop) (J : World -> Prop)
    (m : M World A) :
  inv J m ->
  (forall s, I s -> J (world s)) ->
  (forall w s, I s -> J w -> I (set_world w s)) ->
  inv I (in_world m).
Proof. intros. now apply inv_zoom with (J := J). Qed.

Lemma inv_in_sys {A : Type} (I : Sys -> Prop) (m : M Sys A) :
  inv I m -> inv (fun fr => I (sys fr)) (in_sys m).
Proof.
  intros Hm. apply inv_zoom with (J := I); [exact Hm | auto | auto].
Qed.

Lemma inv_assign (I : Sys -> Prop) (f : BuildStats -> BuildStats) :
  inv (fun fr => I (sys fr)) (assign f).
Proof. apply inv_modify. intros fr H. exact H. Qed.

(** A step on the monitor and the world leaves [build_stats] alone. *)
Lemma in_sys_build_stats {A : Type} (m : M Sys A) (fr : Frame) :
  build_stats (snd (in_sys m fr)) = build_stats fr.
Proof.
  unfold in_sys, zoom. destruct (m (sys fr)) as [r s']. reflexivity.
Qed.

(** The log and the [PATH] variable are not part of the [core]. *)
Lemma inv_logger (x : BuildMonitor * (nat -> float) * nat) (lv : level)
    (msg : message) :
  inv (fun s => core s = x) (in_world (logger lv msg)).
Proof. intros s Hs. exact Hs. Qed.

Lemma inv_setenv (x : BuildMonitor * (nat -> float) * nat) (p : option string) :
  inv (fun s => core s = x) (in_world (modify (set_environ_PATH p))).
Proof. intros s Hs. exact Hs. Qed.

Lemma inv_config_path {I : Sys -> Prop} (k : string) : inv I (config_path k).
Proof. apply inv_reading. Qed.

Lemma inv_check_emscripten (x : BuildMonitor * (nat -> float) * nat)
    (depth : nat) :
  inv (fun s => core s = x) (check_emscripten depth).
Proof.
  induction depth as [|depth IH]; [apply inv_raise|].
  cbn [check_emscripten].
  apply inv_bind.
  - apply inv_try_except_if; [|intros e; apply inv_ret].
    apply inv_bind; [apply inv_reading|]. intros result.
    destruct (returncode result =? 0)%Z; [|apply inv_ret].
    destruct (first_word (stdout result)); [|apply inv_raise].
    apply inv_bind; [apply inv_logger | intros _; apply inv_ret].
  - intros [|]; [apply inv_ret|].
    apply inv_bind; [apply inv_config_path|]. intros workspace.
    apply inv_bind; [apply inv_reading|]. intros [|].
    + apply inv_bind; [apply inv_logger|]. intros _.
      apply inv_bind; [apply inv_reading|]. intros old_path.
      apply inv_bind; [apply inv_setenv|]. intros _. exact IH.
    + apply inv_bind; [apply inv_logger | intros _; apply inv_ret].
Qed.

(** [prepare_build_command] only reads. *)
Lemma prepare_build_command_reads (mode : string) (s : Sys) :
  snd (prepare_build_command mode s) = s.
Proof.
  assert (H : inv (fun t => t = s) (prepare_build_command mode)).
  { unfold prepare_build_command.
    repeat first [ apply inv_reading | apply inv_ret | apply inv_config_path
                 | apply inv_bind; [|intros ?] ]. }
  exact (H s eq_refl).
Qed.

(** ** The compiler run *)

Section Build.

Variable json_dumps : json -> string.

Lemma bind_ext_inv {S A B : Type} (I : S -> Prop) (m : M S A)
    (k k' : A -> M S B) (s : S) :
  inv I m -> I s -> (forall a s', I s' -> k a s' = k' a s') ->
  bind m k s = bind m k' s.
Proof.
  intros Hm Hs Hk. unfold bind. specialize (Hm s Hs).
  destruct (m s) as [[a|e] s']; simpl in *; [now apply Hk | reflexivity].
Qed.

(** While the compiler has not been started, the monitor object and the
    clock stay as the [try] statement found them; so they do through the run
    when the other threads leave them alone. *)
Lemma inv_run_compiler (x : BuildMonitor * (nat -> float) * nat)
    (others : Sys -> Sys) (mode : string) :
  (forall t, core t = x -> core (others t) = x) ->
  inv (fun fr => core (sys fr) = x) (run_compiler others mode).
Proof.
  intros Hoth. unfold run_compiler.
  apply inv_bind; [apply (inv_in_sys (fun t => core t = x)), inv_logger|]. intros _.
  apply inv_bind; [apply (inv_in_sys (fun t => core t = x)), inv_check_emscripten|]. intros available.
  destruct (negb available); [apply inv_raise|].
  apply inv_bind.
  { apply (inv_in_sys (fun t => core t = x)). intros s Hs. now rewrite prepare_build_command_reads. }
  intros build_cmd.
  apply inv_bind; [apply (inv_in_sys (fun t => core t = x)), inv_logger|]. intros _.
  apply inv_bind; [apply (inv_in_sys (fun t => core t = x)), inv_config_path|]. intros cwd.
  apply (inv_in_sys (fun t => core t = x)). intros s Hs.
  unfold subprocess_run.
  specialize (Hoth s Hs).
  destruct (shell (world (others s)) build_cmd cwd (disk (world (others s))))
    as [r d]. exact Hoth.
Qed.

Lemma run_compiler_build_stats (others : Sys -> Sys) (mode : string)
    (fr : Frame) :
  build_stats (snd (run_compiler others mode fr)) = build_stats fr.
Proof.
  assert (H : inv (fun f => build_stats f = build_stats fr)
                  (run_compiler others mode)).
  { unfold run_compiler.
    repeat first
      [ apply inv_raise
      | intros f Hf; rewrite in_sys_build_stats; exact Hf
      | apply inv_bind; [|intros ?]
      | match goal with |- inv _ (if ?b then _ else _) => destruct b end ]. }
  exact (H fr eq_refl).
Qed.

(** The other threads are run in a state in which the flag is set: two
    activities that agree on such states give the same build. *)
Lemma run_compiler_ext (others others' : Sys -> Sys) (mode : string)
    (fr : Frame) :
  (forall t, core t = core (sys fr) -> others t = others' t) ->
  run_compiler others mode fr = run_compiler others' mode fr.
Proof.
  intros Hoth. unfold run_compiler.
  set (J := fun t : Sys => core t = core (sys fr)).
  set (I := fun f : Frame => J (sys f)).
  apply bind_ext_inv with (I := I);
    [apply (inv_in_sys J), inv_logger | reflexivity |]. intros _ f1 H1.
  apply bind_ext_inv with (I := I);
    [apply (inv_in_sys J), inv_check_emscripten | exact H1 |].
  intros available f2 H2.
  destruct (negb available); [reflexivity|].
  apply bind_ext_inv with (I := I); [| exact H2 |].
  { apply (inv_in_sys J). intros s Hs. now rewrite prepare_build_command_reads. }
  intros build_cmd f3 H3.
  apply bind_ext_inv with (I := I);
    [apply (inv_in_sys J), inv_logger | exact H3 |]. intros _ f4 H4.
  apply bind_ext_inv with (I := I);
    [apply (inv_in_sys J), inv_config_path | exact H4 |]. intros cwd f5 H5.
  unfold in_sys, zoom, subprocess_run. now rewrite (Hoth (sys f5) H5).
Qed.

Lemma warning_lines_empty : warning_lines "" = [].
Proof. reflexivity. Qed.

(** [classify_result] computes [classified]; it touches the log only, and
    returns when the public directory is configured. *)
Lemma classify_result_spec (result : CompletedProcess) (fr : Frame)
    (public_dir : string) :
  config_str (config (self (sys fr))) "public_dir" = Ret public_dir ->
  exists fr',
    classify_result result fr = (Ret tt, fr')
    /\ build_stats fr'
       = classified result public_dir (disk (world (sys fr))) (build_stats fr)
    /\ core (sys fr') = core (sys fr)
    /\ disk (world (sys fr')) = disk (world (sys fr)).
Proof.
  intros Hpub. destruct fr as [b [m w]]. simpl in Hpub.
  unfold classify_result, classified, bind, assign, modify, in_sys, in_world,
    zoom, config_path, reading, size_if_exists, logger, ret. simpl.
  destruct (returncode result =? 0)%Z; simpl.
  - rewrite Hpub. simpl.
    destruct (disk w !! joinpath public_dir "game_engine.js") as [n1|];
      destruct (disk w !! joinpath public_dir "game_engine.wasm") as [n2|];
      simpl;
      (destruct (stdout result) as [|c out] eqn:Hout;
       [ rewrite warning_lines_empty; eexists; repeat split; reflexivity
       | destruct (warning_lines (String c out));
         eexists; repeat split; reflexivity ]).
  - destruct (stdout result) as [|c out] eqn:Hout;
      [ rewrite warning_lines_empty; eexists; repeat split; reflexivity
      | destruct (warning_lines (String c out));
        eexists; repeat split; reflexivity ].
Qed.

(** ** The end of a build *)

Lemma write_file_raises (dir name text : string) (d d' : gmap string node)
    (e : exn) :
  write_file dir name text d = (Raise e, d') ->
  is_Exception e = true /\ d' = d.
Proof.
  unfold write_file.
  destruct (d !! joinpath dir name) as [[|r w data]|].
  - intros [= <- <-]. now split.
  - destruct w; intros [= <- <-] || intros [=]. now split.
  - destruct (d !! dir) as [[|r w data]|]; intros [= <- <-] || intros [=];
      now split.
Qed.

Lemma update_stats_spec (b : BuildStats) (s : Sys) :
  update_stats b s =
    (Ret tt,
     let st := set_last_build (now (world s)) (count_build b (stats (self s))) in
     mkSys (set_stats st (self s)) (stats_logged st (tick (world s)))).
Proof.
  unfold update_stats, bind, modify, in_world, zoom, time_time, stats_logged.
  simpl. destruct (0 <? total_builds (stats (self s)) + 1)%Z; reflexivity.
Qed.

Lemma save_cache_spec (s : Sys) (cache_dir : string) :
  config_str (config (self s)) "cache_dir" = Ret cache_dir ->
  save_cache json_dumps s =
    (Ret tt,
     set_world (written cache_dir "file_hashes.json"
                  (json_dumps (json_of_hashes (file_hashes (self s))))
                  SaveCacheFailed (world s)) s).
Proof.
  intros H. unfold save_cache, bind, config_path, reading. rewrite H.
  unfold try_except, try_except_if, in_world, on_disk, zoom, written.
  destruct (write_file _ _ _ (disk (world s))) as [[[]|e] d] eqn:Hw.
  - reflexivity.
  - destruct (write_file_raises _ _ _ _ _ _ Hw) as [-> ->]. reflexivity.
Qed.

Lemma save_build_history_spec (s : Sys) (logs_dir : string) :
  config_str (config (self s)) "logs_dir" = Ret logs_dir ->
  save_build_history json_dumps s =
    (Ret tt,
     set_world (written logs_dir "build_history.json"
                  (json_dumps (JList (List.map to_dict (build_history (self s)))))
                  SaveHistoryFailed (world s)) s).
Proof.
  intros H. unfold save_build_history, bind, config_path, reading. rewrite H.
  unfold try_except, try_except_if, in_world, on_disk, zoom, written.
  destruct (write_file _ _ _ (disk (world s))) as [[[]|e] d] eqn:Hw.
  - reflexivity.
  - destruct (write_file_raises _ _ _ _ _ _ Hw) as [-> ->]. reflexivity.
Qed.

Lemma build_finally_spec (fr : Frame) (cache_dir logs_dir : string) :
  config_str (config (self (sys fr))) "cache_dir" = Ret cache_dir ->
  config_str (config (self (sys fr))) "logs_dir" = Ret logs_dir ->
  build_finally json_dumps fr =
    (Ret tt,
     let b := set_end_time (now (world (sys fr))) (build_stats fr) in
     let m := settled b (now (tick (world (sys fr)))) (self (sys fr)) in
     mkFrame b
       (mkSys m (persisted json_dumps cache_dir logs_dir m
                   (stats_logged (stats m) (tick (tick (world (sys fr)))))))).
Proof.
  intros Hc Hl. destruct fr as [b [m w]]. simpl in Hc, Hl.
  unfold build_finally, bind, in_sys, in_world, zoom, time_time, assign,
    modify. simpl.
  rewrite update_stats_spec. simpl.
  rewrite (save_build_history_spec _ logs_dir) by exact Hl. simpl.
  rewrite (save_cache_spec _ cache_dir) by exact Hc. simpl.
  reflexivity.
Qed.

(** The [try] statement with its [except] clause computes [attempted]. *)
Lemma build_try_spec (others : Sys -> Sys) (mode : string) (fr : Frame)
    (public_dir : string) :
  config_str (config (self (sys fr))) "public_dir" = Ret public_dir ->
  (forall t, core t = core (sys fr) -> core (others t) = core (sys fr)) ->
  exists fr',
    try_except (build_try others mode) build_except fr
    = (match fst (run_compiler others mode fr) with
       | Ret _ => Ret tt
       | Raise e => if is_Exception e then Ret tt else Raise e
       end, fr')
    /\ build_stats fr'
       = attempted (fst (run_compiler others mode fr)) public_dir
           (disk (world (sys fr'))) (build_stats fr)
    /\ core (sys fr') = core (sys fr).
Proof.
  intros Hpub Hoth.
  pose proof (inv_run_compiler (core (sys fr)) others mode Hoth fr eq_refl)
    as Hcore.
  pose proof (run_compiler_build_stats others mode fr) as Hb.
  unfold try_except, try_except_if, build_try, bind.
  destruct (run_compiler others mode fr) as [[result|e] fr1]; simpl in *.
  - destruct (classify_result_spec result fr1 public_dir)
      as (fr' & -> & Hb' & Hc' & Hd').
    { injection Hcore as -> _ _. exact Hpub. }
    exists fr'. rewrite Hb', Hb, Hd', Hc', Hcore. now repeat split.
  - destruct (is_Exception e).
    + unfold build_except, bind, assign, modify, in_sys, in_world, zoom, logger.
      simpl. eexists. split; [reflexivity|]. simpl. rewrite Hb.
      split; [reflexivity | exact Hcore].
    + exists fr1. rewrite Hb. now repeat split.
Qed.

(** A call of [build] that is not skipped, in full: the record is
    [attempted] with its end time set, the monitor object is [settled], and
    the world is the one the [try] statement left, two clock readings later,
    with the statistics logged and the two files written or the failures
    logged. *)
Lemma build_under_spec (others : Sys -> Sys) (mode : string)
    (changed_files : option (list string)) (s : Sys)
    (public_dir cache_dir logs_dir : string) :
  is_building (self s) = false ->
  config_str (config (self s)) "public_dir" = Ret public_dir ->
  config_str (config (self s)) "cache_dir" = Ret cache_dir ->
  config_str (config (self s)) "logs_dir" = Ret logs_dir ->
  (forall t, core t = core (sys (build_start mode changed_files s)) ->
             core (others t) = core t) ->
  exists w1,
    clock w1 = clock (world s)
    /\ ticks w1 = S (ticks (world s))
    /\ let fr0 := build_start mode changed_files s in
       let run := fst (run_compiler others mode fr0) in
       let b := set_end_time (clock (world s) (S (ticks (world s))))
                  (attempted run public_dir (disk w1) (build_stats fr0)) in
       let m := settled b (clock (world s) (S (S (ticks (world s))))) (self s) in
       build_under json_dumps others mode changed_files s
       = (build_result run b,
          mkSys m (persisted json_dumps cache_dir logs_dir m
                     (stats_logged (stats m) (tick (tick w1))))).
Proof.
  intros Hflag Hpub Hcache Hlogs Hoth.
  set (fr0 := build_start mode changed_files s).
  destruct (build_try_spec others mode fr0 public_dir) as (fr' & E & Hb & Hc).
  { exact Hpub. }
  { intros t Ht. now rewrite Hoth. }
  exists (world (sys fr')).
  assert (Hself : self (sys fr') = set_is_building true (self s))
    by (now injection Hc as -> _ _).
  assert (Hclock : clock (world (sys fr')) = clock (world s))
    by (now injection Hc as _ -> _).
  assert (Hticks : ticks (world (sys fr')) = S (ticks (world s)))
    by (now injection Hc as _ _ ->).
  split; [exact Hclock|]. split; [exact Hticks|].
  cbv zeta. fold fr0.
  unfold build_under. rewrite Hflag. fold fr0.
  unfold build_body, bind, try_finally. rewrite E.
  rewrite (build_finally_spec fr' cache_dir logs_dir)
    by (rewrite Hself; assumption).
  cbv zeta. unfold now. cbn [tick set_ticks ticks clock].
  rewrite Hb, Hself, Hclock, Hticks.
  destruct (fst (run_compiler others mode fr0)) as [result|e]; simpl.
  - reflexivity.
  - destruct (is_Exception e); reflexivity.
Qed.

(** ** Single flight *)

(** A call made while a build is in progress returns [None] at once: no
    clock reading is taken, no process started, nothing written, and only
    the log grows. *)
Lemma build_skipped (others : Sys -> Sys) (mode : string)
    (changed_files : option (list string)) (s : Sys) :
  is_building (self s) = true ->
  build_under json_dumps others mode changed_files s = (Ret None, skipped s).
Proof. intros H. unfold build_under. rewrite H. reflexivity. Qed.

Lemma build_under_ext (others others' : Sys -> Sys) (mode : string)
    (changed_files : option (list string)) (s : Sys) :
  is_building (self s) = false ->
  (forall t, is_building (self t) = true -> others t = others' t) ->
  build_under json_dumps others mode changed_files s
  = build_under json_dumps others' mode changed_files s.
Proof.
  intros Hflag Hoth. unfold build_under. rewrite Hflag.
  unfold build_body, bind, try_finally, try_except, try_except_if, build_try,
    bind.
  rewrite (run_compiler_ext others others'); [reflexivity|].
  intros t Ht. apply Hoth. injection Ht as -> _ _. reflexivity.
Qed.

(** C1: a call of [build] made while a build is in progress returns [None]
    at once and changes nothing but the log (statistics, history, hash
    cache, flag, clock and files are as they were); a second call made by
    another thread while the compiler of a first call runs is such a call;
    and the two calls together leave exactly one record: the history grows
    by the record of the first call and the build count by one. *)
Theorem build_single_flight (s : Sys) (mode1 mode2 : string)
    (files1 files2 : option (list string)) :
  is_building (self s) = false ->
  dirs_configured (config (self s)) ->
  let second := build json_dumps mode2 files2 in
  let both := build_under json_dumps (fun t => snd (second t)) mode1 files1 s in
  (forall t, is_building (self t) = true ->
     second t = (Ret None, skipped t)
     /\ self (skipped t) = self t
     /\ disk (world (skipped t)) = disk (world t)
     /\ ticks (world (skipped t)) = ticks (world t))
  /\ both = build_under json_dumps skipped mode1 files1 s
  /\ exists b,
       (fst both = Ret (Some b)
        \/ exists e, fst both = Raise e /\ is_Exception e = false)
       /\ build_history (self (snd both))
          = deque_append history_maxlen b (build_history (self s))
       /\ total_builds (stats (self (snd both)))
          = (total_builds (stats (self s)) + 1)%Z
       /\ file_hashes (self (snd both)) = file_hashes (self s)
       /\ is_building (self (snd both)) = false.
Proof.
  intros Hflag (Hp & Hc & Hl) second both.
  assert (Hskip : forall t, is_building (self t) = true ->
                            second t = (Ret None, skipped t)).
  { intros t Ht. now apply build_skipped. }
  assert (Hboth : both = build_under json_dumps skipped mode1 files1 s).
  { apply build_under_ext; [exact Hflag|].
    intros t Ht. now rewrite Hskip. }
  split; [|split; [exact Hboth|]].
  { intros t Ht. now rewrite Hskip. }
  destruct (config_str (config (self s)) "public_dir") as [pub|] eqn:Ep;
    [|discriminate].
  destruct (config_str (config (self s)) "cache_dir") as [cache|] eqn:Ec;
    [|discriminate].
  destruct (config_str (config (self s)) "logs_dir") as [logs|] eqn:El;
    [|discriminate].
  destruct (build_under_spec skipped mode1 files1 s pub cache logs)
    as (w1 & _ & _ & E); try assumption.
  { reflexivity. }
  cbv zeta in E. rewrite Hboth, E. clear E Hboth both.
  eexists. split; [|now repeat split].
  unfold build_result.
  destruct (fst (run_compiler skipped mode1 _)) as [result|e];
    [now left|].
  destruct (is_Exception e) eqn:He; [now left | right; eauto].
Qed.

(** ** The record of a build *)

Lemma classified_fields (result : CompletedProcess) (public_dir : string)
    (files : gmap string node) (b : BuildStats) :
  let b' := classified result public_dir files b in
  start_time b' = start_time b
  /\ end_time b' = end_time b
  /\ success b' = (returncode result =? 0)%Z
  /\ error_message b'
     = (if (returncode result =? 0)%Z then error_message b else stderr result)
  /\ warnings b'
     = match warning_lines (stdout result) with
       | [] => warnings b
       | ws => Some ws
       end.
Proof.
  unfold classified.
  destruct (returncode result =? 0)%Z;
    destruct (warning_lines (stdout result));
    repeat match goal with
           | |- context [match ?x with Some _ => _ | None => _ end] =>
               destruct x
           end;
    now repeat split.
Qed.

(** ** Persistence *)

Lemma written_disk_other (dir name text : string) (failure : exn -> message)
    (w : World) (p : string) :
  p <> joinpath dir name ->
  disk (written dir name text failure w) !! p = disk w !! p.
Proof.
  intros Hp. unfold written, write_file.
  destruct (disk w !! joinpath dir name) as [[|r wr data]|].
  - reflexivity.
  - destruct wr; [|reflexivity]. simpl. now rewrite lookup_insert_ne.
  - destruct (disk w !! dir) as [[|r wr data]|]; try reflexivity.
    simpl. now rewrite lookup_insert_ne.
Qed.






(** The record a call of [build] returns, when it returns one. *)
Lemma build_returns (s : Sys) (mode : string)
    (changed_files : option (list string)) (b : BuildStats)
    (public_dir : string) :
  is_building (self s) = false ->
  dirs_configured (config (self s)) ->
  config_str (config (self s)) "public_dir" = Ret public_dir ->
  fst (build json_dumps mode changed_files s) = Ret (Some b) ->
  exists files,
    b = set_end_time (clock (world s) (S (ticks (world s))))
          (attempted
             (fst (run_compiler (fun t => t) mode
                     (build_start mode changed_files s)))
             public_dir files
             (build_stats (build_start mode changed_files s)))
    /\ build_history (self (snd (build json_dumps mode changed_files s)))
       = deque_append history_maxlen b (build_history (self s)).
Proof.
  intros Hflag (_ & Hc & Hl) Ep Hret.
  destruct (config_str (config (self s)) "cache_dir") as [cache|] eqn:Ec;
    [|discriminate].
  destruct (config_str (config (self s)) "logs_dir") as [logs|] eqn:El;
    [|discriminate].
  destruct (build_under_spec (fun t => t) mode changed_files s public_dir
              cache logs) as (w1 & _ & _ & E); try assumption; [reflexivity|].
  cbv zeta in E. unfold build in *. rewrite E in *. clear E.
  exists (disk w1). cbn [fst snd] in *.
  unfold build_result in Hret.
  destruct (fst (run_compiler _ mode _)) as [result|e].
  - injection Hret as <-. now split.
  - destruct (is_Exception e); [|discriminate].
    injection Hret as <-. now split.
Qed.

(** C7 (as amended): the record a call of [build] returns has the clock
    reading taken before the [try] statement as its start time and the one
    taken in the [finally] clause as its end time, so the end time is not
    below the start time when the clock has not stepped back between the
    two; when the compiler ran, [success] says whether it exited with code 0,
    and the error message is empty for code 0 and the captured standard
    error, as it is, otherwise; when a step raised, [success] is false and
    the error message is the text of the exception.  A record with
    [success] true has an empty error message. *)
Theorem build_record_invariant (s : Sys) (mode : string)
    (changed_files : option (list string)) (b : BuildStats) :
  is_building (self s) = false ->
  dirs_configured (config (self s)) ->
  fst (build json_dumps mode changed_files s) = Ret (Some b) ->
  start_time b = clock (world s) (ticks (world s))
  /\ end_time b = clock (world s) (S (ticks (world s)))
  /\ (PrimFloat.leb (clock (world s) (ticks (world s)))
                    (clock (world s) (S (ticks (world s)))) = true ->
      PrimFloat.leb (start_time b) (end_time b) = true)
  /\ match fst (run_compiler (fun t => t) mode
                  (build_start mode changed_files s)) with
     | Ret result =>
         success b = (returncode result =? 0)%Z
         /\ error_message b
            = (if (returncode result =? 0)%Z then "" else stderr result)
     | Raise e => success b = false /\ error_message b = str_exn e
     end
  /\ (success b = true -> error_message b = "").
Proof.
  intros Hflag Hdirs Hret.
  destruct (config_str (config (self s)) "public_dir") as [pub|] eqn:Ep;
    [|destruct Hdirs as (Hp & _); rewrite Ep in Hp; discriminate].
  destruct (build_returns s mode changed_files b pub Hflag Hdirs Ep Hret)
    as (files & -> & _).
  unfold build, build_under in Hret. rewrite Hflag in Hret.
  assert (Hrun : forall e,
            fst (run_compiler (fun t => t) mode
                   (build_start mode changed_files s)) = Raise e ->
            is_Exception e = true).
  { intros e He. unfold build_body, bind, try_finally, try_except,
      try_except_if, build_try, bind in Hret.
    destruct (run_compiler (fun t => t) mode
                (build_start mode changed_files s)) as [[result|e'] fr1].
    - discriminate He.
    - simpl in He. injection He as ->.
      destruct (is_Exception e); [reflexivity|].
      destruct (build_finally json_dumps fr1) as [[u|e'] fr2];
        simpl in Hret; discriminate Hret. }
  destruct (fst (run_compiler (fun t => t) mode
                   (build_start mode changed_files s))) as [result|e];
    cbn [attempted].
  - pose proof (classified_fields result pub files
                  (build_stats (build_start mode changed_files s)))
      as (Hs & _ & Hsucc & Herr & _).
    cbn [set_end_time start_time end_time success error_message].
    rewrite Hs, Hsucc, Herr. simpl.
    repeat split; try reflexivity; try (intros H; exact H).
    intros H. now rewrite H.
  - rewrite (Hrun e eq_refl). simpl.
    repeat split; try reflexivity; try (intros H; exact H).
    discriminate.
Qed.

(** C10: when the compiler ran in a call of [build], the call returns a
    record that holds as warnings the lines of the compiler's standard
    output that contain "warning" in any letter case, whatever the exit
    code; when there is no such line the field stays [None], and [null] is
    what [to_dict] gives for it in the history that is saved, of which the
    record is the last entry. *)
Theorem build_warnings (s : Sys) (mode : string)
    (changed_files : option (list string)) (result : CompletedProcess) :
  is_building (self s) = false ->
  dirs_configured (config (self s)) ->
  fst (run_compiler (fun t => t) mode (build_start mode changed_files s))
  = Ret result ->
  exists b,
    fst (build json_dumps mode changed_files s) = Ret (Some b)
    /\ success b = (returncode result =? 0)%Z
    /\ warnings b
       = match warning_lines (stdout result) with
         | [] => None
         | ws => Some ws
         end
    /\ (forall line,
          In line (warning_lines (stdout result)) <->
          In line (split_lines (stdout result))
          /\ contains "warning" (lower line) = true)
    /\ assoc "warnings" (match to_dict b with JDict d => d | _ => [] end)
       = Some (match warning_lines (stdout result) with
               | [] => JNull
               | ws => JList (List.map JStr ws)
               end)
    /\ List.last (List.map to_dict
                    (build_history
                       (self (snd (build json_dumps mode changed_files s)))))
                 JNull
       = to_dict b.
Proof.
  intros Hflag Hdirs Hrun.
  assert (Hdirs' := Hdirs). destruct Hdirs' as (Hp & Hc & Hl).
  destruct (config_str (config (self s)) "public_dir") as [pub|] eqn:Ep;
    [|discriminate].
  destruct (config_str (config (self s)) "cache_dir") as [cache|] eqn:Ec;
    [|discriminate].
  destruct (config_str (config (self s)) "logs_dir") as [logs|] eqn:El;
    [|discriminate].
  destruct (build_under_spec (fun t => t) mode changed_files s pub cache logs)
    as (w1 & _ & _ & E); try assumption; [reflexivity|].
  cbv zeta in E. rewrite Hrun in E. cbn [build_result] in E.
  match type of E with _ = (Ret (Some ?b0), _) => set (b := b0) in * end.
  assert (Hret : fst (build json_dumps mode changed_files s) = Ret (Some b))
    by (unfold build; now rewrite E).
  exists b. split; [exact Hret|].
  destruct (build_returns s mode changed_files b pub Hflag Hdirs Ep Hret)
    as (files & Hb & Hhist).
  rewrite Hrun in Hb. cbn [attempted] in Hb.
  pose proof (classified_fields result pub files
                (build_stats (build_start mode changed_files s)))
    as (_ & _ & Hs & _ & Hw).
  assert (Hwarn : warnings b
                  = match warning_lines (stdout result) with
                    | [] => None
                    | ws => Some ws
                    end).
  { rewrite Hb. cbn [set_end_time warnings]. rewrite Hw.
    destruct (warning_lines (stdout result)); reflexivity. }
  split; [rewrite Hb; exact Hs|].
  split; [exact Hwarn|]. split; [|split].
  - intros line. unfold warning_lines. rewrite List.filter_In. reflexivity.
  - unfold to_dict. cbn [assoc String.eqb Ascii.eqb Bool.eqb]. rewrite Hwarn.
    destruct (warning_lines (stdout result)); reflexivity.
  - rewrite Hhist. unfold deque_append.
    destruct (List.length (build_history (self s)) <? history_maxlen)%nat
      eqn:Hlt.
    + rewrite List.map_app. simpl. apply List.last_last.
    + destruct (build_history (self s)) as [|b0 l]; [discriminate Hlt|].
      cbn [app List.tl]. rewrite List.map_app. simpl. apply List.last_last.
Qed.

(** ** Running statistics *)

Lemma count_app (p : BuildStats -> bool) (l1 l2 : list BuildStats) :
  count p (l1 ++ l2) = (count p l1 + count p l2)%Z.
Proof. unfold count. rewrite List.filter_app, List.length_app. lia. Qed.

Lemma count_split (p : BuildStats -> bool) (l : list BuildStats) :
  (count p l + count (fun b => negb (p b)) l)%Z = Z.of_nat (List.length l).
Proof.
  unfold count. induction l as [|b l IH]; [reflexivity|].
  simpl. destruct (p b); simpl in *; lia.
Qed.

Lemma count_nonneg (p : BuildStats -> bool) (l : list BuildStats) :
  (0 <= count p l)%Z.
Proof. unfold count. lia. Qed.

Lemma deque_append_last {A : Type} (maxlen : nat) (x : A) (q : list A) :
  (0 < maxlen)%nat -> last (deque_append maxlen x q) = Some x.
Proof.
  intros Hpos. unfold deque_append.
  destruct (List.length q <? maxlen)%nat eqn:Hlt.
  - apply last_snoc.
  - destruct q as [|y q].
    + apply Nat.ltb_ge in Hlt. simpl in Hlt. lia.
    + simpl. apply last_snoc.
Qed.

(** Calls of [build] made while the flag is set leave the monitor object
    and the clock as they are. *)
Lemma concurrent_builds_core (calls : list (string * option (list string)))
    (t : Sys) :
  is_building (self t) = true ->
  core (concurrent_builds json_dumps calls t) = core t.
Proof.
  revert t. induction calls as [|[mode files] calls IH]; intros t Ht;
    [reflexivity|].
  unfold concurrent_builds in *. cbn [fold_left fst snd].
  unfold build. rewrite build_skipped by exact Ht. cbn [snd].
  rewrite IH by exact Ht. reflexivity.
Qed.

Lemma has_file_changed_self (p : string) (s : Sys) :
  let s' := snd (has_file_changed p s) in
  config (self s') = config (self s)
  /\ is_building (self s') = is_building (self s)
  /\ stats (self s') = stats (self s)
  /\ build_history (self s') = build_history (self s).
Proof.
  rewrite has_file_changed_unfold.
  destruct (calculate_file_hash (disk (world s)) p) as [h|e];
    [|now repeat split].
  case_bool_decide; now repeat split.
Qed.

(** What a step does to the counters: it adds the records it finalizes, and
    leaves the flag released. *)
Lemma step_counters (s s' : Sys) (l : list BuildStats) :
  dirs_configured (config (self s)) ->
  is_building (self s) = false ->
  step json_dumps s l s' ->
  dirs_configured (config (self s'))
  /\ is_building (self s') = false
  /\ total_builds (stats (self s'))
     = (total_builds (stats (self s)) + Z.of_nat (List.length l))%Z
  /\ successful_builds (stats (self s'))
     = (successful_builds (stats (self s)) + count success l)%Z
  /\ failed_builds (stats (self s'))
     = (failed_builds (stats (self s)) + count (fun b => negb (success b)) l)%Z.
Proof.
  intros Hdirs Hflag Hstep.
  destruct Hstep as [s w | s p | s mode files Hb
                    | s s' mode files calls b _ Hs' Hlast].
  - split; [exact Hdirs|]. split; [exact Hflag|].
    unfold count. simpl. repeat split; lia.
  - destruct (has_file_changed_self p s) as (-> & -> & -> & _).
    split; [exact Hdirs|]. split; [exact Hflag|].
    unfold count. simpl. repeat split; lia.
  - congruence.
  - destruct Hdirs as (Hp & Hc & Hl).
    destruct (config_str (config (self s)) "public_dir") as [pub|] eqn:Ep;
      [|discriminate].
    destruct (config_str (config (self s)) "cache_dir") as [cache|] eqn:Ec;
      [|discriminate].
    destruct (config_str (config (self s)) "logs_dir") as [logs|] eqn:El;
      [|discriminate].
    destruct (build_under_spec (concurrent_builds json_dumps calls) mode files
                s pub cache logs) as (w1 & _ & _ & E); try assumption.
    { intros t Ht. apply concurrent_builds_core.
      injection Ht as -> _ _. reflexivity. }
    cbv zeta in E.
    match type of E with
    | _ = (_, mkSys (settled ?b0 _ _) _) => remember b0 as b1 eqn:Hb1
    end.
    rewrite E in Hs'. clear E Hb1. cbn [snd] in Hs'. subst s'.
    cbn [self settled set_build_history build_history] in Hlast.
    rewrite deque_append_last in Hlast by (unfold history_maxlen; lia).
    injection Hlast as ->.
    cbn [self settled set_build_history set_stats set_is_building config
         is_building stats set_last_build count_build total_builds
         successful_builds failed_builds].
    unfold dirs_configured. rewrite Ep, Ec, El. unfold count.
    cbn [List.filter].
    destruct (success b); cbn [negb List.length];
      repeat split; try reflexivity; lia.
Qed.

Lemma run_counters (s s' : Sys) (l : list BuildStats) :
  dirs_configured (config (self s)) ->
  is_building (self s) = false ->
  run json_dumps s l s' ->
  dirs_configured (config (self s'))
  /\ is_building (self s') = false
  /\ total_builds (stats (self s'))
     = (total_builds (stats (self s)) + Z.of_nat (List.length l))%Z
  /\ successful_builds (stats (self s'))
     = (successful_builds (stats (self s)) + count success l)%Z
  /\ failed_builds (stats (self s'))
     = (failed_builds (stats (self s)) + count (fun b => negb (success b)) l)%Z.
Proof.
  intros Hdirs Hflag Hrun.
  induction Hrun as [s | s s1 s2 l1 l2 Hrun IH Hstep].
  - split; [exact Hdirs|]. split; [exact Hflag|].
    unfold count. simpl. repeat split; lia.
  - destruct (IH Hdirs Hflag) as (Hd1 & Hf1 & Ht1 & Hs1 & Hx1).
    destruct (step_counters s1 s2 l2 Hd1 Hf1 Hstep)
      as (Hd2 & Hf2 & Ht2 & Hs2 & Hx2).
    split; [exact Hd2|]. split; [exact Hf2|].
    rewrite !count_app, List.length_app.
    repeat split; lia.
Qed.

(** C3: in a monitor that started fresh, after any sequence of steps that
    finalized the records [l], the build count is the number of records,
    the success count the number of those with [success] true, the failure
    count the number of the others, and the two add up to the build count:
    each record is counted once, a skipped call not at all.  Whatever
    happens afterwards, none of the three counters decreases. *)
Theorem running_stats_invariant (s0 s s' : Sys) (l l' : list BuildStats) :
  fresh s0 ->
  run json_dumps s0 l s ->
  run json_dumps s l' s' ->
  let st := stats (self s) in
  let st' := stats (self s') in
  total_builds st = Z.of_nat (List.length l)
  /\ successful_builds st = count success l
  /\ failed_builds st = count (fun b => negb (success b)) l
  /\ (successful_builds st + failed_builds st)%Z = total_builds st
  /\ (total_builds st <= total_builds st')%Z
  /\ (successful_builds st <= successful_builds st')%Z
  /\ (failed_builds st <= failed_builds st')%Z.
Proof.
  intros (Hdirs & _ & Hflag & Ht0 & Hs0 & Hf0) Hrun Hrun'.
  destruct (run_counters s0 s l Hdirs Hflag Hrun)
    as (Hd1 & Hf1 & Ht1 & Hs1 & Hx1).
  destruct (run_counters s s' l' Hd1 Hf1 Hrun')
    as (_ & _ & Ht2 & Hs2 & Hx2).
  pose proof (count_split success l).
  pose proof (count_nonneg success l').
  pose proof (count_nonneg (fun b => negb (success b)) l').
  cbv zeta. rewrite Ht2, Hs2, Hx2, Ht1, Hs1, Hx1, Ht0, Hs0, Hf0.
  repeat split; lia.
Qed.

(** ** The debounce of the event handler *)

(** What [on_modified] does for a source file: the path joins the pending
    set and the clock is read; when more than the debounce time has passed
    since the previous event the whole pending set is handed to [build] at
    once and emptied, otherwise nothing is built; the time of the event
    becomes the time of the previous one. *)
Lemma on_modified_source (event : FileSystemEvent) (w : Watch) :
  is_directory event = false ->
  is_source_path (src_path event) = true ->
  let h := handler w in
  let pending := {[src_path event]} ∪ pending_changes h in
  let t := now (world (monitor w)) in
  let m1 := set_world (tick (world (monitor w))) (monitor w) in
  on_modified json_dumps event w =
    if PrimFloat.ltb (debounce_time h) (PrimFloat.sub t (last_event_time h))
    then
      match build json_dumps (build_mode h) (Some (elements pending))
              (set_world (set_log (log (world m1)
                                     ++ [(INFO, ChangesDetected (size pending))])
                                  (world m1)) m1) with
      | (Ret _, m2) =>
          (Ret tt,
           mkWatch (mkWASMEventHandler (build_mode h) ∅ t (debounce_time h)) m2)
      | (Raise e, m2) =>
          (Raise e,
           mkWatch (mkWASMEventHandler (build_mode h) pending
                      (last_event_time h) (debounce_time h)) m2)
      end
    else
      (Ret tt,
       mkWatch (mkWASMEventHandler (build_mode h) pending t (debounce_time h))
               m1).
Proof.
  intros Hdir Hsrc. destruct w as [h m]. cbv zeta.
  unfold on_modified. rewrite Hdir, Hsrc.
  unfold bind, modify, in_monitor, in_world, zoom, time_time, logger.
  cbn -[build union singleton elements size empty PrimFloat.ltb PrimFloat.sub
        bool_decide].
  destruct (PrimFloat.ltb _ _); [|reflexivity].
  rewrite bool_decide_eq_true_2 by set_solver.
  cbn -[build union singleton elements size empty].
  destruct (build json_dumps _ _ _) as [[r|e] m2]; reflexivity.
Qed.

(** An event that comes within the debounce time of the previous one starts
    no build: the monitor object is not touched, the path waits in the
    pending set. *)
Lemma on_modified_within_window (event : FileSystemEvent) (w : Watch) :
  is_directory event = false ->
  is_source_path (src_path event) = true ->
  PrimFloat.ltb (debounce_time (handler w))
    (PrimFloat.sub (now (world (monitor w))) (last_event_time (handler w)))
  = false ->
  let w' := snd (on_modified json_dumps event w) in
  self (monitor w') = self (monitor w)
  /\ disk (world (monitor w')) = disk (world (monitor w))
  /\ pending_changes (handler w')
     = {[src_path event]} ∪ pending_changes (handler w)
  /\ last_event_time (handler w') = now (world (monitor w)).
Proof.
  intros Hdir Hsrc Hlt. cbv zeta.
  rewrite on_modified_source by assumption. cbv zeta. rewrite Hlt.
  now repeat split.
Qed.

(** ** The constructor's directories *)

(** Once [setup_directories] has returned, the three directories are
    configured. *)
Lemma make_directory_returns (v : json) (s s' : Sys) :
  make_directory v s = (Ret tt, s') -> returns (as_str v) = true.
Proof.
  unfold make_directory, bind, reading.
  destruct (as_str v); [reflexivity | discriminate].
Qed.

Lemma setup_directories_configured (s s' : Sys) :
  setup_directories s = (Ret tt, s') -> dirs_configured (config (self s)).
Proof.
  unfold setup_directories, bind, config_item, reading, dirs_configured,
    config_str.
  destruct (getitem (config (self s)) "paths") as [paths|]; [|discriminate].
  destruct (getitem paths "public_dir") as [p|]; [|discriminate].
  destruct (getitem paths "cache_dir") as [c|]; [|discriminate].
  destruct (getitem paths "logs_dir") as [l|]; [|discriminate].
  destruct (make_directory p s) as [[[]|e1] s1] eqn:E1; [|discriminate].
  destruct (make_directory c s1) as [[[]|e2] s2] eqn:E2; [|discriminate].
  intros E3.
  apply make_directory_returns in E1, E2, E3. now repeat split.
Qed.

Lemma default_dirs_configured : dirs_configured get_default_config.
Proof. repeat split. Qed.

(** A call of [build] that is not skipped finalizes a record: the last entry
    of the history. *)
Lemma build_finalizes (s : Sys) (mode : string)
    (changed_files : option (list string))
    (calls : list (string * option (list string))) :
  is_building (self s) = false ->
  dirs_configured (config (self s)) ->
  exists b,
    step json_dumps s [b]
      (snd (build_under json_dumps (concurrent_builds json_dumps calls)
                        mode changed_files s)).
Proof.
  intros Hflag (Hp & Hc & Hl).
  destruct (config_str (config (self s)) "public_dir") as [pub|] eqn:Ep;
    [|discriminate].
  destruct (config_str (config (self s)) "cache_dir") as [cache|] eqn:Ec;
    [|discriminate].
  destruct (config_str (config (self s)) "logs_dir") as [logs|] eqn:El;
    [|discriminate].
  destruct (build_under_spec (concurrent_builds json_dumps calls) mode
              changed_files s pub cache logs) as (w1 & _ & _ & E);
    try assumption.
  { intros t Ht. apply concurrent_builds_core.
    injection Ht as -> _ _. reflexivity. }
  cbv zeta in E.
  match type of E with
  | _ = (_, mkSys (settled ?b0 _ _) _) => exists b0
  end.
  eapply step_build; [exact Hflag | reflexivity |].
  rewrite E. cbn [snd self settled set_build_history build_history].
  apply deque_append_last. unfold history_maxlen. lia.
Qed.

End Build.

(* ===================================================================== *)
(** * Part III: the properties at concrete worlds                         *)
(* ===================================================================== *)

Lemma pair_of_fst {A B : Type} (x : A * B) (a : A) :
  fst x = a -> x = (a, snd x).
Proof. intros <-. now destruct x. Qed.

(** ** Change detection *)

(** The source file of the project, seen for the first time: changed, then
    settled. *)
Lemma has_file_changed_twice_witness :
  has_file_changed "wasm/game_engine.cpp" (demo_sys emcc_installed compiles)
  = (Ret true,
     snd (has_file_changed "wasm/game_engine.cpp"
            (demo_sys emcc_installed compiles)))
  /\ has_file_changed "wasm/game_engine.cpp"
       (snd (has_file_changed "wasm/game_engine.cpp"
               (demo_sys emcc_installed compiles)))
     = (Ret false,
        snd (has_file_changed "wasm/game_engine.cpp"
               (demo_sys emcc_installed compiles))).
Proof.
  assert (H : has_file_changed "wasm/game_engine.cpp"
                (demo_sys emcc_installed compiles)
              = (Ret true,
                 snd (has_file_changed "wasm/game_engine.cpp"
                        (demo_sys emcc_installed compiles))))
    by (apply pair_of_fst; vm_compute; reflexivity).
  split; [exact H|].
  exact (proj1 (proj2 (has_file_changed_twice _ _ _ _ H))).
Defined.

(** The first of two calls returns false for a file whose digest is the one
    in the cache. *)
Lemma has_file_changed_unchanged_file :
  fst (has_file_changed "wasm/game_engine.cpp"
         (mkSys (set_file_hashes
                   {["wasm/game_engine.cpp" := "1ea1f4efbdd7db2380d7f4fa7b11048d"]}
                   demo_monitor)
                (demo_world emcc_installed compiles)))
  = Ret false.
Proof. vm_compute. reflexivity. Qed.

Lemma has_file_changed_unseen_witness :
  file_hashes (self (demo_sys emcc_installed compiles))
    !! "wasm/game_engine.cpp" = None
  /\ fst (has_file_changed "wasm/game_engine.cpp"
            (demo_sys emcc_installed compiles)) = Ret true.
Proof.
  split; [vm_compute; reflexivity|].
  rewrite (has_file_changed_unseen "wasm/game_engine.cpp"
             (demo_sys emcc_installed compiles))
    by (vm_compute; reflexivity).
  vm_compute. reflexivity.
Defined.

(** A path never seen before is reported unchanged when the file is
    missing. *)
Lemma has_file_changed_unseen_missing :
  file_hashes (self (demo_sys emcc_installed compiles))
    !! "wasm/src/entity.cpp" = None
  /\ disk (world (demo_sys emcc_installed compiles))
       !! "wasm/src/entity.cpp" = None
  /\ fst (has_file_changed "wasm/src/entity.cpp"
            (demo_sys emcc_installed compiles)) = Ret false.
Proof. repeat split; vm_compute; reflexivity. Qed.

(** A file without read permission: the error of [open] reaches the
    caller. *)
Lemma calculate_file_hash_unreadable :
  calculate_file_hash
    (<["wasm/game_engine.cpp" := Reg false true "int main() { return 0; }"]>
       demo_disk)
    "wasm/game_engine.cpp"
  = Raise (PermissionError "wasm/game_engine.cpp").
Proof. vm_compute. reflexivity. Qed.

(** A path below a regular file, a path with a NUL character and a name
    of 256 characters: the path is not there, and the error of [open]
    reaches the caller. *)
Example calculate_file_hash_below_file :
  demo_disk !! "wasm/game_engine.cpp/child" = None
  /\ calculate_file_hash demo_disk "wasm/game_engine.cpp/child"
     = Raise (NotADirectoryError "wasm/game_engine.cpp/child")
  /\ calculate_file_hash demo_disk (String Ascii.zero "wasm")
     = Raise (ValueError "embedded null byte")
  /\ calculate_file_hash demo_disk (string_of_list_ascii (repeat "a"%char 256))
     = Raise (OSError ENAMETOOLONG
                (string_of_list_ascii (repeat "a"%char 256))).
Proof. repeat split; vm_compute; reflexivity. Qed.

(** A missing directory on the way is found missing before a name below
    it is found too long. *)
Example calculate_file_hash_below_missing :
  calculate_file_hash demo_disk
    ("missing/" +:+ string_of_list_ascii (repeat "a"%char 256))
  = Ret "".
Proof. vm_compute. reflexivity. Qed.

Example has_file_changed_below_file :
  fst (has_file_changed "wasm/game_engine.cpp/child"
         (demo_sys emcc_installed compiles))
  = Raise (NotADirectoryError "wasm/game_engine.cpp/child").
Proof. vm_compute. reflexivity. Qed.

(** An empty file and a missing one have different digests. *)
Example calculate_file_hash_empty_file :
  calculate_file_hash (<["wasm/empty.h" := Reg true true ""]> demo_disk)
                      "wasm/empty.h"
  = Ret "d41d8cd98f00b204e9800998ecf8427e"
  /\ calculate_file_hash demo_disk "wasm/empty.h" = Ret "".
Proof. split; vm_compute; reflexivity. Qed.

(** ** Configuration *)

(** A configuration file that cannot be read, and one that holds no JSON:
    [load_config] raises. *)
Lemma load_config_unreadable_or_malformed :
  fst (load_config rejecting_loads "/workspace/wasm-build.config.json"
         (set_disk (<["/workspace/wasm-build.config.json"
                      := Reg false true "{}"]> demo_disk)
                   (demo_world emcc_installed compiles)))
  = Raise (PermissionError "/workspace/wasm-build.config.json")
  /\ fst (load_config rejecting_loads "/workspace/wasm-build.config.json"
            (set_disk (<["/workspace/wasm-build.config.json"
                         := Reg true true "not json"]> demo_disk)
                      (demo_world emcc_installed compiles)))
     = Raise (JSONDecodeError "Expecting value: line 1 column 1 (char 0)").
Proof. split; vm_compute; reflexivity. Qed.

(** A configuration path below a regular file: [load_config] raises. *)
Example load_config_below_file :
  fst (load_config rejecting_loads "wasm/game_engine.cpp/config.json"
         (demo_world emcc_installed compiles))
  = Raise (NotADirectoryError "wasm/game_engine.cpp/config.json").
Proof. vm_compute. reflexivity. Qed.

(** With no configuration file, the defaults. *)
Example load_config_missing :
  fst (load_config rejecting_loads "/workspace/wasm-build.config.json"
         (demo_world emcc_installed compiles))
  = Ret get_default_config.
Proof. vm_compute. reflexivity. Qed.

(** ** Builds *)

Lemma build_single_flight_witness :
  is_building (self (demo_sys emcc_installed compiles)) = false
  /\ dirs_configured (config (self (demo_sys emcc_installed compiles)))
  /\ build_under compact_dumps
       (fun t => snd (build compact_dumps "debug" None t))
       "release" None (demo_sys emcc_installed compiles)
     = build_under compact_dumps skipped "release" None
         (demo_sys emcc_installed compiles).
Proof.
  split; [reflexivity|]. split; [exact default_dirs_configured|].
  exact (proj1 (proj2 (build_single_flight compact_dumps
                         (demo_sys emcc_installed compiles)
                         "release" "debug" None None eq_refl
                         default_dirs_configured))).
Defined.

(** The two calls at work: the first returns its record, the log holds the
    warning of the second, the history one record. *)
Example build_single_flight_run :
  let both :=
    build_under compact_dumps
      (fun t => snd (build compact_dumps "debug" None t))
      "release" None (demo_sys emcc_installed compiles) in
  (success <$> build_history (self (snd both))) = [true]
  /\ List.filter (fun entry => match snd entry with
                               | BuildSkipped => true
                               | _ => false
                               end) (log (world (snd both)))
     = [(WARNING, BuildSkipped)]
  /\ total_builds (stats (self (snd both))) = 1%Z.
Proof. repeat split; vm_compute; reflexivity. Qed.


Example build_toolchain_missing :
  fst (build compact_dumps "release" (Some [])
         (demo_sys emcc_missing fails_to_compile))
  = Ret (Some (mkBuildStats (demo_clock 0) (demo_clock 1) false "release" []
                            0 0 "Emscripten not available" None)).
Proof. vm_compute. reflexivity. Qed.

Lemma running_stats_invariant_witness :
  fresh (demo_sys emcc_installed compiles)
  /\ exists l s,
       run compact_dumps (demo_sys emcc_installed compiles) l s
       /\ List.length l = 1%nat
       /\ total_builds (stats (self s)) = 1%Z
       /\ (successful_builds (stats (self s)) + failed_builds (stats (self s))
           = total_builds (stats (self s)))%Z.
Proof.
  assert (Hfresh : fresh (demo_sys emcc_installed compiles))
    by (split; [exact default_dirs_configured | repeat split]).
  split; [exact Hfresh|].
  destruct (build_finalizes compact_dumps (demo_sys emcc_installed compiles)
              "release" None [("debug", None)] eq_refl
              default_dirs_configured) as (b & Hstep).
  pose proof (run_step compact_dumps _ _ _ [] [b]
                (run_nil compact_dumps _) Hstep) as Hrun.
  eexists [b], _. split; [exact Hrun|]. split; [reflexivity|].
  destruct (running_stats_invariant compact_dumps
              (demo_sys emcc_installed compiles) _ _ [b] [] Hfresh Hrun
              (run_nil compact_dumps _)) as (Ht & _ & _ & Hsum & _).
  split; [exact Ht | exact Hsum].
Defined.

Lemma build_record_invariant_witness :
  is_building (self (demo_sys emcc_installed fails_to_compile)) = false
  /\ dirs_configured (config (self (demo_sys emcc_installed fails_to_compile)))
  /\ exists b,
       fst (build compact_dumps "release" None
              (demo_sys emcc_installed fails_to_compile)) = Ret (Some b)
       /\ PrimFloat.leb (start_time b) (end_time b) = true
       /\ success b = false
       /\ error_message b = "wasm/game_engine.cpp:1:1: error: expected ';'".
Proof.
  split; [reflexivity|]. split; [exact default_dirs_configured|].
  exists (mkBuildStats (demo_clock 0) (demo_clock 1) false "release" [] 0 0
            "wasm/game_engine.cpp:1:1: error: expected ';'" None).
  assert (Hret : fst (build compact_dumps "release" None
                        (demo_sys emcc_installed fails_to_compile))
                 = Ret (Some (mkBuildStats (demo_clock 0) (demo_clock 1) false
                                "release" [] 0 0
                                "wasm/game_engine.cpp:1:1: error: expected ';'"
                                None)))
    by (vm_compute; reflexivity).
  split; [exact Hret|].
  destruct (build_record_invariant compact_dumps
              (demo_sys emcc_installed fails_to_compile) "release" None _
              eq_refl default_dirs_configured Hret) as (_ & _ & Hle & _).
  split; [apply Hle; vm_compute; reflexivity|].
  split; reflexivity.
Defined.

(** A compiler that exits with code 1 and writes nothing on its standard
    error: the record has [success] false and an empty error message. *)
Lemma build_fails_with_empty_message :
  exists b,
    fst (build compact_dumps "release" None
           (demo_sys emcc_installed fails_silently)) = Ret (Some b)
    /\ success b = false
    /\ error_message b = "".
Proof.
  exists (mkBuildStats (demo_clock 0) (demo_clock 1) false "release" [] 0 0 ""
            None).
  split; [vm_compute; reflexivity | split; reflexivity].
Qed.

(** A clock set back during the build: the end time is below the start
    time. *)
Example build_clock_set_back :
  exists b,
    fst (build compact_dumps "release" None
           (mkSys demo_monitor
                  (mkWorld demo_disk stepping_back_clock 0 None emcc_installed
                           compiles [])))
    = Ret (Some b)
    /\ PrimFloat.ltb (end_time b) (start_time b) = true.
Proof.
  exists (mkBuildStats 1000 999 true "release" [] 11 0 ""
            (Some ["wasm/game_engine.cpp:1:5: Warning: unused variable"])).
  split; vm_compute; reflexivity.
Qed.

Lemma build_warnings_witness :
  is_building (self (demo_sys emcc_installed compiles)) = false
  /\ dirs_configured (config (self (demo_sys emcc_installed compiles)))
  /\ fst (run_compiler (fun t => t) "release"
            (build_start "release" None (demo_sys emcc_installed compiles)))
     = Ret (mkCompletedProcess 0
              ("wasm/game_engine.cpp:1:5: Warning: unused variable"
                 +:+ String newline "done") "")
  /\ exists b,
       fst (build compact_dumps "release" None
              (demo_sys emcc_installed compiles)) = Ret (Some b)
       /\ success b = true
       /\ warnings b
          = Some ["wasm/game_engine.cpp:1:5: Warning: unused variable"].
Proof.
  split; [reflexivity|]. split; [exact default_dirs_configured|].
  assert (Hrun : fst (run_compiler (fun t => t) "release"
                        (build_start "release" None
                           (demo_sys emcc_installed compiles)))
                 = Ret (mkCompletedProcess 0
                          ("wasm/game_engine.cpp:1:5: Warning: unused variable"
                             +:+ String newline "done") ""))
    by (vm_compute; reflexivity).
  split; [exact Hrun|].
  destruct (build_warnings compact_dumps
              (demo_sys emcc_installed compiles) "release" None _
              eq_refl default_dirs_configured Hrun)
    as (b & Hret & Hs & Hw & _).
  exists b. split; [exact Hret|]. split; [exact Hs | exact Hw].
Defined.

(** A failed compiler run keeps its warnings too. *)
Example build_warnings_of_failure :
  fst (build compact_dumps "release" None
         (mkSys demo_monitor
            (mkWorld demo_disk demo_clock 0 None emcc_installed
               (fun _ _ d =>
                  (Ret (mkCompletedProcess 1 "a.cpp:2: WARNING: shadowed"
                                           "a.cpp:9: error: no such type"), d))
               [])))
  = Ret (Some (mkBuildStats (demo_clock 0) (demo_clock 1) false "release" []
                 0 0 "a.cpp:9: error: no such type"
                 (Some ["a.cpp:2: WARNING: shadowed"]))).
Proof. vm_compute. reflexivity. Qed.

(** ** The event handler *)

Example new_handler_default :
  fst (new_handler "release" (demo_sys emcc_installed compiles))
  = Ret (handler demo_watch).
Proof. vm_compute. reflexivity. Qed.

(** C9 (what the code does at a burst): two source files are modified 0.4
    seconds apart, after a long quiet period, with a debounce time of one
    second.  The first event starts a build at once, for the first file
    alone; the second event starts none, and its file is left in the
    pending set, to be built when an event comes after a quiet second.  No
    build carries the two files of the burst. *)
Theorem on_modified_splits_burst :
  fst (demo_burst compact_dumps demo_watch) = Ret tt
  /\ now (world (monitor demo_watch)) = demo_clock 0
  /\ last_event_time (handler (snd (demo_burst compact_dumps demo_watch)))
     = demo_clock 4
  /\ debounce_time (handler demo_watch) = 1%float
  /\ (files_changed
        <$> build_history
              (self (monitor (snd (demo_burst compact_dumps demo_watch)))))
     = [["wasm/game_engine.cpp"]]
  /\ elements
       (pending_changes (handler (snd (demo_burst compact_dumps demo_watch))))
     = ["wasm/src/entity.cpp"].
Proof. repeat split; vm_compute; reflexivity. Qed.

(** What is left pending goes out with the next event that follows a quiet
    period: here a third file, ten seconds later. *)
Example on_modified_flushes_later :
  (files_changed
     <$> build_history
           (self (monitor (snd
              ((demo_burst compact_dumps;;;
                modify (fun w =>
                  set_monitor
                    (set_world (set_ticks 100 (world (monitor w))) (monitor w))
                    w);;;
                on_modified compact_dumps (modified "wasm/include/entity.h"))%py
                 demo_watch)))))
  = [["wasm/game_engine.cpp"];
     elements ({["wasm/include/entity.h"; "wasm/src/entity.cpp"]} : gset string)].
Proof. vm_compute. reflexivity. Qed.

(* ===================================================================== *)
(** * Part IV: further properties of the code                             *)
(* ===================================================================== *)

(** ** The history of builds *)

Section History.

Variable json_dumps : json -> string.

Lemma deque_append_lastn {A : Type} (n : nat) (x : A) (l : list A) :
  (0 < n)%nat -> deque_append n x (lastn n l) = lastn n (l ++ [x]).
Proof.
  intros Hn. unfold deque_append, lastn.
  rewrite length_drop, List.length_app. cbn [List.length].
  destruct (decide (List.length l < n)%nat) as [Hlt|Hge].
  - replace (List.length l - n)%nat with 0%nat by lia.
    replace (List.length l + 1 - n)%nat with 0%nat by lia.
    rewrite !drop_0, Nat.sub_0_r.
    destruct (Nat.ltb_spec (List.length l) n); [reflexivity | lia].
  - destruct (Nat.ltb_spec (List.length l - (List.length l - n)) n); [lia|].
    replace (List.length l + 1 - n)%nat with (S (List.length l - n)) by lia.
    rewrite drop_app_le by lia.
    destruct (drop (List.length l - n) l) as [|y q] eqn:Hd.
    + apply (f_equal List.length) in Hd. rewrite length_drop in Hd.
      simpl in Hd. lia.
    + simpl. f_equal.
      change q with (drop 1 (y :: q)). rewrite <- Hd, drop_drop.
      f_equal. lia.
Qed.

(** What a step does to the history: each record it finalizes is appended,
    the oldest entry leaving once there are a hundred. *)
Lemma step_history (s s' : Sys) (l : list BuildStats) :
  dirs_configured (config (self s)) ->
  is_building (self s) = false ->
  step json_dumps s l s' ->
  dirs_configured (config (self s'))
  /\ is_building (self s') = false
  /\ build_history (self s')
     = fold_left (fun h b => deque_append history_maxlen b h) l
                 (build_history (self s)).
Proof.
  intros Hdirs Hflag Hstep.
  destruct Hstep as [s w | s p | s mode files Hb
                    | s s' mode files calls b _ Hs' Hlast].
  - split; [exact Hdirs|]. split; [exact Hflag | reflexivity].
  - destruct (has_file_changed_self p s) as (-> & -> & _ & ->).
    split; [exact Hdirs|]. split; [exact Hflag | reflexivity].
  - congruence.
  - destruct Hdirs as (Hp & Hc & Hl).
    destruct (config_str (config (self s)) "public_dir") as [pub|] eqn:Ep;
      [|discriminate].
    destruct (config_str (config (self s)) "cache_dir") as [cache|] eqn:Ec;
      [|discriminate].
    destruct (config_str (config (self s)) "logs_dir") as [logs|] eqn:El;
      [|discriminate].
    destruct (build_under_spec json_dumps (concurrent_builds json_dumps calls)
                mode files s pub cache logs) as (w1 & _ & _ & E);
      try assumption.
    { intros t Ht. apply concurrent_builds_core.
      injection Ht as -> _ _. reflexivity. }
    cbv zeta in E.
    match type of E with
    | _ = (_, mkSys (settled ?b0 _ _) _) => remember b0 as b1 eqn:Hb1
    end.
    rewrite E in Hs'. clear E Hb1. cbn [snd] in Hs'. subst s'.
    cbn [self settled set_build_history build_history] in Hlast.
    rewrite deque_append_last in Hlast by (unfold history_maxlen; lia).
    injection Hlast as ->.
    cbn [self settled set_build_history set_stats set_is_building config
         is_building build_history fold_left].
    unfold dirs_configured. rewrite Ep, Ec, El. now repeat split.
Qed.

Lemma run_history (s s' : Sys) (l past : list BuildStats) :
  dirs_configured (config (self s)) ->
  is_building (self s) = false ->
  build_history (self s) = lastn history_maxlen past ->
  run json_dumps s l s' ->
  dirs_configured (config (self s'))
  /\ is_building (self s') = false
  /\ build_history (self s') = lastn history_maxlen (past ++ l).
Proof.
  intros Hdirs Hflag Hpast Hrun.
  induction Hrun as [s | s s1 s2 l1 l2 Hrun IH Hstep].
  - rewrite List.app_nil_r.
    split; [exact Hdirs|]. split; [exact Hflag | exact Hpast].
  - destruct (IH Hdirs Hflag Hpast) as (Hd1 & Hf1 & Hh1).
    destruct (step_history s1 s2 l2 Hd1 Hf1 Hstep) as (Hd2 & Hf2 & Hh2).
    split; [exact Hd2|]. split; [exact Hf2|].
    rewrite Hh2, Hh1. clear.
    rewrite List.app_assoc. generalize (past ++ l1). intros q.
    revert q. induction l2 as [|b l2 IH]; intros q.
    + now rewrite List.app_nil_r.
    + cbn [fold_left].
      rewrite deque_append_lastn by (unfold history_maxlen; lia).
      rewrite IH, <- List.app_assoc. reflexivity.
Qed.

(** X1: in a monitor that started fresh, the history holds the records
    finalized so far, oldest first, or the last hundred of them once there are
    more: it never has more than a hundred entries, and the most recent record
    is never the one dropped. *)
Theorem build_history_bounded (s0 s : Sys) (l : list BuildStats) :
  fresh s0 ->
  run json_dumps s0 l s ->
  build_history (self s) = lastn history_maxlen l
  /\ (List.length (build_history (self s)) <= history_maxlen)%nat
  /\ (List.length (build_history (self s))
      = Nat.min (List.length l) history_maxlen)%nat.
Proof.
  intros (Hdirs & Hh0 & Hflag & _) Hrun.
  destruct (run_history s0 s l [] Hdirs Hflag) as (_ & _ & Hh);
    [rewrite Hh0; reflexivity | exact Hrun |].
  cbn [app] in Hh. rewrite Hh. unfold lastn. rewrite length_drop.
  repeat split; lia.
Qed.

End History.

(** ** The toolchain probe *)

(** One call of [check_emscripten], by what the probe gives. *)
Lemma check_emscripten_step (depth : nat) (s : Sys) :
  check_emscripten (S depth) s =
    let fallback :=
      match config_str (config (self s)) "workspace" with
      | Raise e => (Raise e, s)
      | Ret workspace =>
          if path_exists (disk (world s)) (emsdk_env_sh workspace) then
            match environ_PATH (world s) with
            | None => (Raise (KeyError "PATH"), logged INFO SourcingEmscripten s)
            | Some p =>
                check_emscripten depth
                  (set_world
                     (set_environ_PATH
                        (Some ("/workspace/emsdk/upstream/emscripten:" +:+ p))
                        (world (logged INFO SourcingEmscripten s)))
                     (logged INFO SourcingEmscripten s))
            end
          else (Ret false, logged ERROR EmscriptenNotFound s)
      end in
    match emcc_version (world s) (environ_PATH (world s)) with
    | Ret result =>
        if (returncode result =? 0)%Z then
          match first_word (stdout result) with
          | Some version => (Ret true, logged INFO (EmscriptenFound version) s)
          | None => (Raise IndexError, s)
          end
        else fallback
    | Raise e => if is_FileNotFoundError e then fallback else (Raise e, s)
    end.
Proof.
  cbn [check_emscripten].
  unfold config_path, bind, try_except_if, reading, in_world, zoom, logger,
    modify, ret, raise, logged, emsdk_env_sh.
  cbv zeta.
  destruct (emcc_version (world s) (environ_PATH (world s))) as [result|e].
  - destruct (returncode result =? 0)%Z.
    + destruct (first_word (stdout result)); reflexivity.
    + destruct (config_str (config (self s)) "workspace") as [ws|];
        [|reflexivity].
      destruct (path_exists (disk (world s)) _); [|reflexivity].
      cbn [world set_world environ_PATH set_log].
      destruct (environ_PATH (world s)); reflexivity.
  - destruct (is_FileNotFoundError e); [|reflexivity].
    destruct (config_str (config (self s)) "workspace") as [ws|];
      [|reflexivity].
    destruct (path_exists (disk (world s)) _); [|reflexivity].
    cbn [world set_world environ_PATH set_log].
    destruct (environ_PATH (world s)); reflexivity.
Qed.

(** [check_emscripten] touches the log and [PATH] only. *)
Lemma check_emscripten_frame (depth : nat) (s : Sys) :
  let s' := snd (check_emscripten depth s) in
  self s' = self s
  /\ disk (world s') = disk (world s)
  /\ emcc_version (world s') = emcc_version (world s)
  /\ shell (world s') = shell (world s)
  /\ clock (world s') = clock (world s)
  /\ ticks (world s') = ticks (world s).
Proof.
  revert s. induction depth as [|depth IH]; intros s; [now repeat split|].
  rewrite check_emscripten_step. cbv zeta.
  assert (Hfall :
    let r :=
      match config_str (config (self s)) "workspace" with
      | Raise e => (Raise e, s)
      | Ret workspace =>
          if path_exists (disk (world s)) (emsdk_env_sh workspace) then
            match environ_PATH (world s) with
            | None => (Raise (KeyError "PATH"), logged INFO SourcingEmscripten s)
            | Some p =>
                check_emscripten depth
                  (set_world
                     (set_environ_PATH
                        (Some ("/workspace/emsdk/upstream/emscripten:" +:+ p))
                        (world (logged INFO SourcingEmscripten s)))
                     (logged INFO SourcingEmscripten s))
            end
          else (Ret false, logged ERROR EmscriptenNotFound s)
      end in
    self (snd r) = self s
    /\ disk (world (snd r)) = disk (world s)
    /\ emcc_version (world (snd r)) = emcc_version (world s)
    /\ shell (world (snd r)) = shell (world s)
    /\ clock (world (snd r)) = clock (world s)
    /\ ticks (world (snd r)) = ticks (world s)).
  { cbv zeta.
    destruct (config_str (config (self s)) "workspace") as [ws|];
      [|now repeat split].
    destruct (path_exists (disk (world s)) _); [|now repeat split].
    destruct (environ_PATH (world s)) as [p|]; [|now repeat split].
    exact (IH _). }
  cbv zeta in Hfall.
  destruct (emcc_version (world s) (environ_PATH (world s))) as [result|e].
  - destruct (returncode result =? 0)%Z; [|exact Hfall].
    destruct (first_word (stdout result)); now repeat split.
  - destruct (is_FileNotFoundError e); [exact Hfall | now repeat split].
Qed.

Section Toolchain.

Variable json_dumps : json -> string.

(** X2: [check_emscripten] reports a toolchain only after [emcc --version] has
    exited with code 0 under the [PATH] it leaves; it reports none only when
    the probe failed under the [PATH] it found, which it leaves as it was, and
    there is no [emsdk_env.sh] to fall back on. *)
Theorem check_emscripten_sound (depth : nat) (s s' : Sys) (available : bool) :
  check_emscripten depth s = (Ret available, s') ->
  match available with
  | true =>
      exists result version,
        emcc_version (world s) (environ_PATH (world s')) = Ret result
        /\ returncode result = 0%Z
        /\ first_word (stdout result) = Some version
  | false =>
      environ_PATH (world s') = environ_PATH (world s)
      /\ probe_fails (emcc_version (world s) (environ_PATH (world s))) = true
      /\ exists workspace,
           config_str (config (self s)) "workspace" = Ret workspace
           /\ path_exists (disk (world s)) (emsdk_env_sh workspace) = false
  end.
Proof.
  revert s s'. induction depth as [|depth IH]; intros s s'; [discriminate|].
  rewrite check_emscripten_step. cbv zeta.
  assert (Hfall : forall r : result bool * Sys,
    probe_fails (emcc_version (world s) (environ_PATH (world s))) = true ->
    r = match config_str (config (self s)) "workspace" with
        | Raise e => (Raise e, s)
        | Ret workspace =>
            if path_exists (disk (world s)) (emsdk_env_sh workspace) then
              match environ_PATH (world s) with
              | None =>
                  (Raise (KeyError "PATH"), logged INFO SourcingEmscripten s)
              | Some p =>
                  check_emscripten depth
                    (set_world
                       (set_environ_PATH
                          (Some ("/workspace/emsdk/upstream/emscripten:" +:+ p))
                          (world (logged INFO SourcingEmscripten s)))
                       (logged INFO SourcingEmscripten s))
              end
            else (Ret false, logged ERROR EmscriptenNotFound s)
        end ->
    r = (Ret available, s') ->
    match available with
    | true =>
        exists result version,
          emcc_version (world s) (environ_PATH (world s')) = Ret result
          /\ returncode result = 0%Z
          /\ first_word (stdout result) = Some version
    | false =>
        environ_PATH (world s') = environ_PATH (world s)
        /\ probe_fails (emcc_version (world s) (environ_PATH (world s))) = true
        /\ exists workspace,
             config_str (config (self s)) "workspace" = Ret workspace
             /\ path_exists (disk (world s)) (emsdk_env_sh workspace) = false
    end).
  { intros r Hprobe -> Hr.
    destruct (config_str (config (self s)) "workspace") as [ws|] eqn:Ews;
      [|discriminate].
    destruct (path_exists (disk (world s)) (emsdk_env_sh ws)) eqn:Eex.
    - destruct (environ_PATH (world s)) as [p|]; [|discriminate].
      specialize (IH _ _ Hr). destruct available.
      + exact IH.
      + destruct IH as (_ & _ & ws' & Hws' & Hex').
        cbn in Hws', Hex'. rewrite Ews in Hws'. injection Hws' as <-.
        congruence.
    - injection Hr as <- <-. split; [reflexivity|]. split; [exact Hprobe|].
      exists ws. now split. }
  destruct (emcc_version (world s) (environ_PATH (world s))) as [result|e]
    eqn:Eprobe.
  - destruct (returncode result =? 0)%Z eqn:Erc.
    + destruct (first_word (stdout result)) as [v|] eqn:Ev; [|discriminate].
      intros [= <- <-]. exists result, v. cbn.
      split; [exact Eprobe|]. split; [now apply Z.eqb_eq | exact Ev].
    + intros Hr. eapply Hfall; [|reflexivity | exact Hr].
      cbn. now rewrite Erc.
  - destruct (is_FileNotFoundError e) eqn:Ee; [|discriminate].
    intros Hr. eapply Hfall; [|reflexivity | exact Hr]. exact Ee.
Qed.

(** X3: where there is an [emsdk_env.sh] and [emcc] is found under no [PATH],
    [check_emscripten] does not give up: it calls itself, with one more
    directory in front of [PATH] each time, until the interpreter stops the
    recursion. *)
Theorem check_emscripten_retries (depth : nat) (s : Sys)
    (workspace path : string) :
  config_str (config (self s)) "workspace" = Ret workspace ->
  path_exists (disk (world s)) (emsdk_env_sh workspace) = true ->
  environ_PATH (world s) = Some path ->
  (forall p, probe_fails (emcc_version (world s) p) = true) ->
  fst (check_emscripten depth s) = Raise RecursionError
  /\ environ_PATH (world (snd (check_emscripten depth s)))
     = Some (emsdk_prefixed depth path).
Proof.
  revert s path. induction depth as [|depth IH];
    intros s path Hws Hex Hpath Hprobe; [now split|].
  rewrite check_emscripten_step. cbv zeta. rewrite Hws, Hex, Hpath.
  specialize (Hprobe (Some path)) as Hp. unfold probe_fails in Hp.
  assert (Hrec :
    fst (check_emscripten depth
           (set_world
              (set_environ_PATH
                 (Some ("/workspace/emsdk/upstream/emscripten:" +:+ path))
                 (world (logged INFO SourcingEmscripten s)))
              (logged INFO SourcingEmscripten s))) = Raise RecursionError
    /\ environ_PATH
         (world (snd (check_emscripten depth
           (set_world
              (set_environ_PATH
                 (Some ("/workspace/emsdk/upstream/emscripten:" +:+ path))
                 (world (logged INFO SourcingEmscripten s)))
              (logged INFO SourcingEmscripten s)))))
       = Some (emsdk_prefixed depth
                 ("/workspace/emsdk/upstream/emscripten:" +:+ path))).
  { apply IH; [exact Hws | exact Hex | reflexivity | exact Hprobe]. }
  destruct (emcc_version (world s) (Some path)) as [result|e].
  - destruct (returncode result =? 0)%Z; [discriminate Hp | exact Hrec].
  - rewrite Hp. exact Hrec.
Qed.

End Toolchain.
(** ** Builds, with the files the compiler left *)

(** The compiler run, step by step: the probe, the command line, the
    working directory, the child process. *)
Lemma run_compiler_cases (others : Sys -> Sys) (mode : string) (fr : Frame) :
  run_compiler others mode fr =
    match check_emscripten recursion_limit
            (logged INFO (StartingBuild mode) (sys fr)) with
    | (Raise e, s1) => (Raise e, set_sys s1 fr)
    | (Ret false, s1) =>
        (Raise (RuntimeError "Emscripten not available"), set_sys s1 fr)
    | (Ret true, s1) =>
        match fst (prepare_build_command mode s1) with
        | Raise e => (Raise e, set_sys s1 fr)
        | Ret build_cmd =>
            let s2 := logged INFO (BuildCommand build_cmd) s1 in
            match config_str (config (self s1)) "workspace" with
            | Raise e => (Raise e, set_sys s2 fr)
            | Ret cwd =>
                let s3 := others s2 in
                let run := shell (world s3) build_cmd cwd (disk (world s3)) in
                (fst run,
                 set_sys (set_world (set_disk (snd run) (world s3)) s3) fr)
            end
        end
    end.
Proof.
  unfold run_compiler, bind, in_sys, in_world, zoom, logger, modify, logged.
  cbn [sys set_sys world set_world fst snd].
  destruct (check_emscripten recursion_limit _) as [[[|]|e] s1];
    cbn [negb sys set_sys]; try reflexivity.
  unfold raise.
  pose proof (prepare_build_command_reads mode s1) as Hreads.
  destruct (prepare_build_command mode s1) as [[build_cmd|e] s1'];
    cbn [fst snd] in *; subst s1'; [|reflexivity].
  unfold config_path, reading, subprocess_run.
  cbn [sys set_sys world set_world self fst snd].
  destruct (config_str (config (self s1)) "workspace") as [cwd|e];
    [|reflexivity].
  cbv zeta.
  destruct (shell _ build_cmd cwd _) as [r d]. reflexivity.
Qed.

(** A probe that fails where there is no [emsdk_env.sh] reports no
    toolchain. *)
Lemma check_emscripten_none (depth : nat) (t : Sys) (workspace : string) :
  config_str (config (self t)) "workspace" = Ret workspace ->
  path_exists (disk (world t)) (emsdk_env_sh workspace) = false ->
  probe_fails (emcc_version (world t) (environ_PATH (world t))) = true ->
  check_emscripten (S depth) t = (Ret false, logged ERROR EmscriptenNotFound t).
Proof.
  intros Hws Hex Hprobe. rewrite check_emscripten_step. cbv zeta.
  rewrite Hws, Hex. unfold probe_fails in Hprobe.
  destruct (emcc_version (world t) (environ_PATH (world t))) as [result|e].
  - now destruct (returncode result =? 0)%Z.
  - now rewrite Hprobe.
Qed.

(** A probe that exits with code 0 and prints nothing. *)
Lemma check_emscripten_blank (depth : nat) (t : Sys)
    (result : CompletedProcess) :
  emcc_version (world t) (environ_PATH (world t)) = Ret result ->
  returncode result = 0%Z ->
  first_word (stdout result) = None ->
  check_emscripten (S depth) t = (Raise IndexError, t).
Proof.
  intros Hprobe Hrc Hout. rewrite check_emscripten_step. cbv zeta.
  now rewrite Hprobe, Hrc, Hout.
Qed.

(** A probe that finds the toolchain. *)
Lemma check_emscripten_found (depth : nat) (t : Sys)
    (result : CompletedProcess) (version : string) :
  emcc_version (world t) (environ_PATH (world t)) = Ret result ->
  returncode result = 0%Z ->
  first_word (stdout result) = Some version ->
  check_emscripten (S depth) t
  = (Ret true, logged INFO (EmscriptenFound version) t).
Proof.
  intros Hprobe Hrc Hout. rewrite check_emscripten_step. cbv zeta.
  now rewrite Hprobe, Hrc, Hout.
Qed.

(** The command line depends on the configuration and on the files
    present, and on nothing else. *)
Lemma prepare_build_command_ext (mode : string) (s t : Sys) :
  config (self s) = config (self t) ->
  disk (world s) = disk (world t) ->
  fst (prepare_build_command mode s) = fst (prepare_build_command mode t).
Proof.
  intros Hc Hd.
  unfold prepare_build_command, config_path, bind, reading, ret.
  rewrite Hc, Hd.
  repeat match goal with
         | |- context [match ?x with Ret _ => _ | Raise _ => _ end] =>
             destruct x; cbn [fst snd]
         end; reflexivity.
Qed.

Section Outcome.

Variable json_dumps : json -> string.

(** The [try] statement of [build] leaves the files as the compiler run
    left them. *)
Lemma build_try_disk (others : Sys -> Sys) (mode : string) (fr : Frame)
    (public_dir : string) :
  config_str (config (self (sys fr))) "public_dir" = Ret public_dir ->
  (forall t, core t = core (sys fr) -> core (others t) = core (sys fr)) ->
  disk (world (sys (snd (try_except (build_try others mode) build_except fr))))
  = disk (world (sys (snd (run_compiler others mode fr)))).
Proof.
  intros Hpub Hoth.
  pose proof (inv_run_compiler (core (sys fr)) others mode Hoth fr eq_refl)
    as Hcore.
  unfold try_except, try_except_if, build_try, bind.
  destruct (run_compiler others mode fr) as [[result|e] fr1]; simpl in *.
  - destruct (classify_result_spec result fr1 public_dir)
      as (fr' & -> & _ & _ & Hd).
    { injection Hcore as -> _ _. exact Hpub. }
    exact Hd.
  - destruct (is_Exception e); reflexivity.
Qed.

(** A call of [build] that is not skipped, with the files named: the record
    is [attempted] on the files the compiler run left, and the final world
    is the one that run left, two clock readings later, with the statistics
    logged and the two files written or the failures logged. *)
Lemma build_under_full (others : Sys -> Sys) (mode : string)
    (changed_files : option (list string)) (s : Sys)
    (public_dir cache_dir logs_dir : string) :
  is_building (self s) = false ->
  config_str (config (self s)) "public_dir" = Ret public_dir ->
  config_str (config (self s)) "cache_dir" = Ret cache_dir ->
  config_str (config (self s)) "logs_dir" = Ret logs_dir ->
  (forall t, core t = core (sys (build_start mode changed_files s)) ->
             core (others t) = core t) ->
  exists w1,
    disk w1
    = disk (world (sys (snd (run_compiler others mode
                               (build_start mode changed_files s)))))
    /\ let fr0 := build_start mode changed_files s in
       let run := fst (run_compiler others mode fr0) in
       let b := set_end_time (clock (world s) (S (ticks (world s))))
                  (attempted run public_dir (disk w1) (build_stats fr0)) in
       let m := settled b (clock (world s) (S (S (ticks (world s))))) (self s) in
       build_under json_dumps others mode changed_files s
       = (build_result run b,
          mkSys m (persisted json_dumps cache_dir logs_dir m
                     (stats_logged (stats m) (tick (tick w1))))).
Proof.
  intros Hflag Hpub Hcache Hlogs Hoth.
  set (fr0 := build_start mode changed_files s).
  assert (Hoth' : forall t, core t = core (sys fr0) ->
                            core (others t) = core (sys fr0))
    by (intros t Ht; now rewrite Hoth).
  pose proof (build_try_disk others mode fr0 public_dir Hpub Hoth') as Hdisk.
  destruct (build_try_spec others mode fr0 public_dir Hpub Hoth')
    as (fr' & E & Hb & Hc).
  rewrite E in Hdisk. cbn [snd] in Hdisk.
  exists (world (sys fr')). split; [exact Hdisk|].
  assert (Hself : self (sys fr') = set_is_building true (self s))
    by (now injection Hc as -> _ _).
  assert (Hclock : clock (world (sys fr')) = clock (world s))
    by (now injection Hc as _ -> _).
  assert (Hticks : ticks (world (sys fr')) = S (ticks (world s)))
    by (now injection Hc as _ _ ->).
  cbv zeta. fold fr0.
  unfold build_under. rewrite Hflag. fold fr0.
  unfold build_body, bind, try_finally. rewrite E.
  rewrite (build_finally_spec json_dumps fr' cache_dir logs_dir)
    by (rewrite Hself; assumption).
  cbv zeta. unfold now. cbn [tick set_ticks ticks clock].
  rewrite Hb, Hself, Hclock, Hticks.
  destruct (fst (run_compiler others mode fr0)) as [result|e]; simpl.
  - reflexivity.
  - destruct (is_Exception e); reflexivity.
Qed.

Lemma stats_logged_disk (st : Stats) (w : World) :
  disk (stats_logged st w) = disk w.
Proof. unfold stats_logged. now destruct (0 <? total_builds st)%Z. Qed.

(** The files a call of [build] writes are the history and the cache. *)
Lemma persisted_disk_other (cache_dir logs_dir : string) (m : BuildMonitor)
    (w : World) (p : string) :
  p <> joinpath logs_dir "build_history.json" ->
  p <> joinpath cache_dir "file_hashes.json" ->
  disk (persisted json_dumps cache_dir logs_dir m w) !! p = disk w !! p.
Proof.
  intros Hh Hc. unfold persisted.
  now rewrite !written_disk_other.
Qed.

(** A build whose [try] statement raises before the compiler is started:
    the record says so, and no file but the history and the cache is
    touched. *)
Lemma build_not_run (s s1 : Sys) (mode : string)
    (changed_files : option (list string)) (e : exn) :
  is_building (self s) = false ->
  dirs_configured (config (self s)) ->
  run_compiler (fun t => t) mode (build_start mode changed_files s)
  = (Raise e, set_sys s1 (build_start mode changed_files s)) ->
  disk (world s1) = disk (world s) ->
  is_Exception e = true ->
  exists b cache_dir logs_dir,
    let s' := snd (build json_dumps mode changed_files s) in
    config_str (config (self s)) "cache_dir" = Ret cache_dir
    /\ config_str (config (self s)) "logs_dir" = Ret logs_dir
    /\ fst (build json_dumps mode changed_files s) = Ret (Some b)
    /\ b = set_end_time (clock (world s) (S (ticks (world s))))
             (set_error_message (str_exn e)
                (set_success false
                   (build_stats (build_start mode changed_files s))))
    /\ stats (self s')
       = set_last_build (clock (world s) (S (S (ticks (world s)))))
           (count_build b (stats (self s)))
    /\ (forall p, p <> joinpath logs_dir "build_history.json" ->
                  p <> joinpath cache_dir "file_hashes.json" ->
                  disk (world s') !! p = disk (world s) !! p).
Proof.
  intros Hflag (Hp & Hc & Hl) Hrun Hdisk He.
  destruct (config_str (config (self s)) "public_dir") as [pub|] eqn:Ep;
    [|discriminate].
  destruct (config_str (config (self s)) "cache_dir") as [cache|] eqn:Ec;
    [|discriminate].
  destruct (config_str (config (self s)) "logs_dir") as [logs|] eqn:El;
    [|discriminate].
  destruct (build_under_full (fun t => t) mode changed_files s pub cache logs)
    as (w1 & Hw1 & E); try assumption; [reflexivity|].
  cbv zeta in E. rewrite Hrun in E, Hw1. cbn [fst snd] in E, Hw1.
  unfold attempted, build_result in E. rewrite He in E.
  eexists _, cache, logs. cbv zeta. unfold build. rewrite E. cbn [fst snd].
  split; [reflexivity|]. split; [reflexivity|]. split; [reflexivity|].
  split; [reflexivity|]. split; [reflexivity|].
  intros p Hph Hpc. cbn [world].
  rewrite persisted_disk_other by assumption.
  rewrite stats_logged_disk. cbn [tick set_ticks disk].
  rewrite Hw1. cbn [sys set_sys]. now rewrite Hdisk.
Qed.

(** X4: where [emcc --version] fails and there is no [emsdk_env.sh], a call of
    [build] starts no compiler: it returns a record of a failed build whose
    error message is "Emscripten not available", with no sizes and no
    warnings, counts it among the failed builds, and leaves every file as it
    was but for the history and the cache it writes. *)
Theorem build_without_toolchain (s : Sys) (mode : string)
    (changed_files : option (list string)) (workspace : string) :
  is_building (self s) = false ->
  dirs_configured (config (self s)) ->
  config_str (config (self s)) "workspace" = Ret workspace ->
  path_exists (disk (world s)) (emsdk_env_sh workspace) = false ->
  probe_fails (emcc_version (world s) (environ_PATH (world s))) = true ->
  exists b cache_dir logs_dir,
    let s' := snd (build json_dumps mode changed_files s) in
    config_str (config (self s)) "cache_dir" = Ret cache_dir
    /\ config_str (config (self s)) "logs_dir" = Ret logs_dir
    /\ fst (build json_dumps mode changed_files s) = Ret (Some b)
    /\ success b = false
    /\ error_message b = "Emscripten not available"
    /\ output_size_js b = 0%Z /\ output_size_wasm b = 0%Z
    /\ warnings b = None
    /\ files_changed b = default [] changed_files
    /\ failed_builds (stats (self s')) = (failed_builds (stats (self s)) + 1)%Z
    /\ successful_builds (stats (self s')) = successful_builds (stats (self s))
    /\ (forall p, p <> joinpath logs_dir "build_history.json" ->
                  p <> joinpath cache_dir "file_hashes.json" ->
                  disk (world s') !! p = disk (world s) !! p).
Proof.
  intros Hflag Hdirs Hws Hex Hprobe.
  destruct (build_not_run s
              (logged ERROR EmscriptenNotFound
                 (logged INFO (StartingBuild mode)
                    (sys (build_start mode changed_files s))))
              mode changed_files (RuntimeError "Emscripten not available"))
    as (b & cache & logs & Hcache & Hlogs & Hret & Hb & Hstats & Hfiles);
    try assumption; try reflexivity.
  { rewrite run_compiler_cases. unfold recursion_limit.
    now rewrite (check_emscripten_none _ _ workspace). }
  exists b, cache, logs. cbv zeta.
  split; [exact Hcache|]. split; [exact Hlogs|]. split; [exact Hret|].
  rewrite Hstats. subst b. now repeat split.
Qed.

(** X5: where [emcc --version] exits with code 0 and prints nothing but white
    space, [result.stdout.split()[0]] raises: the build fails with the message
    "list index out of range", and no compiler is started. *)
Theorem build_blank_version (s : Sys) (mode : string)
    (changed_files : option (list string)) (result : CompletedProcess) :
  is_building (self s) = false ->
  dirs_configured (config (self s)) ->
  emcc_version (world s) (environ_PATH (world s)) = Ret result ->
  returncode result = 0%Z ->
  first_word (stdout result) = None ->
  exists b cache_dir logs_dir,
    let s' := snd (build json_dumps mode changed_files s) in
    config_str (config (self s)) "cache_dir" = Ret cache_dir
    /\ config_str (config (self s)) "logs_dir" = Ret logs_dir
    /\ fst (build json_dumps mode changed_files s) = Ret (Some b)
    /\ success b = false
    /\ error_message b = "list index out of range"
    /\ failed_builds (stats (self s')) = (failed_builds (stats (self s)) + 1)%Z
    /\ (forall p, p <> joinpath logs_dir "build_history.json" ->
                  p <> joinpath cache_dir "file_hashes.json" ->
                  disk (world s') !! p = disk (world s) !! p).
Proof.
  intros Hflag Hdirs Hprobe Hrc Hout.
  destruct (build_not_run s
              (logged INFO (StartingBuild mode)
                 (sys (build_start mode changed_files s)))
              mode changed_files IndexError)
    as (b & cache & logs & Hcache & Hlogs & Hret & Hb & Hstats & Hfiles);
    try assumption; try reflexivity.
  { rewrite run_compiler_cases. unfold recursion_limit.
    now rewrite (check_emscripten_blank _ _ result). }
  exists b, cache, logs. cbv zeta.
  split; [exact Hcache|]. split; [exact Hlogs|]. split; [exact Hret|].
  rewrite Hstats. subst b. now repeat split.
Qed.

End Outcome.
(** ** Builds that start the compiler *)

Lemma getitem_raises (v : json) (k : string) (e : exn) :
  getitem v k = Raise e -> is_Exception e = true.
Proof.
  destruct v; cbn; try (now intros [= <-]).
  destruct (assoc k d); now intros [= <-].
Qed.

Lemma dict_get_raises (v : json) (k : string) (dflt : json) (e : exn) :
  dict_get v k dflt = Raise e -> is_Exception e = true.
Proof. destruct v; cbn; now intros [= <-]. Qed.

Lemma as_str_raises (v : json) (e : exn) :
  as_str v = Raise e -> is_Exception e = true.
Proof. destruct v; cbn; now intros [= <-]. Qed.

Lemma config_str_raises (cfg : json) (k : string) (e : exn) :
  config_str cfg k = Raise e -> is_Exception e = true.
Proof.
  unfold config_str.
  destruct (getitem cfg "paths") as [paths|e1] eqn:E1.
  - destruct (getitem paths k) as [v|e2] eqn:E2.
    + apply as_str_raises.
    + intros [= <-]. now apply getitem_raises in E2.
  - intros [= <-]. now apply getitem_raises in E1.
Qed.

Lemma concat_space_raises (v : json) (e : exn) :
  concat_space v = Raise e -> is_Exception e = true.
Proof. destruct v; cbn; now intros [= <-]. Qed.

Lemma all_str_raises (l : list json) (e : exn) :
  all_str l = Raise e -> is_Exception e = true.
Proof.
  induction l as [|v l IH]; [discriminate|].
  destruct v; cbn; try (now intros [= <-]).
  destruct (all_str l); [discriminate|]. intros [= <-]. now apply IH.
Qed.

Lemma join_spaces_raises (v : json) (e : exn) :
  join_spaces v = Raise e -> is_Exception e = true.
Proof.
  destruct v; cbn; try (now intros [= <-]).
  destruct (all_str l) eqn:E; [discriminate|].
  intros [= <-]. now apply all_str_raises in E.
Qed.

(** What [prepare_build_command] raises is an [Exception]. *)
Lemma prepare_build_command_raises (mode : string) (s : Sys) (e : exn) :
  fst (prepare_build_command mode s) = Raise e -> is_Exception e = true.
Proof.
  unfold prepare_build_command, config_path, bind, reading, ret.
  repeat match goal with
         | |- context [match ?x with Ret _ => _ | Raise _ => _ end] =>
             let E := fresh "E" in destruct x eqn:E; cbn [fst snd]
         end;
    try discriminate; intros [= <-];
    eauto using getitem_raises, dict_get_raises, config_str_raises,
      concat_space_raises, join_spaces_raises.
Qed.

(** The compiler run where the probe finds the toolchain at once: the
    command line is run in the workspace, on the files as they are. *)
Lemma run_compiler_started (s : Sys) (mode : string)
    (changed_files : option (list string)) (probe : CompletedProcess)
    (version : string) :
  emcc_version (world s) (environ_PATH (world s)) = Ret probe ->
  returncode probe = 0%Z ->
  first_word (stdout probe) = Some version ->
  let fr0 := build_start mode changed_files s in
  let s1 := logged INFO (EmscriptenFound version)
              (logged INFO (StartingBuild mode) (sys fr0)) in
  run_compiler (fun t => t) mode fr0 =
    match fst (prepare_build_command mode s) with
    | Raise e => (Raise e, set_sys s1 fr0)
    | Ret build_cmd =>
        let s2 := logged INFO (BuildCommand build_cmd) s1 in
        match config_str (config (self s)) "workspace" with
        | Raise e => (Raise e, set_sys s2 fr0)
        | Ret cwd =>
            let run := shell (world s) build_cmd cwd (disk (world s)) in
            (fst run, set_sys (set_world (set_disk (snd run) (world s2)) s2) fr0)
        end
    end.
Proof.
  intros Hprobe Hrc Hout. cbv zeta.
  rewrite run_compiler_cases. unfold recursion_limit.
  rewrite (check_emscripten_found _ _ probe version) by assumption.
  rewrite (prepare_build_command_ext mode _ s) by reflexivity.
  destruct (fst (prepare_build_command mode s)) as [build_cmd|e];
    reflexivity.
Qed.

Section Compiled.

Variable json_dumps : json -> string.

(** X6: the artifact sizes are measured after the compiler has run, on the
    files it left, and only when it exited with code 0: a record of a
    successful build has the size of each artifact, 0 for one that is not
    there; a record of a failed build has 0 for both, whatever an earlier
    build left in the public directory. *)
Theorem build_output_sizes (s : Sys) (mode : string)
    (changed_files : option (list string)) (probe result : CompletedProcess)
    (version build_cmd cwd public_dir : string) (files : gmap string node) :
  is_building (self s) = false ->
  dirs_configured (config (self s)) ->
  config_str (config (self s)) "public_dir" = Ret public_dir ->
  emcc_version (world s) (environ_PATH (world s)) = Ret probe ->
  returncode probe = 0%Z ->
  first_word (stdout probe) = Some version ->
  fst (prepare_build_command mode s) = Ret build_cmd ->
  config_str (config (self s)) "workspace" = Ret cwd ->
  shell (world s) build_cmd cwd (disk (world s)) = (Ret result, files) ->
  exists b,
    fst (build json_dumps mode changed_files s) = Ret (Some b)
    /\ success b = (returncode result =? 0)%Z
    /\ output_size_js b
       = (if (returncode result =? 0)%Z
          then default 0%Z
                 (st_size <$> files !! joinpath public_dir "game_engine.js")
          else 0%Z)
    /\ output_size_wasm b
       = (if (returncode result =? 0)%Z
          then default 0%Z
                 (st_size <$> files !! joinpath public_dir "game_engine.wasm")
          else 0%Z).
Proof.
  intros Hflag Hdirs Hpub Hprobe Hrc Hout Hcmd Hcwd Hrun.
  pose proof Hdirs as (_ & Hc & Hl).
  destruct (config_str (config (self s)) "cache_dir") as [cache|] eqn:Ec;
    [|discriminate].
  destruct (config_str (config (self s)) "logs_dir") as [logs|] eqn:El;
    [|discriminate].
  destruct (build_under_full json_dumps (fun t => t) mode changed_files s
              public_dir cache logs) as (w1 & Hw1 & E);
    try assumption; try reflexivity.
  cbv zeta in E.
  rewrite (run_compiler_started s mode changed_files probe version) in E, Hw1
    by assumption.
  cbv zeta in E, Hw1. rewrite Hcmd, Hcwd, Hrun in E, Hw1.
  cbn [fst snd sys set_sys world set_world disk set_disk] in E, Hw1.
  unfold build. rewrite E. cbn [fst build_result].
  eexists. split; [reflexivity|].
  rewrite Hw1. unfold attempted, classified.
  destruct (returncode result =? 0)%Z;
    destruct (files !! joinpath public_dir "game_engine.js");
    destruct (files !! joinpath public_dir "game_engine.wasm");
    destruct (warning_lines (stdout result)); now repeat split.
Qed.

(** X7: an interrupt that arrives while the compiler runs goes through [build]
    to the caller, and the [finally] clause still runs: the build is in the
    history as a failed build with an empty error message, it counts among the
    failed builds, and the flag is released. *)
Theorem build_interrupted (s : Sys) (mode : string)
    (changed_files : option (list string)) (probe : CompletedProcess)
    (version build_cmd cwd : string) (files : gmap string node) (e : exn) :
  is_building (self s) = false ->
  dirs_configured (config (self s)) ->
  emcc_version (world s) (environ_PATH (world s)) = Ret probe ->
  returncode probe = 0%Z ->
  first_word (stdout probe) = Some version ->
  fst (prepare_build_command mode s) = Ret build_cmd ->
  config_str (config (self s)) "workspace" = Ret cwd ->
  shell (world s) build_cmd cwd (disk (world s)) = (Raise e, files) ->
  is_Exception e = false ->
  let s' := snd (build json_dumps mode changed_files s) in
  fst (build json_dumps mode changed_files s) = Raise e
  /\ is_building (self s') = false
  /\ failed_builds (stats (self s')) = (failed_builds (stats (self s)) + 1)%Z
  /\ exists b,
       last (build_history (self s')) = Some b
       /\ success b = false
       /\ error_message b = ""
       /\ warnings b = None
       /\ end_time b = clock (world s) (S (ticks (world s))).
Proof.
  intros Hflag Hdirs Hprobe Hrc Hout Hcmd Hcwd Hrun He.
  pose proof Hdirs as (Hp & Hc & Hl).
  destruct (config_str (config (self s)) "public_dir") as [pub|] eqn:Ep;
    [|discriminate].
  destruct (config_str (config (self s)) "cache_dir") as [cache|] eqn:Ec;
    [|discriminate].
  destruct (config_str (config (self s)) "logs_dir") as [logs|] eqn:El;
    [|discriminate].
  destruct (build_under_full json_dumps (fun t => t) mode changed_files s
              pub cache logs) as (w1 & Hw1 & E);
    try assumption; try reflexivity.
  cbv zeta in E.
  rewrite (run_compiler_started s mode changed_files probe version) in E
    by assumption.
  cbv zeta in E. rewrite Hcmd, Hcwd, Hrun in E. cbn [fst snd] in E.
  unfold attempted, build_result in E. rewrite He in E.
  cbv zeta. unfold build. rewrite E. cbn [fst snd self].
  split; [reflexivity|]. split; [reflexivity|]. split; [reflexivity|].
  eexists. split.
  { cbn [settled set_build_history build_history].
    apply deque_append_last. unfold history_maxlen. lia. }
  now repeat split.
Qed.

(** X8: when the command line cannot be put together, as when the
    configuration has no [build_modes], the build fails with the text of the
    exception as its error message, and no compiler is started. *)
Theorem build_command_error (s : Sys) (mode : string)
    (changed_files : option (list string)) (probe : CompletedProcess)
    (version : string) (e : exn) :
  is_building (self s) = false ->
  dirs_configured (config (self s)) ->
  emcc_version (world s) (environ_PATH (world s)) = Ret probe ->
  returncode probe = 0%Z ->
  first_word (stdout probe) = Some version ->
  fst (prepare_build_command mode s) = Raise e ->
  exists b cache_dir logs_dir,
    let s' := snd (build json_dumps mode changed_files s) in
    config_str (config (self s)) "cache_dir" = Ret cache_dir
    /\ config_str (config (self s)) "logs_dir" = Ret logs_dir
    /\ fst (build json_dumps mode changed_files s) = Ret (Some b)
    /\ success b = false
    /\ error_message b = str_exn e
    /\ failed_builds (stats (self s')) = (failed_builds (stats (self s)) + 1)%Z
    /\ (forall p, p <> joinpath logs_dir "build_history.json" ->
                  p <> joinpath cache_dir "file_hashes.json" ->
                  disk (world s') !! p = disk (world s) !! p).
Proof.
  intros Hflag Hdirs Hprobe Hrc Hout Hcmd.
  destruct (build_not_run json_dumps s
              (logged INFO (EmscriptenFound version)
                 (logged INFO (StartingBuild mode)
                    (sys (build_start mode changed_files s))))
              mode changed_files e)
    as (b & cache & logs & Hcache & Hlogs & Hret & Hb & Hstats & Hfiles);
    try assumption; try reflexivity.
  { rewrite (run_compiler_started s mode changed_files probe version)
      by assumption.
    cbv zeta. now rewrite Hcmd. }
  { now apply prepare_build_command_raises in Hcmd. }
  exists b, cache, logs. cbv zeta.
  split; [exact Hcache|]. split; [exact Hlogs|]. split; [exact Hret|].
  rewrite Hstats. subst b. now repeat split.
Qed.

End Compiled.

(** ** The command line *)

(** X9: for a mode the configuration does not list under [build_modes], the
    command line is put together all the same, with [-O3] and no flags of the
    mode. *)
Theorem prepare_build_command_unlisted_mode (mode : string) (s : Sys)
    (modes : list (string * json)) (wasm_dir public_dir flags : string)
    (common_flags : json) :
  getitem (config (self s)) "build_modes" = Ret (JDict modes) ->
  assoc mode modes = None ->
  config_str (config (self s)) "wasm_dir" = Ret wasm_dir ->
  config_str (config (self s)) "public_dir" = Ret public_dir ->
  dict_get (config (self s)) "common_flags" (JList []) = Ret common_flags ->
  join_spaces common_flags = Ret flags ->
  let main_file := joinpath wasm_dir "game_engine.cpp" in
  let entity_file := joinpath (joinpath wasm_dir "src") "entity.cpp" in
  let sources :=
    (if path_exists (disk (world s)) main_file then [main_file] else [])
    ++ (if path_exists (disk (world s)) entity_file then [entity_file]
        else []) in
  prepare_build_command mode s
  = (Ret ("emcc " +:+ join " " sources +:+ " -I" +:+ wasm_dir +:+ "/include "
            +:+ flags +:+ " -O3 " +:+ " -o " +:+ public_dir
            +:+ "/game_engine.js"), s).
Proof.
  intros Hmodes Hmode Hwasm Hpub Hcommon Hflags. cbv zeta.
  unfold prepare_build_command, config_path, bind, reading, ret.
  rewrite Hmodes. cbn [dict_get]. rewrite Hmode. cbn [default].
  rewrite Hwasm, Hcommon, Hflags. cbn [dict_get assoc default concat_space
    join_spaces all_str join]. rewrite Hpub.
  f_equal. f_equal.
  rewrite !string_app_assoc. reflexivity.
Qed.
(** ** The event handler, event after event *)

(** The fields of the record that the [try] statement does not assign. *)
Lemma attempted_fields (run : result CompletedProcess) (public_dir : string)
    (files : gmap string node) (b : BuildStats) :
  let b' := attempted run public_dir files b in
  mode b' = mode b
  /\ files_changed b' = files_changed b
  /\ start_time b' = start_time b.
Proof.
  destruct run as [result|e]; cbn [attempted].
  - unfold classified.
    destruct (returncode result =? 0)%Z;
      destruct (warning_lines (stdout result));
      repeat match goal with
             | |- context [match ?x with Some _ => _ | None => _ end] =>
                 destruct x
             end;
      now repeat split.
  - destruct (is_Exception e); now repeat split.
Qed.

Lemma pending_nil (pending : gset string) :
  pending = list_to_set (src_path <$> []) ∪ pending.
Proof. cbn [fmap list_fmap list_to_set]. now rewrite (left_id_L ∅ (∪)). Qed.

Lemma pending_cons (event : FileSystemEvent) (events : list FileSystemEvent)
    (pending : gset string) :
  list_to_set (src_path <$> events) ∪ ({[src_path event]} ∪ pending)
  = list_to_set (src_path <$> event :: events) ∪ pending.
Proof.
  rewrite fmap_cons. cbn [list_to_set].
  now rewrite (assoc_L (∪)), (comm_L (∪) (list_to_set _)).
Qed.

Section Debounce.

Variable json_dumps : json -> string.

(** X10: events that keep coming within the debounce time of one another start
    no build, however many they are: the paths gather in the pending set, the
    monitor object, the files and the log stay as they were, and one clock
    reading is taken per event. *)
Theorem on_modified_starved (events : list FileSystemEvent) (w : Watch) :
  Forall (fun event => is_directory event = false
                       /\ is_source_path (src_path event) = true) events ->
  within_window (debounce_time (handler w)) (clock (world (monitor w)))
    (ticks (world (monitor w))) (last_event_time (handler w))
    (List.length events) = true ->
  let w' := snd (dispatch json_dumps events w) in
  fst (dispatch json_dumps events w) = Ret tt
  /\ self (monitor w') = self (monitor w)
  /\ disk (world (monitor w')) = disk (world (monitor w))
  /\ log (world (monitor w')) = log (world (monitor w))
  /\ ticks (world (monitor w'))
     = (ticks (world (monitor w)) + List.length events)%nat
  /\ pending_changes (handler w')
     = list_to_set (src_path <$> events) ∪ pending_changes (handler w).
Proof.
  revert w. induction events as [|event events IH]; intros w Hall Hwin.
  - cbn [dispatch List.length]. unfold ret. cbn [fst snd].
    repeat split; [lia | apply pending_nil].
  - apply Forall_cons in Hall as [[Hdir Hsrc] Hall].
    cbn [List.length within_window] in Hwin.
    apply andb_true_iff in Hwin as [Hlt Hwin].
    apply negb_true_iff in Hlt.
    cbn [dispatch]. unfold bind.
    rewrite on_modified_source by assumption. cbv zeta.
    unfold now. rewrite Hlt.
    match goal with
    | |- context [dispatch json_dumps events ?w0] => set (w1 := w0)
    end.
    specialize (IH w1 Hall Hwin). cbv zeta in IH.
    destruct IH as (Hret & Hself & Hdisk & Hlog & Hticks & Hpending).
    cbv zeta. split; [exact Hret|].
    rewrite Hself, Hdisk, Hlog, Hticks, Hpending.
    subst w1. cbn [monitor handler self world set_world tick set_ticks disk
      log ticks pending_changes List.length].
    repeat split; [lia | apply pending_cons].
Qed.

(** X11: an event that comes after a quiet period while a build is in progress
    empties the pending set although the build it asks for is skipped: the
    paths gathered so far are handed to no build. *)
Theorem on_modified_during_build (event : FileSystemEvent) (w : Watch) :
  is_directory event = false ->
  is_source_path (src_path event) = true ->
  PrimFloat.ltb (debounce_time (handler w))
    (PrimFloat.sub (now (world (monitor w))) (last_event_time (handler w)))
  = true ->
  is_building (self (monitor w)) = true ->
  let w' := snd (on_modified json_dumps event w) in
  fst (on_modified json_dumps event w) = Ret tt
  /\ pending_changes (handler w') = ∅
  /\ self (monitor w') = self (monitor w)
  /\ disk (world (monitor w')) = disk (world (monitor w))
  /\ last (log (world (monitor w'))) = Some (WARNING, BuildSkipped).
Proof.
  intros Hdir Hsrc Hlt Hflag. cbv zeta.
  rewrite on_modified_source by assumption. cbv zeta. rewrite Hlt.
  unfold build. rewrite build_skipped by exact Hflag.
  cbn. repeat split. apply last_snoc.
Qed.

(** X12: an event that comes after a quiet period, with no build in progress,
    hands the whole pending set, its own path included, to one build in the
    handler's mode, and the set is emptied; if an interrupt goes through the
    build, the set and the time of the last event stay as they were. *)
Theorem on_modified_after_quiet (event : FileSystemEvent) (w : Watch) :
  is_directory event = false ->
  is_source_path (src_path event) = true ->
  PrimFloat.ltb (debounce_time (handler w))
    (PrimFloat.sub (now (world (monitor w))) (last_event_time (handler w)))
  = true ->
  is_building (self (monitor w)) = false ->
  dirs_configured (config (self (monitor w))) ->
  let pending := {[src_path event]} ∪ pending_changes (handler w) in
  let w' := snd (on_modified json_dumps event w) in
  exists b,
    build_history (self (monitor w'))
    = deque_append history_maxlen b (build_history (self (monitor w)))
    /\ files_changed b = elements pending
    /\ mode b = build_mode (handler w)
    /\ start_time b = clock (world (monitor w)) (S (ticks (world (monitor w))))
    /\ match fst (on_modified json_dumps event w) with
       | Ret _ =>
           pending_changes (handler w') = ∅
           /\ last_event_time (handler w') = now (world (monitor w))
       | Raise e =>
           is_Exception e = false
           /\ pending_changes (handler w') = pending
           /\ last_event_time (handler w') = last_event_time (handler w)
       end.
Proof.
  intros Hdir Hsrc Hlt Hflag (Hp & Hc & Hl). cbv zeta.
  rewrite on_modified_source by assumption. cbv zeta. rewrite Hlt.
  destruct (config_str (config (self (monitor w))) "public_dir")
    as [pub|] eqn:Ep; [|discriminate].
  destruct (config_str (config (self (monitor w))) "cache_dir")
    as [cache|] eqn:Ec; [|discriminate].
  destruct (config_str (config (self (monitor w))) "logs_dir")
    as [logs|] eqn:El; [|discriminate].
  match goal with
  | |- context [build json_dumps ?m ?cf ?s0] =>
      destruct (build_under_spec json_dumps (fun t => t) m cf s0 pub cache logs)
        as (w1 & _ & _ & E); try assumption; try reflexivity
  end.
  cbv zeta in E. unfold build. rewrite E. clear E.
  match goal with
  | |- context [attempted ?r pub (disk w1) ?b0] =>
      pose proof (attempted_fields r pub (disk w1) b0) as (Hm & Hf & Hs);
      destruct r as [result|e]
  end.
  - cbn [build_result].
    eexists. split; [reflexivity|].
    cbn [files_changed mode start_time set_end_time].
    rewrite Hm, Hf, Hs. now repeat split.
  - cbn [build_result]. destruct (is_Exception e) eqn:He.
    + eexists. split; [reflexivity|].
      cbn [files_changed mode start_time set_end_time].
      rewrite Hm, Hf, Hs. now repeat split.
    + eexists. split; [reflexivity|].
      cbn [files_changed mode start_time set_end_time].
      rewrite Hm, Hf, Hs. now repeat split.
Qed.

End Debounce.
(** ** The polling watcher *)

Lemma has_file_changed_world (p : string) (s : Sys) :
  world (snd (has_file_changed p s)) = world s.
Proof.
  rewrite has_file_changed_unfold.
  destruct (calculate_file_hash (disk (world s)) p) as [h|e]; [|reflexivity].
  now case_bool_decide.
Qed.

(** The loop over the files, for files that can all be read or are not
    there: what it returns and the state it leaves. *)
Lemma changed_among_spec (files : list string) :
  forall (changed_files : list string) (s : Sys),
  Forall (fun p => returns (calculate_file_hash (disk (world s)) p) = true)
         files ->
  exists l s',
    changed_among files changed_files s = (Ret (changed_files ++ l), s')
    /\ world s' = world s
    /\ config (self s') = config (self s)
    /\ is_building (self s') = is_building (self s)
    /\ stats (self s') = stats (self s)
    /\ build_history (self s') = build_history (self s)
    /\ NoDup l
    /\ (forall p, p ∈ l <-> p ∈ files /\ stale s p)
    /\ (forall p, ~ stale s p -> ~ stale s' p)
    /\ (forall p, p ∈ files -> ~ stale s' p)
    /\ (forall p, p ∉ files ->
                  file_hashes (self s') !! p = file_hashes (self s) !! p).
Proof.
  induction files as [|p files IH]; intros acc s Hall.
  - exists [], s. cbn [changed_among]. unfold ret. rewrite app_nil_r.
    split; [reflexivity|]. split; [reflexivity|]. split; [reflexivity|].
    split; [reflexivity|]. split; [reflexivity|]. split; [reflexivity|].
    split; [apply NoDup_nil_2|].
    split.
    { intros q. rewrite !elem_of_nil. tauto. }
    split; [tauto|].
    split; [|reflexivity].
    intros q Hq. now apply elem_of_nil in Hq.
  - apply Forall_cons in Hall as [Hp Hall].
    cbn [changed_among]. unfold bind.
    rewrite has_file_changed_unfold.
    destruct (calculate_file_hash (disk (world s)) p) as [h|e] eqn:Eh;
      [|discriminate].
    case_bool_decide as Hne.
    + set (s1 := set_self (set_file_hashes (<[p:=h]> (file_hashes (self s)))
                                           (self s)) s).
      destruct (IH (acc ++ [p]) s1 Hall)
        as (l & s' & E & Hw & Hcfg & Hflag & Hst & Hhist & Hnd & Hin & Hmono
            & Hset & Hout).
      assert (Hp1 : ~ stale s1 p).
      { unfold stale, s1. cbn. rewrite lookup_insert_eq. cbn. now rewrite Eh. }
      assert (Hother : forall q, q <> p -> (stale s1 q <-> stale s q)).
      { intros q Hq. unfold stale, s1. cbn.
        now rewrite lookup_insert_ne by congruence. }
      exists (p :: l), s'. rewrite E, <- app_assoc. cbn [app].
      split; [reflexivity|]. split; [exact Hw|]. split; [exact Hcfg|].
      split; [exact Hflag|]. split; [exact Hst|]. split; [exact Hhist|].
      split.
      { apply NoDup_cons. split; [|exact Hnd].
        intros Hpl. apply Hin in Hpl as [_ Hpl]. contradiction. }
      split.
      { intros q. rewrite !elem_of_cons, Hin. split.
        - intros [->|[Hq Hs]].
          + split; [now left|]. unfold stale. rewrite Eh. congruence.
          + assert (q <> p) by (intros ->; contradiction).
            split; [now right | now apply Hother].
        - intros [[->|Hq] Hs]; [now left|].
          destruct (decide (q = p)) as [->|Hqp]; [now left|].
          right. split; [exact Hq | now apply Hother]. }
      split.
      { intros q Hq. apply Hmono.
        destruct (decide (q = p)) as [->|Hqp]; [exact Hp1|].
        now rewrite Hother. }
      split.
      { intros q [->|Hq]%elem_of_cons; [now apply Hmono | now apply Hset]. }
      intros q Hq. apply not_elem_of_cons in Hq as [Hqp Hq].
      rewrite Hout by exact Hq. unfold s1. cbn.
      now rewrite lookup_insert_ne by congruence.
    + destruct (IH acc s Hall)
        as (l & s' & E & Hw & Hcfg & Hflag & Hst & Hhist & Hnd & Hin & Hmono
            & Hset & Hout).
      assert (Hp0 : ~ stale s p).
      { unfold stale. rewrite Eh, Hne. intros H. now apply H. }
      exists l, s'. rewrite E.
      split; [reflexivity|]. split; [exact Hw|]. split; [exact Hcfg|].
      split; [exact Hflag|]. split; [exact Hst|]. split; [exact Hhist|].
      split; [exact Hnd|].
      split.
      { intros q. rewrite elem_of_cons, Hin. split.
        - intros [Hq Hs]. split; [now right | exact Hs].
        - intros [[->|Hq] Hs]; [contradiction | now split]. }
      split; [exact Hmono|].
      split.
      { intros q [->|Hq]%elem_of_cons; [now apply Hmono | now apply Hset]. }
      intros q Hq. apply not_elem_of_cons in Hq as [_ Hq]. now apply Hout.
Qed.

(** Where no file of the list is stale, the loop finds nothing and changes
    nothing. *)
Lemma changed_among_settled (files changed_files : list string) (s : Sys) :
  (forall p, p ∈ files -> ~ stale s p) ->
  changed_among files changed_files s = (Ret changed_files, s).
Proof.
  induction files as [|p files IH]; intros Hset; [reflexivity|].
  cbn [changed_among]. unfold bind. rewrite has_file_changed_unfold.
  assert (Hp : ~ stale s p) by (apply Hset; now left).
  unfold stale in Hp.
  destruct (calculate_file_hash (disk (world s)) p) as [h|e];
    [|exfalso; apply Hp; discriminate].
  case_bool_decide as Hne.
  - exfalso. apply Hp. congruence.
  - apply IH. intros q Hq. apply Hset. now right.
Qed.

(** A readable file no digest is recorded for is stale. *)
Lemma stale_unrecorded (s : Sys) (p : string) (w : bool) (data : string) :
  resolve (disk (world s)) p = None ->
  disk (world s) !! p = Some (Reg true w data) ->
  file_hashes (self s) !! p = None ->
  stale s p.
Proof.
  intros Hway Hfile Hnone. unfold stale.
  rewrite (calculate_file_hash_readable _ _ w data Hway Hfile), Hnone.
  cbn [default]. intros H. injection H as H.
  now apply hexdigest_nonempty in H.
Qed.

Section PollingPass.

Variable json_dumps : json -> string.
Variable glob : gmap string node -> string -> string -> list string.

(** [get_source_files] only reads, and reads the configuration and the
    files only. *)
Lemma get_source_files_reads (s : Sys) : snd (get_source_files glob s) = s.
Proof.
  unfold get_source_files, config_path, bind, reading, ret.
  destruct (config_str (config (self s)) "wasm_dir"); reflexivity.
Qed.

Lemma get_source_files_ext (s t : Sys) :
  config (self s) = config (self t) ->
  disk (world s) = disk (world t) ->
  fst (get_source_files glob s) = fst (get_source_files glob t).
Proof.
  intros Hc Hd.
  unfold get_source_files, config_path, bind, reading, ret.
  rewrite Hc, Hd.
  destruct (config_str (config (self t)) "wasm_dir"); reflexivity.
Qed.

(** X13: one pass of the polling watcher over files that can be read or are
    not there reports a file exactly when the digest recorded for it is not
    the one it has now, each file once even if it is listed twice, and touches
    nothing but the recorded digests; a second pass right after it reports
    nothing and changes nothing. *)
Theorem changed_among_detects (files : list string) (s : Sys) :
  Forall (fun p => returns (calculate_file_hash (disk (world s)) p) = true)
         files ->
  exists l s',
    changed_among files [] s = (Ret l, s')
    /\ NoDup l
    /\ (forall p, p ∈ l <-> p ∈ files /\ stale s p)
    /\ world s' = world s
    /\ build_history (self s') = build_history (self s)
    /\ stats (self s') = stats (self s)
    /\ (forall p, p ∉ files ->
                  file_hashes (self s') !! p = file_hashes (self s) !! p)
    /\ changed_among files [] s' = (Ret [], s').
Proof.
  intros Hall.
  destruct (changed_among_spec files [] s Hall)
    as (l & s' & E & Hw & _ & _ & Hst & Hhist & Hnd & Hin & _ & Hset & Hout).
  exists l, s'. rewrite E. cbn [app].
  split; [reflexivity|]. split; [exact Hnd|]. split; [exact Hin|].
  split; [exact Hw|]. split; [exact Hhist|]. split; [exact Hst|].
  split; [exact Hout|].
  now apply changed_among_settled.
Qed.

(** X14: a source file that cannot be read stops the polling watcher: the pass
    raises what opening the file raised, which is not the interrupt the loop
    is written to catch, and no build is started for the changes found before
    it. *)
Theorem poll_unreadable (mode : string) (s : Sys)
    (before after : list string) (filepath : string) (e : exn) :
  fst (get_source_files glob s) = Ret (before ++ filepath :: after) ->
  Forall (fun p => returns (calculate_file_hash (disk (world s)) p) = true)
         before ->
  calculate_file_hash (disk (world s)) filepath = Raise e ->
  let s' := snd (poll json_dumps glob mode s) in
  fst (poll json_dumps glob mode s) = Raise e
  /\ is_Exception e = true
  /\ world s' = world s
  /\ build_history (self s') = build_history (self s)
  /\ stats (self s') = stats (self s).
Proof.
  intros Hfiles Hall Hraise. cbv zeta.
  assert (Hexc : is_Exception e = true)
    by (now apply calculate_file_hash_raises in Hraise).
  assert (Hloop : forall files acc t,
    Forall (fun p => returns (calculate_file_hash (disk (world t)) p) = true)
           files ->
    calculate_file_hash (disk (world t)) filepath = Raise e ->
    let r := changed_among (files ++ filepath :: after) acc t in
    fst r = Raise e /\ world (snd r) = world t
    /\ build_history (self (snd r)) = build_history (self t)
    /\ stats (self (snd r)) = stats (self t)).
  { induction files as [|p files IH]; intros acc t Hf Hr; cbv zeta.
    - cbn [app changed_among]. unfold bind.
      rewrite has_file_changed_unfold, Hr. now repeat split.
    - apply Forall_cons in Hf as [Hp Hf].
      cbn [app changed_among]. unfold bind.
      pose proof (has_file_changed_world p t) as Hw.
      pose proof (has_file_changed_self p t) as (_ & _ & Hst & Hhist).
      rewrite has_file_changed_unfold in *.
      destruct (calculate_file_hash (disk (world t)) p) as [h|];
        [|discriminate].
      case_bool_decide; cbn [snd] in *.
      + rewrite <- Hw, <- Hst, <- Hhist. apply IH; now rewrite Hw.
      + now apply IH. }
  unfold poll, bind.
  pose proof (get_source_files_reads s) as Hsnd.
  destruct (get_source_files glob s) as [r s0]. cbn [fst snd] in *.
  subst r s0.
  specialize (Hloop before [] s Hall Hraise). cbv zeta in Hloop.
  destruct (changed_among (before ++ filepath :: after) [] s) as [[l|e'] s1];
    cbn [fst snd] in *; destruct Hloop as (Hr & Hw & Hhist & Hst);
    [discriminate|].
  injection Hr as ->. now repeat split.
Qed.

(** X15: a pass of the polling watcher over source files the recorded digests
    are up to date for does nothing at all. *)
Theorem poll_quiet (mode : string) (s : Sys) (files : list string) :
  fst (get_source_files glob s) = Ret files ->
  (forall p, p ∈ files -> ~ stale s p) ->
  poll json_dumps glob mode s = (Ret tt, s).
Proof.
  intros Hfiles Hset. unfold poll, bind.
  pose proof (get_source_files_reads s) as Hsnd.
  destruct (get_source_files glob s) as [r s0]. cbn [fst snd] in *.
  subst r s0. now rewrite changed_among_settled.
Qed.

(** X16: a pass of the polling watcher that finds a file changed starts one
    build, in the mode given, with the changed files, each once, as the files
    of the record. *)
Theorem poll_builds (watch_mode : string) (s : Sys) (files : list string)
    (filepath : string) :
  fst (get_source_files glob s) = Ret files ->
  Forall (fun p => returns (calculate_file_hash (disk (world s)) p) = true)
         files ->
  filepath ∈ files ->
  stale s filepath ->
  is_building (self s) = false ->
  dirs_configured (config (self s)) ->
  let s' := snd (poll json_dumps glob watch_mode s) in
  exists b,
    build_history (self s')
    = deque_append history_maxlen b (build_history (self s))
    /\ mode b = watch_mode
    /\ NoDup (files_changed b)
    /\ (forall p, p ∈ files_changed b <-> p ∈ files /\ stale s p).
Proof.
  intros Hfiles Hall Hin Hstale Hflag Hdirs. cbv zeta.
  unfold poll, bind.
  pose proof (get_source_files_reads s) as Hsnd.
  destruct (get_source_files glob s) as [r s0]. cbn [fst snd] in *.
  subst r s0.
  destruct (changed_among_spec files [] s Hall)
    as (l & s1 & E & Hw & Hcfg & Hfl & Hst & Hhist & Hnd & Hl & _ & Hset & _).
  rewrite E. cbn [app].
  destruct l as [|p0 l0] eqn:El.
  { exfalso. assert (H : filepath ∈ (@nil string)) by (apply Hl; now split).
    now apply elem_of_nil in H. }
  rewrite <- El in *. clear El p0 l0.
  unfold in_world, zoom, logger, modify. cbn [fst snd].
  destruct Hdirs as (Hp & Hc & Hlg). rewrite <- Hcfg in Hp, Hc, Hlg.
  destruct (config_str (config (self s1)) "public_dir") as [pub|] eqn:Ep;
    [|discriminate].
  destruct (config_str (config (self s1)) "cache_dir") as [cache|] eqn:Ec;
    [|discriminate].
  destruct (config_str (config (self s1)) "logs_dir") as [logs|] eqn:Elg;
    [|discriminate].
  match goal with
  | |- context [build json_dumps watch_mode ?cf ?t0] =>
      destruct (build_under_spec json_dumps (fun t => t) watch_mode cf t0
                  pub cache logs) as (w1 & _ & _ & EB);
        try assumption; try reflexivity
  end.
  { cbn. now rewrite Hfl. }
  cbv zeta in EB. unfold build. rewrite EB. clear EB.
  match goal with
  | |- context [attempted ?r pub (disk w1) ?b0] =>
      pose proof (attempted_fields r pub (disk w1) b0) as (Hm & Hf & _);
      set (b1 := attempted r pub (disk w1) b0) in *;
      exists (set_end_time (clock (world s1) (S (ticks (world s1)))) b1)
  end.
  cbn [mode files_changed set_end_time].
  rewrite Hm, Hf. cbn [mode files_changed default build_stats build_start].
  split.
  { match goal with
    | |- context [build_result ?r _] => destruct r as [result|e]
    end; cbn [build_result bind fst snd];
      [|destruct (is_Exception e)]; unfold ret;
      cbn [snd self settled set_build_history build_history set_stats
           set_is_building set_world world set_log clock ticks];
      now rewrite Hhist. }
  split; [reflexivity|]. split; [exact Hnd | exact Hl].
Qed.

End PollingPass.
(** ** The constructor's directories, again *)

(** A directory that is made: it is there afterwards, and nothing that was
    there is touched. *)
Lemma make_directory_spec (v : json) (s s' : Sys) :
  make_directory v s = (Ret tt, s') ->
  exists d,
    as_str v = Ret d
    /\ self s' = self s
    /\ disk (world s') !! d = Some Dir
    /\ (forall p n, disk (world s) !! p = Some n ->
                    disk (world s') !! p = Some n).
Proof.
  unfold make_directory, bind, reading, in_world, on_disk, zoom, mkdir.
  destruct (as_str v) as [d|]; [|discriminate].
  destruct (disk (world s) !! d) as [[|rd wr data]|] eqn:Ed;
    [| discriminate |]; intros [= <-]; exists d; cbn.
  - now repeat split.
  - repeat split; [apply lookup_insert_eq|].
    intros p n Hp. rewrite lookup_insert_ne; [exact Hp | congruence].
Qed.

(** Making a directory that is there does nothing. *)
Lemma make_directory_existing (v : json) (s : Sys) (d : string) :
  as_str v = Ret d ->
  disk (world s) !! d = Some Dir ->
  make_directory v s = (Ret tt, s).
Proof.
  intros Hv Hd.
  unfold make_directory, bind, reading, in_world, on_disk, zoom, mkdir.
  rewrite Hv, Hd. now destruct s as [m []].
Qed.

(** X17: once [setup_directories] has returned, the three directories of the
    configuration are there as directories, every file and directory that was
    there before is as it was, the monitor object is untouched, and calling it
    again changes nothing. *)
Theorem setup_directories_idempotent (s s' : Sys) :
  setup_directories s = (Ret tt, s') ->
  setup_directories s' = (Ret tt, s')
  /\ self s' = self s
  /\ (forall p n, disk (world s) !! p = Some n ->
                  disk (world s') !! p = Some n)
  /\ (forall k d, k ∈ ["public_dir"; "cache_dir"; "logs_dir"] ->
                  config_str (config (self s)) k = Ret d ->
                  disk (world s') !! d = Some Dir).
Proof.
  unfold setup_directories, bind, config_item, reading, config_str.
  destruct (getitem (config (self s)) "paths") as [paths|] eqn:Epaths;
    [|discriminate].
  destruct (getitem paths "public_dir") as [vp|] eqn:Ep; [|discriminate].
  destruct (getitem paths "cache_dir") as [vc|] eqn:Ec; [|discriminate].
  destruct (getitem paths "logs_dir") as [vl|] eqn:El; [|discriminate].
  destruct (make_directory vp s) as [[[]|e1] s1] eqn:E1; [|discriminate].
  destruct (make_directory vc s1) as [[[]|e2] s2] eqn:E2; [|discriminate].
  intros E3.
  apply make_directory_spec in E1 as (dp & Hvp & Hs1 & Hdp & Hk1).
  apply make_directory_spec in E2 as (dc & Hvc & Hs2 & Hdc & Hk2).
  apply make_directory_spec in E3 as (dl & Hvl & Hs3 & Hdl & Hk3).
  assert (Hself : self s' = self s) by congruence.
  rewrite Hself, Epaths, Ep, Ec, El.
  split.
  { rewrite (make_directory_existing vp s' dp) by auto.
    rewrite (make_directory_existing vc s' dc) by auto.
    now apply make_directory_existing with (d := dl). }
  split; [reflexivity|].
  split; [auto|].
  intros k d Hk Hd.
  repeat (apply elem_of_cons in Hk as [->|Hk]);
    [| | |now apply elem_of_nil in Hk].
  - rewrite Ep, Hvp in Hd. injection Hd as <-. auto.
  - rewrite Ec, Hvc in Hd. injection Hd as <-. auto.
  - rewrite El, Hvl in Hd. now injection Hd as <-.
Qed.

(** ** The event handler and the monitor object *)

Section Handled.

Variable json_dumps : json -> string.

(** What handling one event does to the monitor object. *)
Lemma on_modified_monitor (event : FileSystemEvent) (w : Watch) :
  dirs_configured (config (self (monitor w))) ->
  is_building (self (monitor w)) = false ->
  let m := self (monitor w) in
  let m' := self (monitor (snd (on_modified json_dumps event w))) in
  is_building m' = false
  /\ config m' = config m
  /\ file_hashes m' = file_hashes m
  /\ (total_builds (stats m) <= total_builds (stats m')
      <= total_builds (stats m) + 1)%Z.
Proof.
  intros Hdirs Hflag. cbv zeta.
  destruct (is_directory event) eqn:Hdir.
  { unfold on_modified. rewrite Hdir. cbn. repeat split; first [assumption | lia]. }
  destruct (is_source_path (src_path event)) eqn:Hsrc.
  2:{ unfold on_modified. rewrite Hdir, Hsrc. cbn.
      repeat split; first [assumption | lia]. }
  rewrite on_modified_source by assumption. cbv zeta.
  destruct (PrimFloat.ltb _ _).
  2:{ cbn. repeat split; first [assumption | lia]. }
  pose proof Hdirs as (Hp & Hc & Hl).
  destruct (config_str (config (self (monitor w))) "public_dir")
    as [pub|] eqn:Ep; [|discriminate].
  destruct (config_str (config (self (monitor w))) "cache_dir")
    as [cache|] eqn:Ec; [|discriminate].
  destruct (config_str (config (self (monitor w))) "logs_dir")
    as [logs|] eqn:El; [|discriminate].
  match goal with
  | |- context [build json_dumps ?md ?cf ?s0] =>
      destruct (build_under_spec json_dumps (fun t => t) md cf s0 pub cache logs)
        as (w1 & _ & _ & E); try assumption; try reflexivity
  end.
  cbv zeta in E. unfold build. rewrite E. clear E.
  match goal with
  | |- context [build_result ?r ?b0] =>
      generalize b0; intros b; destruct r as [result|e]
  end; cbn [build_result]; [|destruct (is_Exception e)];
    cbn [snd monitor self settled set_build_history set_stats set_is_building
         is_building config file_hashes stats set_last_build count_build
         total_builds set_world world];
    (repeat split; first [reflexivity | lia]).
Qed.

(** X18: handled one after the other, as the observer thread hands them
    over, the events never leave a build in progress, they start at most
    one build each, and the handler never records a digest: the digests the
    monitor holds, which every build writes to the cache file, stay the ones
    it started with. *)
Theorem dispatch_monitor (events : list FileSystemEvent) (w : Watch) :
  dirs_configured (config (self (monitor w))) ->
  is_building (self (monitor w)) = false ->
  let m := self (monitor w) in
  let m' := self (monitor (snd (dispatch json_dumps events w))) in
  is_building m' = false
  /\ config m' = config m
  /\ file_hashes m' = file_hashes m
  /\ (total_builds (stats m) <= total_builds (stats m')
      <= total_builds (stats m) + Z.of_nat (List.length events))%Z.
Proof.
  revert w. induction events as [|event events IH]; intros w Hdirs Hflag.
  - cbn. repeat split; first [assumption | lia].
  - destruct (on_modified_monitor event w Hdirs Hflag)
      as (Hf1 & Hc1 & Hh1 & Ht1).
    cbv zeta. cbn [dispatch]. unfold bind.
    destruct (on_modified json_dumps event w) as [[[]|e] w1];
      cbn [snd] in *.
    + destruct (IH w1) as (Hf2 & Hc2 & Hh2 & Ht2);
        [now rewrite Hc1 | exact Hf1 |].
      cbv zeta in Hf2, Hc2, Hh2, Ht2. cbn [List.length].
      rewrite Hf2, Hc2, Hh2, Hc1, Hh1. repeat split; first [reflexivity | lia].
    + cbn [List.length]. rewrite Hf1, Hc1, Hh1. repeat split; first [reflexivity | lia].
Qed.

End Handled.

(* ===================================================================== *)
(** * Part V: the further properties at concrete worlds                   *)
(* ===================================================================== *)

Lemma paths_only_dirs_configured :
  dirs_configured (config paths_only_monitor).
Proof. repeat split. Qed.

Lemma build_history_bounded_witness :
  fresh (demo_sys emcc_installed compiles)
  /\ exists b s,
       run compact_dumps (demo_sys emcc_installed compiles) [b] s
       /\ build_history (self s) = [b].
Proof.
  assert (Hfresh : fresh (demo_sys emcc_installed compiles))
    by (split; [exact default_dirs_configured | repeat split]).
  split; [exact Hfresh|].
  destruct (build_finalizes compact_dumps (demo_sys emcc_installed compiles)
              "release" None [] eq_refl default_dirs_configured)
    as (b & Hstep).
  pose proof (run_step compact_dumps _ _ _ [] [b]
                (run_nil compact_dumps _) Hstep) as Hrun.
  exists b. eexists. split; [exact Hrun|].
  exact (proj1 (build_history_bounded compact_dumps
                  (demo_sys emcc_installed compiles) _ [b] Hfresh Hrun)).
Defined.

Lemma check_emscripten_sound_witness :
  exists s',
    check_emscripten recursion_limit (demo_sys emcc_installed compiles)
    = (Ret true, s')
    /\ exists result version,
         emcc_version (world (demo_sys emcc_installed compiles))
           (environ_PATH (world s')) = Ret result
         /\ returncode result = 0%Z
         /\ first_word (stdout result) = Some version.
Proof.
  assert (H : check_emscripten recursion_limit
                (demo_sys emcc_installed compiles)
              = (Ret true,
                 snd (check_emscripten recursion_limit
                        (demo_sys emcc_installed compiles))))
    by (apply pair_of_fst; vm_compute; reflexivity).
  eexists. split; [exact H|].
  exact (check_emscripten_sound recursion_limit _ _ true H).
Defined.

Lemma check_emscripten_retries_witness :
  let s := mkSys demo_monitor
             (set_disk emsdk_disk (demo_world emcc_missing compiles)) in
  path_exists (disk (world s)) (emsdk_env_sh "/workspace") = true
  /\ fst (check_emscripten 2 s) = Raise RecursionError
  /\ environ_PATH (world (snd (check_emscripten 2 s)))
     = Some ("/workspace/emsdk/upstream/emscripten:"
             +:+ "/workspace/emsdk/upstream/emscripten:/usr/bin:/bin").
Proof.
  cbv zeta. split; [vm_compute; reflexivity|].
  exact (check_emscripten_retries 2
           (mkSys demo_monitor
              (set_disk emsdk_disk (demo_world emcc_missing compiles)))
           "/workspace" "/usr/bin:/bin" eq_refl eq_refl eq_refl
           (fun p => eq_refl)).
Defined.

Lemma build_without_toolchain_witness :
  probe_fails (emcc_missing (Some "/usr/bin:/bin")) = true
  /\ exists b,
       fst (build compact_dumps "release" None
              (demo_sys emcc_missing compiles)) = Ret (Some b)
       /\ success b = false
       /\ error_message b = "Emscripten not available"
       /\ disk (world (snd (build compact_dumps "release" None
                              (demo_sys emcc_missing compiles))))
            !! "public/game_engine.js" = None.
Proof.
  split; [reflexivity|].
  destruct (build_without_toolchain compact_dumps
              (demo_sys emcc_missing compiles) "release" None "/workspace"
              eq_refl default_dirs_configured eq_refl eq_refl eq_refl)
    as (b & cache_dir & logs_dir & Hcache & Hlogs & Hret & Hs & He & _ & _ & _
        & _ & _ & _ & Hfiles).
  exists b. split; [exact Hret|]. split; [exact Hs|]. split; [exact He|].
  injection Hcache as <-. injection Hlogs as <-.
  rewrite Hfiles; [reflexivity | discriminate | discriminate].
Defined.

Lemma build_blank_version_witness :
  first_word (String newline "") = None
  /\ exists b,
       fst (build compact_dumps "release" None
              (demo_sys emcc_silent compiles)) = Ret (Some b)
       /\ success b = false
       /\ error_message b = "list index out of range".
Proof.
  split; [reflexivity|].
  destruct (build_blank_version compact_dumps
              (demo_sys emcc_silent compiles) "release" None
              (mkCompletedProcess 0 (String newline "") "")
              eq_refl default_dirs_configured eq_refl eq_refl eq_refl)
    as (b & cache_dir & logs_dir & _ & _ & Hret & Hs & He & _).
  exists b. now repeat split.
Defined.

Lemma build_output_sizes_witness :
  exists b,
    fst (build compact_dumps "release" None
           (demo_sys emcc_installed compiles)) = Ret (Some b)
    /\ success b = true
    /\ output_size_js b = 11%Z
    /\ output_size_wasm b = 0%Z.
Proof.
  exact (build_output_sizes compact_dumps
           (demo_sys emcc_installed compiles) "release" None
           (mkCompletedProcess 0
              "emcc (Emscripten gcc/clang-like replacement) 3.1.45" "")
           (mkCompletedProcess 0
              ("wasm/game_engine.cpp:1:5: Warning: unused variable"
                 +:+ String newline "done") "")
           "emcc"
           "emcc wasm/game_engine.cpp -Iwasm/include  -O3 -s MALLOC=emmalloc -o public/game_engine.js"
           "/workspace" "public"
           (<["public/game_engine.js" := Reg true true "var Module;"]> demo_disk)
           eq_refl default_dirs_configured eq_refl eq_refl eq_refl eq_refl
           eq_refl eq_refl eq_refl).
Defined.

Lemma build_interrupted_witness :
  let s' := snd (build compact_dumps "release" None
                   (demo_sys emcc_installed interrupted)) in
  fst (build compact_dumps "release" None
         (demo_sys emcc_installed interrupted)) = Raise KeyboardInterrupt
  /\ is_building (self s') = false
  /\ failed_builds (stats (self s')) = 1%Z
  /\ exists b,
       last (build_history (self s')) = Some b
       /\ success b = false
       /\ error_message b = ""
       /\ warnings b = None
       /\ end_time b = demo_clock 1.
Proof.
  exact (build_interrupted compact_dumps
           (demo_sys emcc_installed interrupted) "release" None
           (mkCompletedProcess 0
              "emcc (Emscripten gcc/clang-like replacement) 3.1.45" "")
           "emcc"
           "emcc wasm/game_engine.cpp -Iwasm/include  -O3 -s MALLOC=emmalloc -o public/game_engine.js"
           "/workspace" demo_disk KeyboardInterrupt
           eq_refl default_dirs_configured eq_refl eq_refl eq_refl eq_refl
           eq_refl eq_refl eq_refl).
Defined.

Lemma build_command_error_witness :
  fst (prepare_build_command "release"
         (mkSys paths_only_monitor (demo_world emcc_installed compiles)))
  = Raise (KeyError "build_modes")
  /\ exists b,
       fst (build compact_dumps "release" None
              (mkSys paths_only_monitor (demo_world emcc_installed compiles)))
       = Ret (Some b)
       /\ success b = false
       /\ error_message b = "'build_modes'".
Proof.
  split; [reflexivity|].
  destruct (build_command_error compact_dumps
              (mkSys paths_only_monitor (demo_world emcc_installed compiles))
              "release" None
              (mkCompletedProcess 0
                 "emcc (Emscripten gcc/clang-like replacement) 3.1.45" "")
              "emcc" (KeyError "build_modes")
              eq_refl paths_only_dirs_configured eq_refl eq_refl eq_refl
              eq_refl)
    as (b & cache_dir & logs_dir & _ & _ & Hret & Hs & He & _).
  exists b. now repeat split.
Defined.

Lemma prepare_build_command_unlisted_mode_witness :
  prepare_build_command "debug" (demo_sys emcc_installed compiles)
  = (Ret "emcc wasm/game_engine.cpp -Iwasm/include  -O3  -o public/game_engine.js",
     demo_sys emcc_installed compiles).
Proof.
  exact (prepare_build_command_unlisted_mode "debug"
           (demo_sys emcc_installed compiles)
           [("release", JDict [("optimization", JStr "-O3");
                               ("flags", JList [JStr "-s MALLOC=emmalloc"])])]
           "wasm" "public" "" (JList [])
           eq_refl eq_refl eq_refl eq_refl eq_refl eq_refl).
Defined.

Lemma on_modified_starved_witness :
  let events := [modified "wasm/game_engine.cpp";
                 modified "wasm/src/entity.cpp";
                 modified "wasm/include/entity.h"] in
  let w' := snd (dispatch compact_dumps events busy_watch) in
  fst (dispatch compact_dumps events busy_watch) = Ret tt
  /\ build_history (self (monitor w')) = []
  /\ log (world (monitor w')) = []
  /\ pending_changes (handler w')
     = list_to_set (src_path <$> events) ∪ ∅.
Proof.
  cbv zeta.
  destruct (on_modified_starved compact_dumps
              [modified "wasm/game_engine.cpp";
               modified "wasm/src/entity.cpp";
               modified "wasm/include/entity.h"] busy_watch)
    as (Hret & Hself & _ & Hlog & _ & Hpending).
  { repeat constructor. }
  { vm_compute. reflexivity. }
  split; [exact Hret|]. split; [now rewrite Hself|].
  split; [exact Hlog | exact Hpending].
Defined.

Lemma on_modified_during_build_witness :
  let w := mkWatch (mkWASMEventHandler "release" {["wasm/src/entity.cpp"]} 0 1)
             (mkSys (set_is_building true demo_monitor)
                    (demo_world emcc_installed compiles)) in
  let w' := snd (on_modified compact_dumps (modified "wasm/game_engine.cpp")
                   w) in
  pending_changes (handler w') = ∅
  /\ build_history (self (monitor w')) = [].
Proof.
  cbv zeta.
  destruct (on_modified_during_build compact_dumps
              (modified "wasm/game_engine.cpp")
              (mkWatch
                 (mkWASMEventHandler "release" {["wasm/src/entity.cpp"]} 0 1)
                 (mkSys (set_is_building true demo_monitor)
                        (demo_world emcc_installed compiles))))
    as (_ & Hpending & Hself & _); try reflexivity.
  split; [exact Hpending | now rewrite Hself].
Defined.

Lemma on_modified_after_quiet_witness :
  let w' := snd (on_modified compact_dumps (modified "wasm/game_engine.cpp")
                   demo_watch) in
  exists b,
    build_history (self (monitor w')) = [b]
    /\ files_changed b = elements ({["wasm/game_engine.cpp"]} ∪ ∅ : gset string)
    /\ mode b = "release".
Proof.
  cbv zeta.
  destruct (on_modified_after_quiet compact_dumps
              (modified "wasm/game_engine.cpp") demo_watch)
    as (b & Hhist & Hfiles & Hmode & _);
    try reflexivity; [exact default_dirs_configured|].
  exists b. split; [exact Hhist|]. split; [exact Hfiles | exact Hmode].
Defined.

Lemma changed_among_detects_witness :
  let files := ["wasm/game_engine.cpp"; "wasm/src/entity.cpp";
                "wasm/game_engine.cpp"] in
  exists l s',
    changed_among files [] (demo_sys emcc_installed compiles) = (Ret l, s')
    /\ NoDup l
    /\ "wasm/game_engine.cpp" ∈ l
    /\ ("wasm/src/entity.cpp" ∉ l)
    /\ changed_among files [] s' = (Ret [], s').
Proof.
  cbv zeta.
  destruct (changed_among_detects
              ["wasm/game_engine.cpp"; "wasm/src/entity.cpp";
               "wasm/game_engine.cpp"] (demo_sys emcc_installed compiles))
    as (l & s' & E & Hnd & Hin & _ & _ & _ & _ & Hagain).
  { repeat constructor. }
  exists l, s'. split; [exact E|]. split; [exact Hnd|].
  split; [|split; [|exact Hagain]].
  - apply Hin. split; [now left|]. apply (stale_unrecorded _ _ true "int main() { return 0; }");
      reflexivity.
  - intros [_ H]%Hin. apply H. reflexivity.
Defined.

Lemma poll_unreadable_witness :
  let s := mkSys demo_monitor
             (set_disk locked_disk (demo_world emcc_installed compiles)) in
  fst (get_source_files demo_glob s)
  = Ret ["wasm/game_engine.cpp"; "wasm/game_engine.cpp"; "wasm/src/entity.cpp"]
  /\ fst (poll compact_dumps demo_glob "release" s)
     = Raise (PermissionError "wasm/src/entity.cpp")
  /\ build_history (self (snd (poll compact_dumps demo_glob "release" s))) = [].
Proof.
  cbv zeta.
  assert (Hfiles :
    fst (get_source_files demo_glob
           (mkSys demo_monitor
              (set_disk locked_disk (demo_world emcc_installed compiles))))
    = Ret (["wasm/game_engine.cpp"; "wasm/game_engine.cpp"]
             ++ "wasm/src/entity.cpp" :: []))
    by (vm_compute; reflexivity).
  split; [exact Hfiles|].
  destruct (poll_unreadable compact_dumps demo_glob "release"
              (mkSys demo_monitor
                 (set_disk locked_disk (demo_world emcc_installed compiles)))
              ["wasm/game_engine.cpp"; "wasm/game_engine.cpp"] []
              "wasm/src/entity.cpp" (PermissionError "wasm/src/entity.cpp")
              Hfiles)
    as (Hret & _ & _ & Hhist & _).
  { repeat constructor. }
  { reflexivity. }
  split; [exact Hret | exact Hhist].
Defined.

Lemma poll_quiet_witness :
  let s := snd (changed_among ["wasm/game_engine.cpp"; "wasm/game_engine.cpp"]
                  [] (demo_sys emcc_installed compiles)) in
  poll compact_dumps demo_glob "release" s = (Ret tt, s).
Proof.
  cbv zeta.
  destruct (changed_among_spec
              ["wasm/game_engine.cpp"; "wasm/game_engine.cpp"] []
              (demo_sys emcc_installed compiles))
    as (l & s' & E & Hw & Hcfg & _ & _ & _ & _ & _ & _ & Hset & _).
  { repeat constructor. }
  rewrite E. cbn [snd].
  apply (poll_quiet compact_dumps demo_glob "release" s'
           ["wasm/game_engine.cpp"; "wasm/game_engine.cpp"]);
    [|exact Hset].
  rewrite (get_source_files_ext demo_glob s'
             (demo_sys emcc_installed compiles))
    by (rewrite ?Hcfg, ?Hw; reflexivity).
  vm_compute. reflexivity.
Defined.

Lemma poll_builds_witness :
  let s' := snd (poll compact_dumps demo_glob "release"
                   (demo_sys emcc_installed compiles)) in
  exists b,
    build_history (self s') = [b]
    /\ mode b = "release"
    /\ NoDup (files_changed b)
    /\ "wasm/game_engine.cpp" ∈ files_changed b.
Proof.
  cbv zeta.
  assert (Hfiles :
    fst (get_source_files demo_glob (demo_sys emcc_installed compiles))
    = Ret ["wasm/game_engine.cpp"; "wasm/game_engine.cpp"])
    by (vm_compute; reflexivity).
  assert (Hstale : stale (demo_sys emcc_installed compiles)
                         "wasm/game_engine.cpp")
    by (apply (stale_unrecorded _ _ true "int main() { return 0; }");
        reflexivity).
  assert (Hin : "wasm/game_engine.cpp"
                ∈ ["wasm/game_engine.cpp"; "wasm/game_engine.cpp"])
    by (now left).
  assert (Hall :
    Forall (fun p => returns (calculate_file_hash
                                (disk (world (demo_sys emcc_installed compiles)))
                                p) = true)
           ["wasm/game_engine.cpp"; "wasm/game_engine.cpp"])
    by (repeat constructor).
  destruct (poll_builds compact_dumps demo_glob "release"
              (demo_sys emcc_installed compiles)
              ["wasm/game_engine.cpp"; "wasm/game_engine.cpp"]
              "wasm/game_engine.cpp" Hfiles
              Hall Hin Hstale eq_refl default_dirs_configured)
    as (b & Hhist & Hmode & Hnd & Hiff).
  exists b. split; [exact Hhist|]. split; [exact Hmode|].
  split; [exact Hnd|].
  apply Hiff. split; [exact Hin | exact Hstale].
Defined.

Lemma setup_directories_idempotent_witness :
  let s := mkSys demo_monitor
             (set_disk ∅ (demo_world emcc_installed compiles)) in
  let s' := snd (setup_directories s) in
  fst (setup_directories s) = Ret tt
  /\ setup_directories s' = (Ret tt, s')
  /\ disk (world s') !! "public" = Some Dir
  /\ disk (world s') !! ".build-cache" = Some Dir
  /\ disk (world s') !! "logs" = Some Dir.
Proof.
  cbv zeta.
  assert (Hret :
    fst (setup_directories
           (mkSys demo_monitor
              (set_disk ∅ (demo_world emcc_installed compiles)))) = Ret tt)
    by (vm_compute; reflexivity).
  split; [exact Hret|].
  destruct (setup_directories_idempotent _ _ (pair_of_fst _ _ Hret))
    as (Hagain & _ & _ & Hdirs).
  split; [exact Hagain|].
  repeat split; apply Hdirs with (k := _);
    first [ reflexivity | set_solver ].
Defined.

(** The burst of [demo_burst], handled: one build, no digest recorded. *)
Lemma dispatch_monitor_witness :
  let events := [modified "wasm/game_engine.cpp";
                 modified "wasm/src/entity.cpp"] in
  let m' := self (monitor (snd (dispatch compact_dumps events demo_watch))) in
  is_building m' = false
  /\ file_hashes m' = ∅
  /\ (total_builds (stats m') <= 2)%Z.
Proof.
  cbv zeta.
  destruct (dispatch_monitor compact_dumps
              [modified "wasm/game_engine.cpp"; modified "wasm/src/entity.cpp"]
              demo_watch default_dirs_configured eq_refl)
    as (Hflag & _ & Hhashes & _ & Hle).
  split; [exact Hflag|]. split; [exact Hhashes | exact Hle].
Defined.
